(** * Smart Grocery Saver: a shallow embedding of [app.py]

    The development follows the layout of the program: the Python values the
    program manipulates (the results of [json.loads]), the helper [_safe_sum],
    the classification client [classify_items_with_ai], the receipt
    transcription client [extract_text_from_receipt] with its poll loop, and
    the analysis block of the user interface.

    Data.  Python's [float] is IEEE-754 binary64, which is Rocq's primitive
    [float]; Python's [int] is unbounded, hence [Z]; a Python [str] is a
    sequence of Unicode code points; a [dict] is its list of bindings.

    Effects.  Code that may raise returns a [result]; [try]/[except] is a
    match on it.  The calls to Streamlit are collected in order ([ui]); the
    HTTP calls and sleeps of the transcription client are returned with its
    result.  What the remote services answer is an input: an [outcome] per
    request.

    Library functions whose code is not the program's are parameters of the
    sections that use them: [float] on a string, [json.loads] (which decodes,
    raises [JSONDecodeError], or gives up at a limit of the decoder),
    [requests.post] for the chat completion, the formatting of f-strings, and
    the values [st.table] refuses.  Instances of them, for the examples, are
    defined with the vocabulary of the properties. *)

From Stdlib Require Import ZArith NArith List String Ascii Bool Lia DecimalString.
From Stdlib Require Import Floats.
Import ListNotations.

Set Implicit Arguments.

(** ** Strings *)

Module Str.

(** A code point, and a Python [str]. *)
Definition char := N.
Definition str := list char.

Definition eqb (s t : str) : bool :=
  if list_eq_dec N.eq_dec s t then true else false.

(** UTF-8 decoding of the bytes of a literal, so that the program's string
    constants can be written as they are in the source. *)
Fixpoint utf8 (bs : list N) : str :=
  match bs with
  | [] => []
  | b :: rest =>
      if (b <? 128)%N then b :: utf8 rest
      else if (b <? 224)%N then
        match rest with
        | b1 :: rest1 => ((b - 192) * 64 + (b1 - 128))%N :: utf8 rest1
        | [] => [b]
        end
      else if (b <? 240)%N then
        match rest with
        | b1 :: b2 :: rest2 =>
            ((b - 224) * 4096 + (b1 - 128) * 64 + (b2 - 128))%N :: utf8 rest2
        | _ => [b]
        end
      else
        match rest with
        | b1 :: b2 :: b3 :: rest3 =>
            ((b - 240) * 262144 + (b1 - 128) * 4096 + (b2 - 128) * 64 + (b3 - 128))%N
              :: utf8 rest3
        | _ => [b]
        end
  end.

Definition u (s : string) : str :=
  utf8 (map N_of_ascii (list_ascii_of_string s)).

(** [str.lower] on the ASCII range.  Code points outside ASCII are left as
    they are; [str.lower] maps none of them to a letter of [succeeded] or
    [failed] (the only such mappings onto ASCII letters are U+212A to [k] and
    U+0130 to [i] followed by U+0307), so the comparisons of the poll loop
    are the same as Python's. *)
Definition lower_char (c : char) : char :=
  if ((65 <=? c) && (c <=? 90))%N then (c + 32)%N else c.

Definition lower (s : str) : str := map lower_char s.

(** [str.isspace] for one code point: the characters [str.strip] removes. *)
Definition is_space (c : char) : bool :=
  (((9 <=? c) && (c <=? 13)) || ((28 <=? c) && (c <=? 32))
   || (c =? 133) || (c =? 160) || (c =? 5760)
   || ((8192 <=? c) && (c <=? 8202))
   || (c =? 8232) || (c =? 8233) || (c =? 8239) || (c =? 8287)
   || (c =? 12288))%N.

Fixpoint lstrip (s : str) : str :=
  match s with
  | c :: rest => if is_space c then lstrip rest else s
  | [] => []
  end.

Definition rstrip (s : str) : str := rev (lstrip (rev s)).

Definition strip (s : str) : str := rstrip (lstrip s).

(** [sep.join(parts)] *)
Fixpoint join (sep : str) (parts : list str) : str :=
  match parts with
  | [] => []
  | [p] => p
  | p :: rest => p ++ sep ++ join sep rest
  end.

Fixpoint startswith (s prefix : str) : bool :=
  match prefix, s with
  | [], _ => true
  | p :: prefix', c :: s' => (p =? c)%N && startswith s' prefix'
  | _ :: _, [] => false
  end.

Definition newline : str := [10%N].

End Str.

Import Str.

(** ** Python values and exceptions *)

(** The values [json.loads] produces.  A [dict] is kept as its list of
    bindings in insertion order (keys are distinct in a dict; lookup takes the
    first binding). *)
#[local] Unset Elimination Schemes.
Inductive value : Type :=
| VNone
| VBool (b : bool)
| VInt (n : Z)
| VFloat (f : float)
| VStr (s : str)
| VList (l : list value)
| VDict (d : list (str * value)).
#[local] Set Elimination Schemes.

Inductive exn_class : Type :=
| AttributeError
| TypeError
| ValueError
| KeyError
| IndexError
| OverflowError
| ZeroDivisionError
| JSONDecodeError
| HTTPError
| RequestException
| RecursionError
| TableError.

(** An exception: its class and [str(e)]. *)
Record exn : Type := Exn { exn_cls : exn_class; exn_msg : str }.

Inductive result (A : Type) : Type :=
| Ok (a : A)
| Raise (e : exn).

Arguments Ok {A} a.
Arguments Raise {A} e.

Definition bind {A B} (r : result A) (k : A -> result B) : result B :=
  match r with
  | Ok a => k a
  | Raise e => Raise e
  end.

Notation "x <- c ;; k" := (bind c (fun x => k))
  (at level 61, c at next level, right associativity).

(** [try: c  except Exception: h] *)
Definition try_except {A} (c : result A) (h : exn -> A) : A :=
  match c with
  | Ok a => a
  | Raise e => h e
  end.

Module Py.

Definition type_name (v : value) : str :=
  match v with
  | VNone => u "NoneType"
  | VBool _ => u "bool"
  | VInt _ => u "int"
  | VFloat _ => u "float"
  | VStr _ => u "str"
  | VList _ => u "list"
  | VDict _ => u "dict"
  end.

Definition no_attribute (v : value) (attr : str) : exn :=
  Exn AttributeError
      (u "'" ++ type_name v ++ u "' object has no attribute '" ++ attr ++ u "'").

(** Truth value of an object: [None], [False], zero, and empty containers
    are false.  A float is false when it compares equal to zero (both signed
    zeros). *)
Definition truthy (v : value) : bool :=
  match v with
  | VNone => false
  | VBool b => b
  | VInt n => negb (n =? 0)%Z
  | VFloat f => negb (f =? 0)%float
  | VStr s => match s with [] => false | _ => true end
  | VList l => match l with [] => false | _ => true end
  | VDict d => match d with [] => false | _ => true end
  end.

(** [a or b] *)
Definition or_ (a b : value) : value := if truthy a then a else b.

Fixpoint lookup (d : list (str * value)) (k : str) : option value :=
  match d with
  | [] => None
  | (k', v) :: rest => if Str.eqb k' k then Some v else lookup rest k
  end.

(** [obj.get(key, default)]: only a [dict] has the method. *)
Definition get (obj : value) (k : str) (default : value) : result value :=
  match obj with
  | VDict d => Ok (match lookup d k with Some v => v | None => default end)
  | _ => Raise (no_attribute obj (u "get"))
  end.

(** Iteration of a [for] loop over an object: a list yields its elements, a
    dict its keys, a string its characters; other values are not iterable. *)
Definition iter (v : value) : result (list value) :=
  match v with
  | VList l => Ok l
  | VDict d => Ok (map (fun kv => VStr (fst kv)) d)
  | VStr s => Ok (map (fun c => VStr [c]) s)
  | _ => Raise (Exn TypeError (u "'" ++ type_name v ++ u "' object is not iterable"))
  end.

(** [float(n)] for an [int]: rounding to nearest, ties to even;
    [OverflowError] when the result is out of range. *)
Definition float_of_int (n : Z) : result float :=
  match binary_normalize prec emax n 0 false with
  | S754_infinity _ => Raise (Exn OverflowError (u "int too large to convert to float"))
  | s => Ok (SF2Prim s)
  end.

End Py.

(** ** The aggregator *)

Section Aggregator.

(** [float(s)] for a [str] is the interpreter's own parser (decimal and
    special literals, surrounding whitespace); it is taken as a parameter:
    [None] stands for [ValueError]. *)
Variable float_of_str : str -> option float.

(** [float(v)] *)
Definition py_float (v : value) : result float :=
  match v with
  | VFloat f => Ok f
  | VInt n => Py.float_of_int n
  | VBool b => Ok (if b then 1 else 0)%float
  | VStr s =>
      match float_of_str s with
      | Some f => Ok f
      | None => Raise (Exn ValueError
                         (u "could not convert string to float: '" ++ s ++ u "'"))
      end
  | _ => Raise (Exn TypeError
                  (u "float() argument must be a string or a real number, not '"
                     ++ Py.type_name v ++ u "'"))
  end.

(** [float(it.get("price", 0) or 0)] *)
Definition price_term (it : value) : result float :=
  p <- Py.get it (u "price") (VInt 0) ;;
  py_float (Py.or_ p (VInt 0)).

(** The body of the loop of [_safe_sum]:
    [try: total += float(...)  except Exception: pass] *)
Definition safe_sum_step (total : float) (it : value) : float :=
  try_except (f <- price_term it ;; Ok (total + f)%float) (fun _ => total).

(** [_safe_sum(items)]: [items or []] is iterated, from [total = 0.0]. *)
Definition _safe_sum (items : value) : result float :=
  its <- Py.iter (Py.or_ items (VList [])) ;;
  Ok (fold_left safe_sum_step its 0%float).

End Aggregator.

(** ** Subscripts and string methods on arbitrary values *)

Module Sub.

Definition not_subscriptable (v : value) : exn :=
  Exn TypeError (u "'" ++ Py.type_name v ++ u "' object is not subscriptable").

(** [obj[key]] for a string key. *)
Definition getitem_key (obj : value) (k : str) : result value :=
  match obj with
  | VDict d =>
      match Py.lookup d k with
      | Some v => Ok v
      | None => Raise (Exn KeyError (u "'" ++ k ++ u "'"))
      end
  | VList _ => Raise (Exn TypeError (u "list indices must be integers or slices, not str"))
  | VStr _ => Raise (Exn TypeError (u "string indices must be integers, not 'str'"))
  | _ => Raise (not_subscriptable obj)
  end.

(** [obj[0]].  The keys of a decoded JSON object are strings, so [0] is never
    a key of a dict. *)
Definition getitem_zero (obj : value) : result value :=
  match obj with
  | VList (v :: _) => Ok v
  | VList [] => Raise (Exn IndexError (u "list index out of range"))
  | VStr (c :: _) => Ok (VStr [c])
  | VStr [] => Raise (Exn IndexError (u "string index out of range"))
  | VDict _ => Raise (Exn KeyError (u "0"))
  | _ => Raise (not_subscriptable obj)
  end.

(** [v.lower()] and [v.strip()]: only a [str] has the methods. *)
Definition lower (v : value) : result str :=
  match v with
  | VStr s => Ok (Str.lower s)
  | _ => Raise (Py.no_attribute v (u "lower"))
  end.

Definition strip (v : value) : result str :=
  match v with
  | VStr s => Ok (Str.strip s)
  | _ => Raise (Py.no_attribute v (u "strip"))
  end.

End Sub.

(** ** The HTTP collaborators *)

(** The two limits of the JSON decoder on text that is JSON: an integer
    literal with more digits than the interpreter converts ([ValueError]),
    and nesting deeper than the interpreter recurses ([RecursionError]). *)
Inductive decoder_limit : Type :=
| DigitLimit
| DepthLimit.

Definition limit_class (l : decoder_limit) : exn_class :=
  match l with
  | DigitLimit => ValueError
  | DepthLimit => RecursionError
  end.

(** What [response.json()] and [json.loads] give for a text: the decoded
    value; a [JSONDecodeError] with its message, for text that is not JSON;
    or the exception of a limit of the decoder, with its message, which is
    no [JSONDecodeError]. *)
Inductive decoded : Type :=
| Decoded (v : value)
| Undecodable (msg : str)
| Exceeds (limit : decoder_limit) (msg : str).

Definition decode_result (d : decoded) : result value :=
  match d with
  | Decoded v => Ok v
  | Undecodable msg => Raise (Exn JSONDecodeError msg)
  | Exceeds limit msg => Raise (Exn (limit_class limit) msg)
  end.

(** A [requests.Response]: status, headers, [.text], what [.json()] gives, and
    the message [raise_for_status] puts in its [HTTPError]. *)
Record response : Type := Response {
  status_code : Z;
  headers : list (str * str);
  text : str;
  json : decoded;
  error_text : str
}.

(** The outcome of [requests.post] or [requests.get]: a response, or a
    transport failure (connection error, timeout, invalid URL: the
    [RequestException]s other than [HTTPError], which only
    [raise_for_status] raises). *)
Inductive outcome : Type :=
| Fails (msg : str)
| Responds (r : response).

Definition raise_for_status (r : response) : result unit :=
  if ((400 <=? status_code r) && (status_code r <? 600))%Z
  then Raise (Exn HTTPError (error_text r))
  else Ok tt.

(** [response.headers.get(name)]: header names compare without case; [None]
    when absent. *)
Fixpoint header_get (hs : list (str * str)) (name : str) : value :=
  match hs with
  | [] => VNone
  | (k, v) :: rest =>
      if Str.eqb (Str.lower k) (Str.lower name) then VStr v else header_get rest name
  end.

(** ** The user interface calls *)

Inductive st_call : Type :=
| st_error (msg : str)
| st_warning (msg : str)
| st_write (v : value)
| st_json (v : value)
| st_subheader (title : str)
| st_table (v : value).

(** Code that renders as it goes and may raise: the calls made so far, and the
    result. *)
Definition ui (A : Type) : Type := (list st_call * result A)%type.

Definition ui_ret {A} (a : A) : ui A := ([], Ok a).

Definition ui_bind {A B} (m : ui A) (k : A -> ui B) : ui B :=
  match m with
  | (calls, Ok a) => let (calls', r) := k a in (calls ++ calls', r)
  | (calls, Raise e) => (calls, Raise e)
  end.

Definition emit (c : st_call) : ui unit := ([c], Ok tt).

Definition lift {A} (r : result A) : ui A := ([], r).

Notation "x <~ c ;; k" := (ui_bind c (fun x => k))
  (at level 61, c at next level, right associativity).
Notation "c ;;; k" := (ui_bind c (fun _ => k))
  (at level 61, right associativity).

(** ** Phase 1: the classification client *)

Section Classifier.

(** [json.loads] on a [str], taken as a parameter. *)
Variable json_loads : str -> decoded.

(** [requests.post] of the request built from the grocery text (the endpoint,
    the key and the prompt around the text are fixed by the environment),
    taken as a parameter. *)
Variable requests_post : str -> outcome.

(** [json.loads(content)] *)
Definition loads (content : value) : result value :=
  match content with
  | VStr s => decode_result (json_loads s)
  | _ => Raise (Exn TypeError
                  (u "the JSON object must be str, bytes or bytearray, not "
                     ++ Py.type_name content))
  end.

(** [payload["choices"][0]["message"]["content"]] *)
Definition completion_content (payload : value) : result value :=
  choices <- Sub.getitem_key payload (u "choices") ;;
  first <- Sub.getitem_zero choices ;;
  message <- Sub.getitem_key first (u "message") ;;
  Sub.getitem_key message (u "content").

(** The [try] block once [requests.post] has returned [resp]; the first
    component is the local [payload] if the block got to bind it. *)
Definition try_block (resp : response) : option value * result value :=
  match raise_for_status resp with
  | Raise e => (None, Raise e)
  | Ok _ =>
      match decode_result (json resp) with
      | Raise e => (None, Raise e)
      | Ok payload =>
          (Some payload, content <- completion_content payload ;; loads content)
      end
  end.

Definition no_content : value := VStr (u "(no content)").

(** The three [except] clauses, in the order of the source. *)
Definition handlers (resp : response) (payload : option value) (e : exn) : ui value :=
  match exn_cls e with
  | JSONDecodeError =>
      emit (st_error (u "AI did not return valid JSON. Showing raw content:")) ;;;
      shown <~ lift (match payload with
                     | Some p => completion_content p
                     | None => Ok no_content
                     end) ;;
      emit (st_write shown) ;;;
      ui_ret VNone
  | HTTPError =>
      emit (st_error (u "Azure OpenAI HTTP error")) ;;;
      emit (match decode_result (json resp) with
            | Ok body => st_json body
            | Raise _ => st_write (VStr (text resp))
            end) ;;;
      ui_ret VNone
  | _ =>
      emit (st_error (u "Unexpected error calling Azure OpenAI: " ++ exn_msg e)) ;;;
      ui_ret VNone
  end.

(** [classify_items_with_ai(grocery_text)] *)
Definition classify_items_with_ai (grocery_text : str) : ui value :=
  match requests_post grocery_text with
  | Fails msg =>
      emit (st_error (u "Unexpected error calling Azure OpenAI: " ++ msg)) ;;;
      ui_ret VNone
  | Responds resp =>
      match try_block resp with
      | (_, Ok data) => ui_ret data
      | (payload, Raise e) => handlers resp payload e
      end
  end.

End Classifier.

(** ** Phase 2: receipt transcription *)

Module Ocr.

(** The OCR service as the client sees it: what the submission of the file
    bytes returns, and what the [attempt]-th poll (counted from 0) of a job
    URL returns. *)
Record service : Type := Service {
  submit : list N -> outcome;
  poll : nat -> value -> outcome
}.

(** The calls the client makes, in order. *)
Inductive call : Type :=
| post_analyze
| get_operation (url : value)
| sleep (seconds : Z).

Definition no_operation_location : str :=
  u "⚠️ OCR did not return a valid Operation-Location.".
Definition no_text_found : str := u "⚠️ No text found on this receipt.".
Definition ocr_failed : str := u "⚠️ OCR failed to process the receipt.".
Definition ocr_timed_out : str := u "⚠️ OCR timed out while reading the receipt.".
Definition ocr_error (e : exn) : str := u "⚠️ OCR error: " ++ exn_msg e.

(** [submit.headers.get("Operation-Location") or
     submit.json().get("operationLocation")]: the body is decoded only when
    the header is absent or empty. *)
Definition operation_location (resp : response) : result value :=
  let h := header_get (headers resp) (u "Operation-Location") in
  if Py.truthy h then Ok h
  else
    body <- decode_result (json resp) ;;
    Py.get body (u "operationLocation") VNone.

(** [txt = line.get("text", "").strip()] *)
Definition line_text (line : value) : result str :=
  t <- Py.get line (u "text") (VStr []) ;;
  Sub.strip t.

(** [for line in ...: txt = ...; if txt: lines.append(txt)] *)
Fixpoint page_lines (lines_of_page : list value) (lines : list str) : result (list str) :=
  match lines_of_page with
  | [] => Ok lines
  | line :: rest =>
      txt <- line_text line ;;
      page_lines rest (match txt with [] => lines | _ => lines ++ [txt] end)
  end.

(** [for page in analyze.get("readResults", []): for line in page.get("lines", []): ...] *)
Fixpoint all_lines (pages : list value) (lines : list str) : result (list str) :=
  match pages with
  | [] => Ok lines
  | page :: rest =>
      ls <- (l <- Py.get page (u "lines") (VList []) ;; Py.iter l) ;;
      lines' <- page_lines ls lines ;;
      all_lines rest lines'
  end.

(** The [succeeded] branch. *)
Definition read_text (result_ : value) : result str :=
  analyze <- Py.get result_ (u "analyzeResult") (VDict []) ;;
  pages <- (r <- Py.get analyze (u "readResults") (VList []) ;; Py.iter r) ;;
  lines <- all_lines pages [] ;;
  Ok (match lines with
      | [] => no_text_found
      | _ => Str.join Str.newline lines
      end).

(** What one iteration of the poll loop decides, before it sleeps. *)
Inductive verdict : Type :=
| Continue
| Return (s : str).

Definition poll_once (o : outcome) : result verdict :=
  match o with
  | Fails msg => Raise (Exn RequestException msg)
  | Responds resp =>
      _ <- raise_for_status resp ;;
      result_ <- decode_result (json resp) ;;
      st <- Py.get result_ (u "status") (VStr []) ;;
      status <- Sub.lower st ;;
      if Str.eqb status (u "succeeded") then
        s <- read_text result_ ;; Ok (Return s)
      else if Str.eqb status (u "failed") then
        Ok (Return ocr_failed)
      else Ok Continue
  end.

(** [for _ in range(n): ...] from attempt number [attempt], then the
    time-out [return]; the calls made are returned with the result.  An
    iteration that neither returns nor raises ends with [time.sleep(1)]. *)
Fixpoint poll_loop (svc : service) (op_location : value) (n attempt : nat)
  : list call * result str :=
  match n with
  | O => ([], Ok ocr_timed_out)
  | S n' =>
      match poll_once (poll svc attempt op_location) with
      | Raise e => ([get_operation op_location], Raise e)
      | Ok (Return s) => ([get_operation op_location], Ok s)
      | Ok Continue =>
          let (calls, r) := poll_loop svc op_location n' (S attempt) in
          (get_operation op_location :: sleep 1 :: calls, r)
      end
  end.

(** The [try] block of [extract_text_from_receipt]. *)
Definition transcribe (svc : service) (file_bytes : list N) : list call * result str :=
  match submit svc file_bytes with
  | Fails msg => ([post_analyze], Raise (Exn RequestException msg))
  | Responds resp =>
      match (_ <- raise_for_status resp ;; operation_location resp) with
      | Raise e => ([post_analyze], Raise e)
      | Ok op_location =>
          if negb (Py.truthy op_location) then ([post_analyze], Ok no_operation_location)
          else
            let (calls, r) := poll_loop svc op_location 60 0 in
            (post_analyze :: calls, r)
      end
  end.

(** [extract_text_from_receipt(file_bytes)]: every exception becomes the
    [OCR error] text. *)
Definition extract_text_from_receipt (svc : service) (file_bytes : list N)
  : list call * str :=
  let (calls, r) := transcribe svc file_bytes in
  (calls, try_except r ocr_error).

End Ocr.

(** ** The analysis block of the interface *)

Section Analysis.

Variable float_of_str : str -> option float.

(** The formatting of a float with a fixed number of decimals
    ([{x:.2f}], [{x:.1f}]) and of a value in an f-string ([{s}]) are the
    interpreter's; they are parameters. *)
Variable format_fixed : nat -> float -> str.
Variable format_value : value -> str.

(** [st.table(data)] is the library's: it renders the value as a table, or
    raises when the value cannot be put in one (a string or a number, for
    one).  Which values those are is a parameter: it gives the message of the
    exception for them.  The class of the exception is the library's own,
    [TableError] here. *)
Variable table_error : value -> option str.

Definition table (data : value) : ui unit :=
  match table_error data with
  | None => emit (st_table data)
  | Some msg => lift (Raise (Exn TableError msg))
  end.

(** [x / y] on floats: [ZeroDivisionError] for a zero divisor. *)
Definition truediv (x y : float) : result float :=
  if (y =? 0)%float then Raise (Exn ZeroDivisionError (u "float division by zero"))
  else Ok (x / y)%float.

(** The figures of lines 186 to 191. *)
Record figures : Type := Figures {
  essentials_total : float;
  non_essentials_total : float;
  total_spent : float;
  saving_remove : float;
  saving_half : float
}.

(** [total_spent = essentials_total + non_essentials_total],
    [saving_remove = non_essentials_total],
    [saving_half = non_essentials_total / 2.0] *)
Definition derive_figures (essentials_total non_essentials_total : float)
  : result figures :=
  let total_spent := (essentials_total + non_essentials_total)%float in
  let saving_remove := non_essentials_total in
  saving_half <- truediv non_essentials_total 2 ;;
  Ok {| essentials_total := essentials_total;
        non_essentials_total := non_essentials_total;
        total_spent := total_spent;
        saving_remove := saving_remove;
        saving_half := saving_half |}.

Definition compute_figures (essentials non_essentials : value) : result figures :=
  essentials_total <- _safe_sum float_of_str essentials ;;
  non_essentials_total <- _safe_sum float_of_str non_essentials ;;
  derive_figures essentials_total non_essentials_total.

Definition rs (amount : float) : str := u "Rs." ++ format_fixed 2 amount.

Definition summary_section (f : figures) : ui unit :=
  emit (st_subheader (u "📊 Summary")) ;;;
  emit (st_write (VStr (u "**Total Spent:** " ++ rs (total_spent f)))) ;;;
  emit (st_write (VStr (u "**Essentials:** " ++ rs (essentials_total f)))) ;;;
  emit (st_write (VStr (u "**Non-Essentials:** " ++ rs (non_essentials_total f)))).

(** [(saving/total_spent)*100] *)
Definition percentage (saving total : float) : result float :=
  q <- truediv saving total ;; Ok (q * 100)%float.

Definition savings_title : str := u "💰 Potential Savings".

Definition saving_line (label : str) (half_prefix : str) (saving pct : float) : st_call :=
  st_write (VStr (label ++ u ": Save **Rs." ++ half_prefix ++ format_fixed 2 saving
                    ++ u "** (" ++ format_fixed 1 pct ++ u "%)")).

(** [if total_spent > 0: ...].  The receipt tab writes [Rs.D:] in its second
    line, which [half_prefix] carries. *)
Definition savings_section (half_prefix : str) (f : figures) : ui unit :=
  if (0 <? total_spent f)%float then
    emit (st_subheader savings_title) ;;;
    p1 <~ lift (percentage (saving_remove f) (total_spent f)) ;;
    emit (saving_line (u "Remove all non-essentials") [] (saving_remove f) p1) ;;;
    p2 <~ lift (percentage (saving_half f) (total_spent f)) ;;
    emit (saving_line (u "Reduce non-essentials by 50%") half_prefix (saving_half f) p2)
  else ui_ret tt.

Definition suggestions_section (suggestions : value) : ui unit :=
  if Py.truthy suggestions then
    emit (st_subheader (u "📝 Suggestions")) ;;;
    items <~ lift (Py.iter suggestions) ;;
    (map (fun s => st_write (VStr (u "- " ++ format_value s))) items, Ok tt)
  else ui_ret tt.

(** [if data: ...] (lines 181 to 212, and 237 to 268 in the receipt tab). *)
Definition analysis (half_prefix : str) (data : value) : ui unit :=
  if Py.truthy data then
    essentials <~ lift (Py.get data (u "essentials") (VList [])) ;;
    non_essentials <~ lift (Py.get data (u "non_essentials") (VList [])) ;;
    suggestions <~ lift (Py.get data (u "suggestions") (VList [])) ;;
    f <~ lift (compute_figures essentials non_essentials) ;;
    summary_section f ;;;
    savings_section half_prefix f ;;;
    suggestions_section suggestions ;;;
    emit (st_subheader (u "✅ Essentials")) ;;;
    table essentials ;;;
    emit (st_subheader (u "🚫 Non-Essentials")) ;;;
    table non_essentials
  else ui_ret tt.

(** [json.loads] and [requests.post], as in the classification client. *)
Variable json_loads : str -> decoded.
Variable requests_post : str -> outcome.

(** The [Analyze (Text)] button of the manual-entry tab (lines 174 to 212). *)
Definition analyze_text (grocery_input : str) : ui unit :=
  match Str.strip grocery_input with
  | [] => emit (st_warning (u "Please enter your grocery list."))
  | _ =>
      data <~ classify_items_with_ai json_loads requests_post grocery_input ;;
      analysis [] data
  end.

(** The analysis block with the savings section left out, to compare with. *)
Definition analysis_without_savings (data : value) : ui unit :=
  if Py.truthy data then
    essentials <~ lift (Py.get data (u "essentials") (VList [])) ;;
    non_essentials <~ lift (Py.get data (u "non_essentials") (VList [])) ;;
    suggestions <~ lift (Py.get data (u "suggestions") (VList [])) ;;
    f <~ lift (compute_figures essentials non_essentials) ;;
    summary_section f ;;;
    suggestions_section suggestions ;;;
    emit (st_subheader (u "✅ Essentials")) ;;;
    table essentials ;;;
    emit (st_subheader (u "🚫 Non-Essentials")) ;;;
    table non_essentials
  else ui_ret tt.

End Analysis.

(** ** Vocabulary of the properties *)

(** Two floats that are the same number: identical, or both a zero (the two
    signed zeros compare equal). *)
Definition is_zero (x : float) : Prop := (x =? 0)%float = true.

Definition same_number (x y : float) : Prop := x = y \/ (is_zero x /\ is_zero y).

(** The total of a sequence of prices, added in order in binary64. *)
Definition float_total (ps : list float) : float := fold_left PrimFloat.add ps 0%float.

(** The float nearest to an integer, as [float(n)] gives it when it is in
    range. *)
Definition float_of_Z (n : Z) : float := SF2Prim (binary_normalize prec emax n 0 false).

(** The arithmetic total of integer prices. *)
Definition integer_total (ns : list Z) : Z := fold_right Z.add 0%Z ns.

(** A line item whose price is the integer [n]. *)
Definition integer_priced (it : value) (n : Z) : Prop :=
  exists d, it = VDict d /\ Py.lookup d (u "price") = Some (VInt n).

(** The binary64 form of a positive integer below [2^53]: the number of its
    binary digits, its mantissa shifted to 53 digits, and the exponent that
    goes with it. *)
Definition dig (p : positive) : Z := Zpos (digits2_pos p).

Definition shl (p : positive) (k : Z) : positive :=
  match k with
  | Zpos k' => Pos.iter xO p k'
  | _ => p
  end.

Definition canon (p : positive) : spec_float :=
  S754_finite false (shl p (53 - dig p)) (dig p - 53).

Definition norm (n : Z) : spec_float := binary_normalize prec emax n 0 false.

Definition exact (m : Z) : shr_record := {| shr_m := m; shr_r := false; shr_s := false |}.

Section Prices.

Variable float_of_str : str -> option float.

(** A price that is a well-formed number, and the number it is: a JSON number
    within the range of a float, or a numeral in a string. *)
Inductive numeric_price : value -> float -> Prop :=
| price_int n p : Py.float_of_int n = Ok p -> numeric_price (VInt n) p
| price_float p : numeric_price (VFloat p) p
| price_str s p : s <> [] -> float_of_str s = Some p -> numeric_price (VStr s) p.

(** A line item with such a price. *)
Definition priced (it : value) (p : float) : Prop :=
  exists d v, it = VDict d /\ Py.lookup d (u "price") = Some v /\ numeric_price v p.

(** A price that [float] does not parse. *)
Inductive unparseable : value -> Prop :=
| unparseable_none : unparseable VNone
| unparseable_str s : float_of_str s = None -> unparseable (VStr s)
| unparseable_list l : unparseable (VList l)
| unparseable_dict d : unparseable (VDict d)
| unparseable_int n e : Py.float_of_int n = Raise e -> unparseable (VInt n).

(** A line item whose price is missing (an item that is no record has none)
    or is not parseable. *)
Inductive no_price : value -> Prop :=
| no_price_record it : (forall d, it <> VDict d) -> no_price it
| no_price_key d : Py.lookup d (u "price") = None -> no_price (VDict d)
| no_price_value d v :
    Py.lookup d (u "price") = Some v -> unparseable v -> no_price (VDict d).

End Prices.

(** A parser of unsigned decimal numerals, a fragment of [float] on strings,
    for the examples. *)
Definition digit_value (c : char) : option Z :=
  if ((48 <=? c) && (c <=? 57))%N then Some (Z.of_N c - 48)%Z else None.

Fixpoint digits_value (s : str) (acc : Z) : option Z :=
  match s with
  | [] => Some acc
  | c :: rest =>
      match digit_value c with
      | Some d => digits_value rest (10 * acc + d)%Z
      | None => None
      end
  end.

Definition float_of_digits (s : str) : option float :=
  match s with
  | [] => None
  | _ =>
      match digits_value s 0 with
      | Some n => match Py.float_of_int n with Ok f => Some f | Raise _ => None end
      | None => None
      end
  end.

(** A line item as in the prompt of the classification client. *)
Definition line_item (name : string) (price : value) : value :=
  VDict [(u "item", VStr (u name)); (u "quantity", VInt 1); (u "price", price)].

(** Three well-formed prices, [2^53], 1 and 1, whose arithmetic total
    [2^53 + 2] is itself a float. *)
Definition large_prices : list value :=
  [line_item "Gold" (VInt 9007199254740992);
   line_item "Gum" (VInt 1);
   line_item "Mint" (VInt 1)].

(** The shape of a classification result: an object with the three
    sequences. *)
Definition is_list (v : option value) : bool :=
  match v with
  | Some (VList _) => true
  | _ => false
  end.

Definition is_classification_result (v : value) : bool :=
  match v with
  | VDict d =>
      is_list (Py.lookup d (u "essentials"))
      && is_list (Py.lookup d (u "non_essentials"))
      && is_list (Py.lookup d (u "suggestions"))
  | _ => false
  end.

(** A string literal of JSON text: the quotation mark is code point 34. *)
Definition quoted (s : string) : str := 34%N :: u s ++ [34%N].

(** The response of the chat-completion endpoint that carries [content] as
    its first completion. *)
Definition chat_payload (content : value) : value :=
  VDict [(u "choices",
          VList [VDict [(u "message",
                         VDict [(u "role", VStr (u "assistant"));
                                (u "content", content)])]])].

(** A response with status 200 and the JSON body [body]. *)
Definition ok_response (body : value) : response :=
  {| status_code := 200; headers := []; text := []; json := Decoded body;
     error_text := [] |}.

(** The message of [json.loads] on text that does not start a JSON value. *)
Definition decoding_error : str := u "Expecting value: line 1 column 1 (char 0)".

(** Three completion contents: a JSON array, an object with one of the three
    keys, and text that is not JSON; and [json.loads] on these texts. *)
Definition array_content : str := u "[1, 2]".

Definition partial_content : str :=
  u "{" ++ quoted "essentials" ++ u ": [{" ++ quoted "item" ++ u ": "
    ++ quoted "Milk" ++ u ", " ++ quoted "quantity" ++ u ": 1, "
    ++ quoted "price" ++ u ": 3}]}".

Definition prose_content : str := u "Here is your list: Milk is essential.".

Definition json_loads_sample (s : str) : decoded :=
  if Str.eqb s array_content then Decoded (VList [VInt 1; VInt 2])
  else if Str.eqb s partial_content then
    Decoded (VDict [(u "essentials", VList [line_item "Milk" (VInt 3)])])
  else Undecodable decoding_error.

(** Content that is one integer literal of 5000 digits, on which the decoder
    gives up with a [ValueError], and [json.loads] on it. *)
Definition long_numeral : str := repeat 57%N 5000.

Definition digit_limit_message : str :=
  u "Exceeds the limit (4300 digits) for integer string conversion: "
    ++ u "value has 5000 digits; use sys.set_int_max_str_digits() to increase the limit".

Definition json_loads_limited (s : str) : decoded :=
  if Str.eqb s long_numeral then Exceeds DigitLimit digit_limit_message
  else Undecodable decoding_error.

(** The endpoint answers every request with the completion [content]. *)
Definition completes_with (content : str) (grocery_text : str) : outcome :=
  Responds (ok_response (chat_payload (VStr content))).

Definition milk_list : str := u "Milk - 3".

(** What the client does on content it reports as malformed: the error, the
    raw content, and [None]. *)
Definition reports_malformed (shown : value) (out : ui value) : Prop :=
  out = ([st_error (u "AI did not return valid JSON. Showing raw content:");
          st_write shown], Ok VNone).

(** *** Transcription *)

(** Two code points that are the same letter up to ASCII case, and two
    strings that are the same up to the case of their letters. *)
Definition same_letter (a b : char) : Prop :=
  a = b
  \/ ((65 <= a <= 90)%N /\ b = (a + 32)%N)
  \/ ((65 <= b <= 90)%N /\ a = (b + 32)%N).

Definition ignoring_case (s t : str) : Prop := Forall2 same_letter s t.

(** The status a poll reads: a response with a success status whose body is a
    JSON object, with a string under [status] or no such field. *)
Inductive job_status : Type :=
| Absent
| Status (s : str).

Inductive polled : outcome -> list (str * value) -> job_status -> Prop :=
| polled_absent resp d :
    raise_for_status resp = Ok tt ->
    json resp = Decoded (VDict d) ->
    Py.lookup d (u "status") = None ->
    polled (Responds resp) d Absent
| polled_status resp d s :
    raise_for_status resp = Ok tt ->
    json resp = Decoded (VDict d) ->
    Py.lookup d (u "status") = Some (VStr s) ->
    polled (Responds resp) d (Status s).

Definition succeeded (st : job_status) : Prop :=
  exists s, st = Status s /\ ignoring_case s (u "succeeded").

Definition failed (st : job_status) : Prop :=
  exists s, st = Status s /\ ignoring_case s (u "failed").

Definition non_terminal (st : job_status) : Prop :=
  ~ succeeded st /\ ~ failed st.

(** A poll that reads a status that is not terminal. *)
Definition still_running (o : outcome) : Prop :=
  exists d st, polled o d st /\ non_terminal st.

(** The calls of [k] polls that each go on to sleep. *)
Fixpoint poll_trace (url : value) (k : nat) : list Ocr.call :=
  match k with
  | O => []
  | S k' => Ocr.get_operation url :: Ocr.sleep 1 :: poll_trace url k'
  end.

Definition is_get (c : Ocr.call) : bool :=
  match c with
  | Ocr.get_operation _ => true
  | _ => false
  end.

Definition is_sleep (c : Ocr.call) : bool :=
  match c with
  | Ocr.sleep _ => true
  | _ => false
  end.

(** The number of polls among the calls of a run. *)
Definition polls (calls : list Ocr.call) : nat := List.length (filter is_get calls).

(** The text lines of a result, page by page: the shape of the read results
    of the OCR endpoint, where each of [analyzeResult], [readResults], [lines]
    and [text] may be absent. *)
Inductive line_of : value -> str -> Prop :=
| line_with_text l t :
    Py.lookup l (u "text") = Some (VStr t) -> line_of (VDict l) t
| line_without_text l :
    Py.lookup l (u "text") = None -> line_of (VDict l) [].

Inductive page_of : value -> list str -> Prop :=
| page_with_lines p ls ts :
    Py.lookup p (u "lines") = Some (VList ls) ->
    Forall2 line_of ls ts ->
    page_of (VDict p) ts
| page_without_lines p :
    Py.lookup p (u "lines") = None -> page_of (VDict p) [].

Inductive pages_of : list (str * value) -> list (list str) -> Prop :=
| pages_read d a ps pages :
    Py.lookup d (u "analyzeResult") = Some (VDict a) ->
    Py.lookup a (u "readResults") = Some (VList ps) ->
    Forall2 page_of ps pages ->
    pages_of d pages
| pages_no_read_results d a :
    Py.lookup d (u "analyzeResult") = Some (VDict a) ->
    Py.lookup a (u "readResults") = None ->
    pages_of d []
| pages_no_analyze_result d :
    Py.lookup d (u "analyzeResult") = None ->
    pages_of d [].

Definition non_empty (s : str) : bool :=
  match s with
  | [] => false
  | _ => true
  end.

(** All lines in page order then line order, trimmed, the empty ones dropped. *)
Definition flatten (pages : list (list str)) : list str :=
  filter non_empty (map Str.strip (List.concat pages)).

(** The text returned for the flattened lines. *)
Definition joined (lines : list str) : str :=
  match lines with
  | [] => Ocr.no_text_found
  | _ => Str.join Str.newline lines
  end.

(** Lines as one text of several lines: a line feed (code point 10) stands
    between each line and the next. *)
Fixpoint multi_line (lines : list str) : str :=
  match lines with
  | [] => []
  | [l] => l
  | l :: rest => l ++ 10%N :: multi_line rest
  end.

(** The submission gave a job handle: a success status and a non-empty
    operation location. *)
Definition job_accepted (svc : Ocr.service) (file_bytes : list N) (url : value) : Prop :=
  exists resp,
    Ocr.submit svc file_bytes = Responds resp
    /\ raise_for_status resp = Ok tt
    /\ Ocr.operation_location resp = Ok url
    /\ Py.truthy url = true.

(** The submission response carries no job handle: no (or an empty)
    [Operation-Location] header, and no (or an empty) [operationLocation] in a
    body that is a JSON object. *)
Definition no_job_handle (resp : response) : Prop :=
  Py.truthy (header_get (headers resp) (u "Operation-Location")) = false
  /\ forall d v,
       json resp = Decoded (VDict d) ->
       Py.lookup d (u "operationLocation") = Some v ->
       Py.truthy v = false.

Definition warning_marker : str := u "⚠️".

(** *** Example services *)

Definition job_url : str := u "https://ocr.example/vision/v3.2/read/analyzeResults/1".

(** The submission is accepted: status 202, the job URL in the header, an
    empty body. *)
Definition accepted : response :=
  {| status_code := 202;
     headers := [(u "Operation-Location", job_url)];
     text := [];
     json := Undecodable decoding_error;
     error_text := [] |}.

Definition status_body (status : string) : value :=
  VDict [(u "status", VStr (u status))].

(** A result of two pages, the first with a line of spaces only. *)
Definition read_fields : list (str * value) :=
  [(u "status", VStr (u "succeeded"));
   (u "analyzeResult",
    VDict [(u "readResults",
            VList [VDict [(u "page", VInt 1);
                          (u "lines",
                           VList [VDict [(u "text", VStr (u " Milk 3 "))];
                                  VDict [(u "text", VStr (u "   "))]])];
                   VDict [(u "page", VInt 2);
                          (u "lines",
                           VList [VDict [(u "text", VStr (u "Chips 4"))]])]])])].

Definition read_body : value := VDict read_fields.

(** A job that never finishes; one that fails at the third poll, with the
    status capitalised; one that succeeds at the second poll. *)
Definition never_finishes : Ocr.service :=
  {| Ocr.submit := fun _ => Responds accepted;
     Ocr.poll := fun _ _ => Responds (ok_response (status_body "running")) |}.

Definition fails_at_third : Ocr.service :=
  {| Ocr.submit := fun _ => Responds accepted;
     Ocr.poll := fun attempt _ =>
       Responds (ok_response
                   (if Nat.ltb attempt 2 then status_body "running"
                    else status_body "Failed")) |}.

Definition succeeds_at_second : Ocr.service :=
  {| Ocr.submit := fun _ => Responds accepted;
     Ocr.poll := fun attempt _ =>
       Responds (ok_response
                   (if Nat.ltb attempt 1 then status_body "notStarted"
                    else read_body)) |}.

(** A result whose only line is blank, and a job that succeeds with it at the
    first poll. *)
Definition blank_fields : list (str * value) :=
  [(u "status", VStr (u "succeeded"));
   (u "analyzeResult",
    VDict [(u "readResults",
            VList [VDict [(u "lines", VList [VDict [(u "text", VStr (u "  "))]])]])])].

Definition succeeds_with_no_text : Ocr.service :=
  {| Ocr.submit := fun _ => Responds accepted;
     Ocr.poll := fun _ _ => Responds (ok_response (VDict blank_fields)) |}.

(** Two submissions that give no job handle: the body is an empty JSON
    object, or the body is empty and so not JSON. *)
Definition no_handle (body : decoded) : response :=
  {| status_code := 202; headers := []; text := []; json := body; error_text := [] |}.

Definition answers_empty_object : Ocr.service :=
  {| Ocr.submit := fun _ => Responds (no_handle (Decoded (VDict [])));
     Ocr.poll := fun _ _ => Fails (u "unreachable") |}.

Definition answers_empty_body : Ocr.service :=
  {| Ocr.submit := fun _ => Responds (no_handle (Undecodable decoding_error));
     Ocr.poll := fun _ _ => Fails (u "unreachable") |}.

(** *** Formatting, for the examples *)

(** [{x:.nf}]: the exact value of the float, rounded to [n] decimals, ties
    to even. *)
Definition decimal (n : Z) : str := u (NilZero.string_of_uint (N.to_uint (Z.to_N n))).

Definition round_half_even (p q : Z) : Z :=
  let d := (p / q)%Z in
  let r := (p mod q)%Z in
  match (2 * r ?= q)%Z with
  | Lt => d
  | Gt => (d + 1)%Z
  | Eq => if Z.even d then d else (d + 1)%Z
  end.

Definition pad_zeros (width : nat) (s : str) : str :=
  repeat 48%N (width - List.length s) ++ s.

Definition fixed_digits (n : nat) (scaled : Z) : str :=
  let unit := (10 ^ Z.of_nat n)%Z in
  decimal (scaled / unit)
    ++ match n with
       | O => []
       | _ => u "." ++ pad_zeros n (decimal (scaled mod unit))
       end.

Definition minus (negative : bool) : str := if negative then u "-" else [].

Definition format_fixed_exact (n : nat) (x : float) : str :=
  match Prim2SF x with
  | S754_nan => u "nan"
  | S754_infinity s => minus s ++ u "inf"
  | S754_zero s => minus s ++ fixed_digits n 0
  | S754_finite s m e =>
      let unit := (10 ^ Z.of_nat n)%Z in
      minus s
        ++ fixed_digits n
             (if (0 <=? e)%Z then (Z.pos m * 2 ^ e * unit)%Z
              else round_half_even (Z.pos m * unit) (2 ^ (- e)))
  end.

(** [{s}] for the values that are text or integers. *)
Definition format_scalar (v : value) : str :=
  match v with
  | VStr s => s
  | VInt n => minus (n <? 0)%Z ++ decimal (Z.abs n)
  | VNone => u "None"
  | VBool b => if b then u "True" else u "False"
  | _ => []
  end.

(** [st.table] for the examples: a string or a number cannot be put in a
    table. *)
Definition table_error_sample (v : value) : option str :=
  match v with
  | VStr _ | VInt _ | VFloat _ | VBool _ =>
      Some (u "DataFrame constructor not properly called!")
  | _ => None
  end.

(** *** Example classification results *)

Definition classified (essentials non_essentials : list value) (suggestions : list string)
  : value :=
  VDict [(u "essentials", VList essentials);
         (u "non_essentials", VList non_essentials);
         (u "suggestions", VList (map (fun s => VStr (u s)) suggestions))].

(** The scenario of the specification, and a result with nothing bought. *)
Definition milk_and_chips : value :=
  classified [line_item "Milk" (VInt 3)] [line_item "Chips" (VInt 4)] ["Buy less"%string].

Definition nothing_bought : value := classified [] [] ["Add items"%string].

(** ** The text normalization client and the receipt tab *)

Section Preprocessing.

(** [requests.post] of the request built around the raw receipt text, taken
    as a parameter like the one of the classification client. *)
Variable preprocess_post : str -> outcome.

Definition preprocess_error (e : exn) : value :=
  VStr (u "⚠️ Error preprocessing OCR text: " ++ exn_msg e).

(** The [try] block of [preprocess_ocr_text]: the content of the first
    completion, as it is. *)
Definition preprocess_block (raw_text : str) : result value :=
  match preprocess_post raw_text with
  | Fails msg => Raise (Exn RequestException msg)
  | Responds resp =>
      _ <- raise_for_status resp ;;
      payload <- decode_result (json resp) ;;
      completion_content payload
  end.

(** [preprocess_ocr_text(raw_text)] *)
Definition preprocess_ocr_text (raw_text : str) : value :=
  try_except (preprocess_block raw_text) preprocess_error.

End Preprocessing.

(** What the receipt tab renders: the calls of the analysis, and [st.text]. *)
Inductive rendered : Type :=
| call (c : st_call)
| st_text (body : value).

Section ReceiptTab.

Variable svc : Ocr.service.
Variable preprocess_post : str -> outcome.
Variable json_loads : str -> decoded.
Variable requests_post : str -> outcome.
Variable float_of_str : str -> option float.
Variable format_fixed : nat -> float -> str.
Variable format_value : value -> str.
Variable table_error : value -> option str.

(** The text an f-string puts for a value: a [str] is put as it is. *)
Definition prompt_text (v : value) : str :=
  match v with
  | VStr s => s
  | _ => format_value v
  end.

(** [if st.button("Analyze (Receipt Text)"): ...] (lines 233 to 268) *)
Definition analyze_receipt (cleaned_text : value) : ui unit :=
  data <~ classify_items_with_ai json_loads requests_post (prompt_text cleaned_text) ;;
  analysis float_of_str format_fixed format_value table_error (u "D:") data.

(** One run of the receipt tab (lines 219 to 268): the uploaded file, if any,
    and whether the button is pressed in this run. *)
Definition receipt_tab (file : option (list N)) (pressed : bool)
  : list rendered * result unit :=
  match file with
  | None => ([], Ok tt)
  | Some file_bytes =>
      let ocr_text := snd (Ocr.extract_text_from_receipt svc file_bytes) in
      let extracted :=
        [call (st_subheader (u "📝 Extracted Text"));
         st_text (VStr (match ocr_text with
                        | [] => u "(No text extracted)"
                        | _ => ocr_text
                        end))] in
      if non_empty ocr_text && negb (Str.startswith ocr_text warning_marker) then
        let cleaned_text := preprocess_ocr_text preprocess_post ocr_text in
        let cleaned :=
          [call (st_subheader (u "📝 Preprocessed Text")); st_text cleaned_text] in
        if pressed then
          let (calls, r) := analyze_receipt cleaned_text in
          (extracted ++ cleaned ++ map call calls, r)
        else (extracted ++ cleaned, Ok tt)
      else (extracted, Ok tt)
  end.

End ReceiptTab.

(** *** Vocabulary of the further properties *)

(** A value a [for] loop accepts after [or []], or that an [if] skips: a
    list, a dict, a string, or a false value. *)
Definition iterates (v : value) : bool :=
  match v with
  | VList _ | VDict _ | VStr _ => true
  | _ => negb (Py.truthy v)
  end.

(** The value read under a key with the default [[]]. *)
Definition field (d : list (str * value)) (k : string) : value :=
  match Py.lookup d (u k) with
  | Some v => v
  | None => VList []
  end.

(** A string without white space at either end. *)
Definition trimmed (s : str) : Prop := Str.lstrip s = s /\ Str.lstrip (rev s) = rev s.

(** A line as the transcription returns it. *)
Definition clean_line (s : str) : Prop := s <> [] /\ trimmed s.

(** Two line items with the same price entry. *)
Definition same_price (it it' : value) : Prop :=
  exists d d',
    it = VDict d /\ it' = VDict d'
    /\ Py.lookup d (u "price") = Py.lookup d' (u "price").

(** The ways a poll raises, with the exception: a transport failure, an
    HTTP error status, a body that is not JSON, a body over a limit of the
    decoder, a body that is no object, a status that is no string. *)
Inductive poll_fails : outcome -> exn -> Prop :=
| fails_transport msg :
    poll_fails (Fails msg) (Exn RequestException msg)
| fails_http resp :
    (400 <= status_code resp < 600)%Z ->
    poll_fails (Responds resp) (Exn HTTPError (error_text resp))
| fails_decoding resp msg :
    raise_for_status resp = Ok tt ->
    json resp = Undecodable msg ->
    poll_fails (Responds resp) (Exn JSONDecodeError msg)
| fails_limit resp limit msg :
    raise_for_status resp = Ok tt ->
    json resp = Exceeds limit msg ->
    poll_fails (Responds resp) (Exn (limit_class limit) msg)
| fails_no_object resp body :
    raise_for_status resp = Ok tt ->
    json resp = Decoded body ->
    (forall d, body <> VDict d) ->
    poll_fails (Responds resp) (Py.no_attribute body (u "get"))
| fails_no_string resp d v :
    raise_for_status resp = Ok tt ->
    json resp = Decoded (VDict d) ->
    Py.lookup d (u "status") = Some v ->
    (forall s, v <> VStr s) ->
    poll_fails (Responds resp) (Py.no_attribute v (u "lower")).

(** Two services that agree on the submission of [file_bytes] and on the
    first 60 polls of every job. *)
Definition agree (svc svc' : Ocr.service) (file_bytes : list N) : Prop :=
  Ocr.submit svc file_bytes = Ocr.submit svc' file_bytes
  /\ forall attempt url, attempt < 60 -> Ocr.poll svc attempt url = Ocr.poll svc' attempt url.

(** Two calls of the two tabs that are the same, or are the line of the
    halved non-essentials without and with the [D:] of the receipt tab. *)
Definition same_but_prefix (format_fixed : nat -> float -> str) (a b : st_call) : Prop :=
  a = b
  \/ exists saving pct,
       a = saving_line format_fixed (u "Reduce non-essentials by 50%") [] saving pct
       /\ b = saving_line format_fixed (u "Reduce non-essentials by 50%") (u "D:") saving pct.

(** What the receipt tab renders before the analysis. *)
Definition extracted_text (ocr_text : str) : list rendered :=
  [call (st_subheader (u "📝 Extracted Text")); st_text (VStr ocr_text)].

Definition preprocessed_text (cleaned_text : value) : list rendered :=
  [call (st_subheader (u "📝 Preprocessed Text")); st_text cleaned_text].

(** *** Further examples *)

(** An endpoint that is down. *)
Definition is_down (text : str) : outcome := Fails (u "Connection refused").

(** A service that is down; one that refuses the key; one whose job status is
    [null] at the second poll; one that answers differently from
    [never_finishes] from the 61st poll on only. *)
Definition service_is_down : Ocr.service :=
  {| Ocr.submit := fun _ => Fails (u "Connection refused");
     Ocr.poll := fun _ _ => Fails (u "Connection refused") |}.

Definition unauthorized : response :=
  {| status_code := 401; headers := []; text := []; json := Undecodable decoding_error;
     error_text := u "401 Client Error: Unauthorized" |}.

Definition refuses_key : Ocr.service :=
  {| Ocr.submit := fun _ => Responds unauthorized;
     Ocr.poll := fun _ _ => Responds unauthorized |}.

Definition null_status_at_second : Ocr.service :=
  {| Ocr.submit := fun _ => Responds accepted;
     Ocr.poll := fun attempt _ =>
       Responds (ok_response
                   (if Nat.ltb attempt 1 then status_body "running"
                    else VDict [(u "status", VNone)])) |}.

Definition finishes_too_late : Ocr.service :=
  {| Ocr.submit := fun _ => Responds accepted;
     Ocr.poll := fun attempt _ =>
       Responds (ok_response
                   (if Nat.ltb attempt 60 then status_body "running" else read_body)) |}.

(** Completions without choices, and with [null] as content. *)
Definition no_choices (text : str) : outcome :=
  Responds (ok_response (VDict [(u "choices", VList [])])).

Definition null_content (text : str) : outcome :=
  Responds (ok_response (chat_payload VNone)).

(** [json.loads] on the text of the empty object. *)
Definition json_loads_empty_object (s : str) : decoded :=
  if Str.eqb s (u "{}") then Decoded (VDict []) else Undecodable decoding_error.

(** The same purchase with different quantities. *)
Definition chips (quantity : Z) : value :=
  VDict [(u "item", VStr (u "Chips")); (u "quantity", VInt quantity); (u "price", VInt 5)].

(** * Properties *)

(** ** Strings *)

Lemma str_eqb_eq (s t : str) : Str.eqb s t = true <-> s = t.
Proof. unfold Str.eqb; destruct (list_eq_dec N.eq_dec s t); split; congruence. Qed.

Lemma str_eqb_refl (s : str) : Str.eqb s s = true.
Proof. now apply str_eqb_eq. Qed.

Lemma str_eqb_neq (s t : str) : Str.eqb s t = false <-> s <> t.
Proof. unfold Str.eqb; destruct (list_eq_dec N.eq_dec s t); split; congruence. Qed.

(** ** Floats *)

Ltac by_spec_float :=
  apply Prim2SF_inj; rewrite ?add_spec;
  repeat match goal with H : Prim2SF _ = _ |- _ => rewrite H end;
  reflexivity.

Lemma is_zero_spec (x : float) :
  is_zero x <-> exists s, Prim2SF x = S754_zero s.
Proof.
  unfold is_zero. rewrite eqb_spec. change (Prim2SF 0) with (S754_zero false).
  unfold SFeqb, SFcompare.
  destruct (Prim2SF x) as [s| s| |s m e]; split; intros H;
    try discriminate; try (destruct H; discriminate);
    try (now exists s); try reflexivity; destruct s; discriminate.
Qed.

Lemma is_zero_0 : is_zero 0.
Proof. reflexivity. Qed.

Lemma zero_cases (p : float) : is_zero p -> p = 0%float \/ p = neg_zero.
Proof.
  intros H. apply is_zero_spec in H. destruct H as [[|] H].
  - right. now apply Prim2SF_inj.
  - left. now apply Prim2SF_inj.
Qed.

Lemma positive_not_zero (x : float) :
  (0 <? x)%float = true -> (x =? 0)%float = false.
Proof.
  rewrite ltb_spec, eqb_spec. change (Prim2SF 0) with (S754_zero false).
  unfold SFltb, SFeqb, SFcompare.
  destruct (Prim2SF x) as [s| s| |s m e]; try discriminate; try reflexivity;
    destruct s; try discriminate; reflexivity.
Qed.

Lemma zero_not_positive (x : float) :
  (x =? 0)%float = true -> (0 <? x)%float = false.
Proof.
  intros H. destruct (0 <? x)%float eqn:E; [|reflexivity].
  apply positive_not_zero in E. congruence.
Qed.

Lemma same_number_refl (x : float) : same_number x x.
Proof. now left. Qed.

Lemma same_number_sym (x y : float) : same_number x y -> same_number y x.
Proof. intros [->|[H1 H2]]; [now left | now right]. Qed.

Lemma same_number_trans (x y z : float) :
  same_number x y -> same_number y z -> same_number x z.
Proof.
  intros [->|[H1 H2]] [->|[H3 H4]]; try (now left); try (right; now split).
Qed.

Lemma zero_sum_is_zero (x y : float) : is_zero x -> is_zero y -> is_zero (x + y).
Proof.
  intros Hx Hy. apply is_zero_spec in Hx, Hy. destruct Hx as [a Hx], Hy as [b Hy].
  apply is_zero_spec. rewrite add_spec, Hx, Hy. destruct a, b; cbn; eauto.
Qed.

Lemma add_zero_r (x y : float) : is_zero y -> same_number (x + y) x.
Proof.
  intros Hy. pose proof Hy as Hy'. apply is_zero_spec in Hy'. destruct Hy' as [b Hy'].
  destruct (Prim2SF x) as [s| s| |s m e] eqn:E.
  - right. assert (is_zero x) by (apply is_zero_spec; eauto).
    split; [now apply zero_sum_is_zero | assumption].
  - left. by_spec_float.
  - left. by_spec_float.
  - left. by_spec_float.
Qed.

Lemma add_zero_l (x y : float) : is_zero x -> same_number (x + y) y.
Proof.
  intros Hx. pose proof Hx as Hx'. apply is_zero_spec in Hx'. destruct Hx' as [b Hx'].
  destruct (Prim2SF y) as [s| s| |s m e] eqn:E.
  - right. assert (is_zero y) by (apply is_zero_spec; eauto).
    split; [now apply zero_sum_is_zero | assumption].
  - left. by_spec_float.
  - left. by_spec_float.
  - left. by_spec_float.
Qed.

Lemma add_same (x x' y y' : float) :
  same_number x x' -> same_number y y' -> same_number (x + y) (x' + y').
Proof.
  intros [->|[Hx Hx']] [->|[Hy Hy']]; [now left| | |].
  - eapply same_number_trans; [apply add_zero_r; assumption|].
    apply same_number_sym, add_zero_r; assumption.
  - eapply same_number_trans; [apply add_zero_l; assumption|].
    apply same_number_sym, add_zero_l; assumption.
  - right. split; now apply zero_sum_is_zero.
Qed.

(** ** Integers in binary64

    Non-negative integers below [2^53] are floats, and their sums are exact. *)

Section Binary64Integers.

#[local] Open Scope Z_scope.

Lemma iter_xO_value (p k : positive) : Zpos (Pos.iter xO p k) = Zpos p * 2 ^ Zpos k.
Proof.
  induction k as [|k IH] using Pos.peano_ind.
  - cbn. lia.
  - rewrite Pos.iter_succ, Pos2Z.inj_succ, Z.pow_succ_r by lia.
    rewrite Pos2Z.inj_xO, IH. lia.
Qed.

Lemma shl_value (p : positive) (k : Z) : 0 <= k -> Zpos (shl p k) = Zpos p * 2 ^ k.
Proof.
  destruct k as [|k|k]; intros H; cbn [shl]; [cbn; lia | apply iter_xO_value | lia].
Qed.

Lemma dig_bounds (p : positive) : 2 ^ (dig p - 1) <= Zpos p < 2 ^ dig p.
Proof.
  unfold dig. induction p as [p IH|p IH|]; cbn [digits2_pos];
    [| |cbn; lia];
    rewrite Pos2Z.inj_succ;
    replace (Z.succ (Zpos (digits2_pos p)) - 1)
      with (Z.succ (Zpos (digits2_pos p) - 1)) by lia;
    rewrite !Z.pow_succ_r by lia; lia.
Qed.

Lemma dig_pos (p : positive) : 1 <= dig p.
Proof. unfold dig. lia. Qed.

Lemma dig_unique (p : positive) (d : Z) :
  2 ^ (d - 1) <= Zpos p < 2 ^ d -> dig p = d.
Proof.
  intros [H1 H2]. pose proof (dig_bounds p) as [H3 H4]. pose proof (dig_pos p).
  assert (0 < d).
  { destruct (Z_lt_le_dec 0 d); [assumption|].
    assert (d = 0 \/ d < 0) as [->| ] by lia; [cbn in H2; lia|].
    rewrite Z.pow_neg_r in H2 by lia. lia. }
  destruct (Z.lt_trichotomy (dig p) d) as [Hlt|[Heq|Hgt]]; [|assumption|].
  - assert (2 ^ dig p <= 2 ^ (d - 1)) by (apply Z.pow_le_mono_r; lia). lia.
  - assert (2 ^ d <= 2 ^ (dig p - 1)) by (apply Z.pow_le_mono_r; lia). lia.
Qed.

Lemma dig_shl (p : positive) (k : Z) : 0 <= k -> dig (shl p k) = dig p + k.
Proof.
  intros H. apply dig_unique. rewrite shl_value by assumption.
  pose proof (dig_bounds p) as [H1 H2]. pose proof (dig_pos p).
  replace (dig p + k - 1) with ((dig p - 1) + k) by lia.
  rewrite !Z.pow_add_r by lia.
  assert (0 < 2 ^ k) by (apply Z.pow_pos_nonneg; lia).
  split; nia.
Qed.

Lemma dig_mono (p q : positive) : (p <= q)%positive -> dig p <= dig q.
Proof.
  intros H. pose proof (dig_bounds p) as [H1 H2]. pose proof (dig_bounds q) as [H3 H4].
  destruct (Z_le_gt_dec (dig p) (dig q)); [assumption|].
  pose proof (dig_pos q).
  assert (2 ^ dig q <= 2 ^ (dig p - 1)) by (apply Z.pow_le_mono_r; lia).
  lia.
Qed.

Lemma dig_le_53 (p : positive) : Zpos p < 2 ^ 53 -> dig p <= 53.
Proof.
  intros H. pose proof (dig_bounds p) as [H1 H2].
  destruct (Z_le_gt_dec (dig p) 53); [assumption|].
  assert (2 ^ 53 <= 2 ^ (dig p - 1)) by (apply Z.pow_le_mono_r; lia). lia.
Qed.

Lemma iter_pos_iter {A} (f : A -> A) (n : positive) (x : A) :
  iter_pos f n x = Pos.iter f x n.
Proof.
  revert x. induction n as [n IH|n IH|]; intros x; cbn [iter_pos Pos.iter].
  - rewrite !IH. now rewrite !Pos.iter_swap.
  - now rewrite !IH.
  - reflexivity.
Qed.

Lemma shr_exact (p k : positive) :
  iter_pos shr_1 k (exact (Zpos (Pos.iter xO p k))) = exact (Zpos p).
Proof.
  rewrite iter_pos_iter. induction k as [|k IH] using Pos.peano_ind.
  - reflexivity.
  - rewrite !Pos.iter_succ, <- Pos.iter_swap. exact IH.
Qed.

Lemma fexp_normal (e : Z) : -1021 <= e -> fexp prec emax e = e - 53.
Proof. unfold fexp, SpecFloat.emin, prec, emax. lia. Qed.

(** A mantissa of 53 digits is kept as it is. *)
Lemma round_aux_53 (m : positive) (e : Z) :
  dig m = 53 -> -1074 <= e <= 971 ->
  binary_round_aux prec emax false (Zpos m) e loc_Exact = S754_finite false m e.
Proof.
  intros Hd He. unfold binary_round_aux, shr_fexp. cbn [Zdigits2 shr_record_of_loc].
  fold (dig m). rewrite Hd, fexp_normal by lia.
  replace (53 + e - 53 - e) with 0 by lia.
  cbn [shr shr_m loc_of_shr_record round_nearest_even Zdigits2].
  fold (dig m). rewrite Hd, fexp_normal by lia.
  replace (53 + e - 53 - e) with 0 by lia. cbn [shr shr_m].
  replace (e <=? emax - prec) with true; [reflexivity|].
  symmetry. apply Z.leb_le. unfold emax, prec. lia.
Qed.

(** Rounding a mantissa that needs a shift to the left, or none. *)
Lemma round_left (m : positive) (e : Z) :
  dig m <= 53 -> -1021 <= e <= 971 ->
  binary_round prec emax false m e
  = S754_finite false (shl m (53 - dig m)) (dig m + e - 53).
Proof.
  intros Hd He. pose proof (dig_pos m). unfold binary_round. fold (dig m).
  rewrite fexp_normal by lia. unfold shl_align.
  replace (dig m + e - 53 - e) with (dig m - 53) by lia.
  destruct (dig m - 53) as [|k|k] eqn:Ek; try lia.
  - replace (53 - dig m) with 0 by lia. cbn [shl].
    replace (dig m + e - 53) with e by lia. apply round_aux_53; lia.
  - replace (53 - dig m) with (Zpos k) by lia. cbn [shl].
    apply round_aux_53; [|lia].
    change (Pos.iter xO m k) with (shl m (Zpos k)). rewrite dig_shl; lia.
Qed.

(** Rounding a mantissa whose extra low bits are zero. *)
Lemma round_right (m : positive) (k : positive) (e : Z) :
  dig m = 53 -> -1074 <= e -> e + Zpos k <= 971 ->
  binary_round prec emax false (Pos.iter xO m k) e = S754_finite false m (e + Zpos k).
Proof.
  intros Hd He1 He2. unfold binary_round.
  change (Zpos (digits2_pos (Pos.iter xO m k))) with (dig (shl m (Zpos k))).
  rewrite dig_shl, Hd, fexp_normal by lia. unfold shl_align.
  replace (53 + Zpos k + e - 53 - e) with (Zpos k) by lia.
  unfold binary_round_aux, shr_fexp. cbn [Zdigits2 shr_record_of_loc].
  change (Zpos (digits2_pos (Pos.iter xO m k))) with (dig (shl m (Zpos k))).
  rewrite dig_shl, Hd, fexp_normal by lia.
  replace (53 + Zpos k + e - 53 - e) with (Zpos k) by lia. cbn [shr].
  change {| shr_m := Zpos (Pos.iter xO m k); shr_r := false; shr_s := false |}
    with (exact (Zpos (Pos.iter xO m k))).
  rewrite shr_exact. cbn [exact shr_m loc_of_shr_record round_nearest_even Zdigits2].
  fold (dig m). rewrite Hd, fexp_normal by lia.
  replace (53 + (e + Zpos k) - 53 - (e + Zpos k)) with 0 by lia. cbn [shr shr_m].
  replace (e + Zpos k <=? emax - prec) with true; [reflexivity|].
  symmetry. apply Z.leb_le. unfold emax, prec. lia.
Qed.

Lemma norm_pos (p : positive) : Zpos p < 2 ^ 53 -> norm (Zpos p) = canon p.
Proof.
  intros H. unfold norm, canon. cbn [binary_normalize].
  rewrite round_left by (try apply dig_le_53; lia).
  now replace (dig p + 0 - 53) with (dig p - 53) by lia.
Qed.

Lemma shl_shl (p : positive) (j k : Z) :
  0 <= j -> 0 <= k -> shl (shl p j) k = shl p (j + k).
Proof.
  intros Hj Hk. apply Pos2Z.inj. rewrite !shl_value, Z.pow_add_r by lia. lia.
Qed.

Lemma fst_shl_align (m : positive) (e e' : Z) :
  fst (shl_align m e e') = shl m (e - e').
Proof.
  unfold shl_align. destruct (e' - e) as [|d|d] eqn:E; cbn [fst].
  - now replace (e - e') with 0 by lia.
  - replace (e - e') with (Zneg d) by lia. reflexivity.
  - now replace (e - e') with (Zpos d) by lia.
Qed.

Lemma add_canon (a b : positive) :
  Zpos a + Zpos b < 2 ^ 53 ->
  SFadd prec emax (canon a) (canon b) = canon (a + b).
Proof.
  intros H. unfold canon at 1 2. cbn [SFadd cond_Zopp].
  rewrite !fst_shl_align.
  pose proof (dig_pos a) as Ha. pose proof (dig_pos b) as Hb.
  assert (Hda : dig a <= 53) by (apply dig_le_53; lia).
  assert (Hdb : dig b <= 53) by (apply dig_le_53; lia).
  assert (Hdc : dig (a + b) <= 53) by (apply dig_le_53; lia).
  assert (Hac : dig a <= dig (a + b)) by (apply dig_mono; lia).
  assert (Hbc : dig b <= dig (a + b)) by (apply dig_mono; lia).
  set (ez := Z.min (dig a - 53) (dig b - 53)).
  assert (Hez : -52 <= ez <= 0) by (unfold ez; lia).
  assert (Hsum : Zpos (shl (shl a (53 - dig a)) (dig a - 53 - ez))
                 + Zpos (shl (shl b (53 - dig b)) (dig b - 53 - ez))
                 = Zpos (shl (a + b) (- ez))).
  { rewrite !shl_shl by (unfold ez; lia). rewrite !shl_value by (unfold ez; lia).
    replace (53 - dig a + (dig a - 53 - ez)) with (- ez) by lia.
    replace (53 - dig b + (dig b - 53 - ez)) with (- ez) by lia.
    rewrite Pos2Z.inj_add. lia. }
  rewrite Hsum. cbn [binary_normalize]. unfold canon.
  destruct (Z_le_gt_dec (- ez) (53 - dig (a + b))) as [Hle|Hgt].
  - rewrite round_left by (rewrite ?dig_shl; lia).
    rewrite dig_shl, shl_shl by lia. f_equal; [f_equal|]; lia.
  - set (k := - ez - (53 - dig (a + b))).
    assert (Hk : k = Zpos (Z.to_pos k)) by (rewrite Z2Pos.id; unfold k; lia).
    replace (shl (a + b) (- ez))
      with (Pos.iter xO (shl (a + b) (53 - dig (a + b))) (Z.to_pos k)).
    + rewrite round_right by (rewrite ?dig_shl, <- ?Hk; unfold k; lia).
      f_equal. rewrite <- Hk. unfold k. lia.
    + change (Pos.iter xO (shl (a + b) (53 - dig (a + b))) (Z.to_pos k))
        with (shl (shl (a + b) (53 - dig (a + b))) (Zpos (Z.to_pos k))).
      rewrite <- Hk, shl_shl by (unfold k; lia). f_equal. unfold k. lia.
Qed.

Lemma norm_add (a b : Z) :
  0 <= a -> 0 <= b -> a + b < 2 ^ 53 ->
  SFadd prec emax (norm a) (norm b) = norm (a + b).
Proof.
  intros Ha Hb H. destruct a as [|a|a], b as [|b|b]; try lia.
  - reflexivity.
  - cbn [Z.add]. rewrite !norm_pos by lia. reflexivity.
  - rewrite Z.add_0_r, !norm_pos by lia. reflexivity.
  - rewrite <- Pos2Z.inj_add, !norm_pos by lia. apply add_canon, H.
Qed.

Lemma valid_norm (n : Z) : 0 <= n < 2 ^ 53 -> valid_binary (norm n) = true.
Proof.
  intros [H1 H2]. destruct n as [|p|p]; try lia; [reflexivity|].
  rewrite norm_pos by assumption. unfold canon. cbn [valid_binary]. unfold bounded, canonical_mantissa.
  pose proof (dig_pos p). assert (dig p <= 53) by (apply dig_le_53; lia).
  fold (dig (shl p (53 - dig p))). rewrite dig_shl, fexp_normal by lia.
  apply andb_true_intro. split; [apply Z.eqb_eq | apply Z.leb_le; unfold emax, prec]; lia.
Qed.

Lemma float_of_Z_add (a b : Z) :
  0 <= a -> 0 <= b -> a + b < 2 ^ 53 ->
  (float_of_Z a + float_of_Z b)%float = float_of_Z (a + b).
Proof.
  intros Ha Hb H. apply Prim2SF_inj. unfold float_of_Z. fold (norm a) (norm b) (norm (a + b)).
  rewrite add_spec, !Prim2SF_SF2Prim by (apply valid_norm; lia).
  now apply norm_add.
Qed.

Lemma float_of_int_small (n : Z) :
  0 <= n < 2 ^ 53 -> Py.float_of_int n = Ok (float_of_Z n).
Proof.
  intros [H1 H2]. unfold Py.float_of_int, float_of_Z.
  destruct n as [|p|p]; try lia; [reflexivity|].
  fold (norm (Zpos p)). now rewrite norm_pos.
Qed.

End Binary64Integers.

(** ** The aggregator *)

Section AggregatorFacts.

Variable float_of_str : str -> option float.

#[local] Abbreviation step := (safe_sum_step float_of_str).
#[local] Abbreviation term := (price_term float_of_str).

Lemma safe_sum_list (items : list value) :
  _safe_sum float_of_str (VList items) = Ok (fold_left step items 0%float).
Proof. destruct items; reflexivity. Qed.

(** What a well-formed price adds: the price, with [+0.0] for either zero. *)
Lemma numeric_price_term (v : value) (p : float) :
  numeric_price float_of_str v p ->
  exists p', py_float float_of_str (Py.or_ v (VInt 0)) = Ok p'
             /\ same_number p' p /\ (p <> neg_zero -> p' = p).
Proof.
  intros H. destruct H as [n p H|p|s p Hs H]; unfold Py.or_; cbn [Py.truthy].
  - destruct (Z.eqb_spec n 0) as [->|Hn]; cbn [negb].
    + cbn in H. injection H as <-. exists 0%float. repeat split; now left.
    + exists p. cbn [py_float]. repeat split; auto. now left.
  - destruct (p =? 0)%float eqn:E; cbn [negb].
    + exists 0%float. split; [reflexivity|]. split.
      * right. split; [apply is_zero_0 | exact E].
      * intros Hp. destruct (zero_cases E); congruence.
    + exists p. repeat split; auto. now left.
  - destruct s; [congruence|].
    exists p. cbn [py_float]. rewrite H. repeat split; auto. now left.
Qed.

Lemma priced_step (it : value) (p total : float) :
  priced float_of_str it p ->
  exists p', step total it = (total + p')%float
             /\ same_number p' p /\ (p <> neg_zero -> p' = p).
Proof.
  intros (d & v & -> & Hl & Hv).
  destruct (numeric_price_term Hv) as (p' & Hp & Hs & He).
  exists p'. split; [|now split].
  unfold safe_sum_step, price_term. cbn [Py.get bind]. rewrite Hl. cbn [bind].
  rewrite Hp. reflexivity.
Qed.

(** An unparseable price either is replaced by [0] or makes [float] raise. *)
Lemma unparseable_term (v : value) :
  unparseable float_of_str v ->
  py_float float_of_str (Py.or_ v (VInt 0)) = Ok 0%float
  \/ exists e, py_float float_of_str (Py.or_ v (VInt 0)) = Raise e.
Proof.
  intros H. destruct H as [|s H|l|d|n e H]; unfold Py.or_; cbn [Py.truthy].
  - now left.
  - destruct s; [now left|]. right. cbn [py_float]. rewrite H. eauto.
  - destruct l; [now left|]. right. cbn [py_float]. eauto.
  - destruct d; [now left|]. right. cbn [py_float]. eauto.
  - destruct (Z.eqb_spec n 0) as [->|Hn]; cbn [negb]; [now left|].
    right. cbn [py_float]. eauto.
Qed.

Lemma no_price_step (it : value) (total : float) :
  no_price float_of_str it ->
  step total it = total \/ step total it = (total + 0)%float.
Proof.
  intros H. destruct H as [it H|d Hl|d v Hl Hv];
    unfold safe_sum_step, price_term; cbn [Py.get bind]; rewrite ?Hl; cbn [bind].
  - left. destruct it; try reflexivity. now destruct (H d).
  - right. reflexivity.
  - destruct (unparseable_term Hv) as [E|[e E]]; rewrite E; [right|left]; reflexivity.
Qed.

Lemma step_same (it : value) (t t' : float) :
  same_number t t' -> same_number (step t it) (step t' it).
Proof.
  intros H. unfold safe_sum_step.
  destruct (term it) as [f|e]; cbn [bind try_except]; [|exact H].
  apply add_same; [exact H | apply same_number_refl].
Qed.

Lemma fold_step_same (items : list value) (t t' : float) :
  same_number t t' ->
  same_number (fold_left step items t) (fold_left step items t').
Proof.
  revert t t'. induction items as [|it items IH]; intros t t' H; cbn [fold_left].
  - exact H.
  - apply IH, step_same, H.
Qed.

Lemma fold_priced (items : list value) (ps : list float) :
  Forall2 (priced float_of_str) items ps ->
  forall t t', same_number t t' ->
    same_number (fold_left step items t) (fold_left PrimFloat.add ps t').
Proof.
  induction 1 as [|it p items ps Hp _ IH]; intros t t' Ht; cbn [fold_left].
  - exact Ht.
  - destruct (priced_step t Hp) as (p' & -> & Hs & _).
    apply IH, add_same; assumption.
Qed.

Lemma fold_priced_exact (items : list value) (ps : list float) :
  Forall2 (priced float_of_str) items ps ->
  Forall (fun p => p <> neg_zero) ps ->
  forall t, fold_left step items t = fold_left PrimFloat.add ps t.
Proof.
  induction 1 as [|it p items ps Hp _ IH]; intros Hnz t; cbn [fold_left].
  - reflexivity.
  - inversion Hnz as [|? ? Hp0 Hrest]; subst.
    destruct (priced_step t Hp) as (p' & -> & _ & He).
    rewrite (He Hp0). apply IH, Hrest.
Qed.

Lemma integer_priced_step (it : value) (n : Z) (total : float) :
  integer_priced it n -> (0 <= n < 2 ^ 53)%Z ->
  step total it = (total + float_of_Z n)%float.
Proof.
  intros (d & -> & Hl) Hn.
  unfold safe_sum_step, price_term. cbn [Py.get bind]. rewrite Hl. cbn [bind].
  unfold Py.or_. cbn [Py.truthy]. destruct (Z.eqb_spec n 0) as [->|H0]; cbn [negb].
  - reflexivity.
  - cbn [py_float]. now rewrite (float_of_int_small Hn).
Qed.

Lemma integer_total_nonneg (ns : list Z) :
  Forall (fun n => 0 <= n)%Z ns -> (0 <= integer_total ns)%Z.
Proof.
  unfold integer_total. induction 1 as [|n ns Hn _ IH]; cbn [fold_right]; lia.
Qed.

Lemma fold_integer_priced (items : list value) (ns : list Z) :
  Forall2 integer_priced items ns ->
  Forall (fun n => 0 <= n)%Z ns ->
  forall acc,
    (0 <= acc)%Z -> (acc + integer_total ns < 2 ^ 53)%Z ->
    fold_left step items (float_of_Z acc) = float_of_Z (acc + integer_total ns).
Proof.
  unfold integer_total.
  induction 1 as [|it n items ns Hp _ IH]; intros Hpos acc Hacc Hsum;
    cbn [fold_left fold_right] in *.
  - now rewrite Z.add_0_r.
  - inversion Hpos as [|? ? Hn Hrest]; subst.
    pose proof (integer_total_nonneg Hrest) as Htail.
    unfold integer_total in Htail.
    rewrite (integer_priced_step _ Hp) by lia.
    rewrite float_of_Z_add by lia.
    rewrite (IH Hrest) by lia. f_equal. lia.
Qed.

(** C3 (amended).  Over line items whose prices are well-formed numbers, [_safe_sum]
    returns the total of the prices, added in list order in binary64: the same
    number always, and the identical float when no price is the negative zero
    (which [or 0] replaces by [0]).  For prices that are non-negative integers
    with a total below [2^53] this is exactly their arithmetic total.  An item
    whose price is missing or is not parseable contributes exactly 0: leaving
    it out gives the same number.  And [_safe_sum] returns, without raising,
    on every list, whatever its items are, and on [None]. *)
Theorem safe_sum_is_total :
  (forall items ps,
      Forall2 (priced float_of_str) items ps ->
      exists total,
        _safe_sum float_of_str (VList items) = Ok total
        /\ same_number total (float_total ps)
        /\ (Forall (fun p => p <> neg_zero) ps -> total = float_total ps))
  /\ (forall items ns,
         Forall2 integer_priced items ns ->
         Forall (fun n => 0 <= n)%Z ns ->
         (integer_total ns < 2 ^ 53)%Z ->
         _safe_sum float_of_str (VList items) = Ok (float_of_Z (integer_total ns)))
  /\ (forall before it after,
         no_price float_of_str it ->
         exists total total',
           _safe_sum float_of_str (VList (before ++ it :: after)) = Ok total
           /\ _safe_sum float_of_str (VList (before ++ after)) = Ok total'
           /\ same_number total total')
  /\ (forall items, exists total, _safe_sum float_of_str (VList items) = Ok total)
  /\ _safe_sum float_of_str VNone = Ok 0%float.
Proof.
  repeat split.
  - intros items ps H. exists (fold_left step items 0%float).
    split; [apply safe_sum_list|]. split.
    + apply fold_priced; [exact H | apply same_number_refl].
    + intros Hnz. now apply fold_priced_exact.
  - intros items ns Hp Hpos Hsum. rewrite safe_sum_list. f_equal.
    change 0%float with (float_of_Z 0).
    now rewrite (fold_integer_priced Hp Hpos) by lia.
  - intros before it after H.
    exists (fold_left step (before ++ it :: after) 0%float),
           (fold_left step (before ++ after) 0%float).
    split; [apply safe_sum_list|]. split; [apply safe_sum_list|].
    rewrite !fold_left_app. cbn [fold_left]. apply fold_step_same.
    destruct (no_price_step (fold_left step before 0%float) H) as [->| ->].
    + apply same_number_refl.
    + apply add_zero_r, is_zero_0.
  - intros items. eexists. apply safe_sum_list.
Qed.

End AggregatorFacts.

Lemma safe_sum_is_total_witness :
  _safe_sum float_of_digits
    (VList [line_item "Milk" (VInt 3); line_item "Chips" (VInt 4)]) = Ok 7%float
  /\ (exists total total',
         _safe_sum float_of_digits
           (VList ([line_item "Milk" (VInt 3)]
                     ++ line_item "Bag" (VStr (u "free")) :: [line_item "Chips" (VInt 4)]))
         = Ok total
         /\ _safe_sum float_of_digits
              (VList ([line_item "Milk" (VInt 3)] ++ [line_item "Chips" (VInt 4)]))
            = Ok total'
         /\ same_number total total').
Proof.
  destruct (safe_sum_is_total float_of_digits) as (_ & Htotal & Hskip & _).
  split.
  - apply (Htotal [line_item "Milk" (VInt 3); line_item "Chips" (VInt 4)] [3; 4]%Z).
    + repeat constructor; eexists; (split; reflexivity).
    + repeat constructor; lia.
    + reflexivity.
  - apply Hskip. eapply no_price_value; [reflexivity|].
    apply unparseable_str. reflexivity.
Defined.

(** C3, as stated, fails: the prices [2^53], 1 and 1 are well-formed, their
    arithmetic total is [2^53 + 2], which is a float (its mantissa is
    [2^52 + 1], its exponent 1), and the sum returned is [2^53]: each of the
    two additions of 1 is rounded away. *)
Lemma safe_sum_is_not_the_arithmetic_total :
  Forall2 integer_priced large_prices [9007199254740992; 1; 1]%Z
  /\ integer_total [9007199254740992; 1; 1]%Z = 9007199254740994%Z
  /\ Prim2SF (float_of_Z 9007199254740994) = S754_finite false 4503599627370497 1
  /\ _safe_sum float_of_digits (VList large_prices) = Ok (float_of_Z 9007199254740992)
  /\ _safe_sum float_of_digits (VList large_prices)
     <> Ok (float_of_Z (integer_total [9007199254740992; 1; 1]%Z)).
Proof.
  split; [repeat constructor; eexists; (split; reflexivity)|].
  split; [reflexivity|]. split; [vm_compute; reflexivity|].
  split; [vm_compute; reflexivity|].
  intros H. apply (f_equal (fun r => match r with
                                     | Ok f => Prim2SF f
                                     | Raise _ => S754_nan
                                     end)) in H.
  vm_compute in H. discriminate H.
Qed.

(** ** The classification client *)

Section ClassifierFacts.

Variable json_loads : str -> decoded.
Variable requests_post : str -> outcome.

#[local] Abbreviation classify := (classify_items_with_ai json_loads requests_post).

Lemma getitem_key_raises (obj : value) (k : str) (e : exn) :
  Sub.getitem_key obj k = Raise e -> exn_cls e <> JSONDecodeError.
Proof.
  destruct obj as [| | | | |l|d]; cbn; try (intros [= <-]; discriminate).
  destruct (Py.lookup d k); intros [= <-]; discriminate.
Qed.

Lemma getitem_zero_raises (obj : value) (e : exn) :
  Sub.getitem_zero obj = Raise e -> exn_cls e <> JSONDecodeError.
Proof.
  destruct obj as [| | | |[|c s]|[|v l]|d]; cbn; intros [= <-]; discriminate.
Qed.

Lemma completion_content_raises (payload : value) (e : exn) :
  completion_content payload = Raise e -> exn_cls e <> JSONDecodeError.
Proof.
  unfold completion_content.
  destruct (Sub.getitem_key payload (u "choices")) as [a|e1] eqn:E1; cbn [bind];
    [|intros [= <-]; eapply getitem_key_raises; eauto].
  destruct (Sub.getitem_zero a) as [b|e2] eqn:E2; cbn [bind];
    [|intros [= <-]; eapply getitem_zero_raises; eauto].
  destruct (Sub.getitem_key b (u "message")) as [c|e3] eqn:E3; cbn [bind];
    [|intros [= <-]; eapply getitem_key_raises; eauto].
  apply getitem_key_raises.
Qed.

(** When the [try] block raises a [JSONDecodeError] after binding [payload],
    the content had been read. *)
Lemma try_block_decode_error (resp : response) (payload : value) (e : exn) :
  try_block json_loads resp = (Some payload, Raise e) ->
  exn_cls e = JSONDecodeError ->
  exists s msg, completion_content payload = Ok (VStr s)
                /\ json_loads s = Undecodable msg.
Proof.
  unfold try_block.
  destruct (raise_for_status resp); [|discriminate].
  destruct (decode_result (json resp)) as [p|]; [|discriminate].
  intros [= -> H] Hc.
  destruct (completion_content payload) as [c|e'] eqn:E; cbn [bind] in H.
  - destruct c; cbn in H; try (injection H as <-; discriminate).
    destruct (json_loads s) as [v|msg|l msg] eqn:Ej; [discriminate| |].
    + eauto.
    + cbn in H. injection H as <-. now destruct l.
  - injection H as <-. now apply completion_content_raises in E.
Qed.

Lemma try_block_ok (resp : response) (payload : option value) (data : value) :
  try_block json_loads resp = (payload, Ok data) ->
  exists p s, payload = Some p /\ raise_for_status resp = Ok tt
              /\ json resp = Decoded p
              /\ completion_content p = Ok (VStr s)
              /\ json_loads s = Decoded data.
Proof.
  unfold try_block.
  destruct (raise_for_status resp) as [[]|]; [|discriminate].
  destruct (json resp) as [p| |] eqn:Ej; cbn [decode_result]; [|discriminate..].
  intros [= <- H].
  destruct (completion_content p) as [c|] eqn:E; cbn [bind] in H; [|discriminate].
  destruct c; cbn in H; try discriminate.
  destruct (json_loads s) as [v| |] eqn:El; cbn in H; [|discriminate..].
  injection H as <-. exists p, s. auto.
Qed.

Lemma classify_decoded
  (grocery_text : str) (resp : response) (payload : value) (s : str) (v : value) :
  requests_post grocery_text = Responds resp ->
  raise_for_status resp = Ok tt ->
  json resp = Decoded payload ->
  completion_content payload = Ok (VStr s) ->
  json_loads s = Decoded v ->
  classify grocery_text = ([], Ok v).
Proof.
  intros H0 H1 H2 H3 H4. unfold classify_items_with_ai, try_block.
  rewrite H0, H1, H2. cbn [decode_result]. rewrite H3. cbn [bind loads]. rewrite H4.
  reflexivity.
Qed.

Lemma classify_undecodable
  (grocery_text : str) (resp : response) (payload : value) (s msg : str) :
  requests_post grocery_text = Responds resp ->
  raise_for_status resp = Ok tt ->
  json resp = Decoded payload ->
  completion_content payload = Ok (VStr s) ->
  json_loads s = Undecodable msg ->
  reports_malformed (VStr s) (classify grocery_text).
Proof.
  intros H0 H1 H2 H3 H4. unfold reports_malformed, classify_items_with_ai, try_block.
  rewrite H0, H1, H2. cbn [decode_result]. rewrite H3. cbn [bind loads]. rewrite H4.
  cbn [decode_result handlers exn_cls]. rewrite H3. reflexivity.
Qed.

Lemma classify_undecodable_body (grocery_text : str) (resp : response) (msg : str) :
  requests_post grocery_text = Responds resp ->
  raise_for_status resp = Ok tt ->
  json resp = Undecodable msg ->
  reports_malformed no_content (classify grocery_text).
Proof.
  intros H0 H1 H2. unfold reports_malformed, classify_items_with_ai, try_block.
  rewrite H0, H1, H2. reflexivity.
Qed.

Lemma classify_http_error (grocery_text : str) (resp : response) (e : exn) :
  requests_post grocery_text = Responds resp ->
  raise_for_status resp = Raise e ->
  classify grocery_text
  = ([st_error (u "Azure OpenAI HTTP error");
      match json resp with
      | Decoded body => st_json body
      | _ => st_write (VStr (text resp))
      end], Ok VNone).
Proof.
  intros H0 H. unfold classify_items_with_ai, try_block. rewrite H0, H.
  unfold raise_for_status in H.
  destruct ((400 <=? status_code resp) && (status_code resp <? 600))%Z; [|discriminate].
  injection H as <-. cbn [handlers exn_cls]. destruct (json resp); reflexivity.
Qed.

Lemma getitem_key_class (obj : value) (k : str) (e : exn) :
  Sub.getitem_key obj k = Raise e -> exn_cls e = KeyError \/ exn_cls e = TypeError.
Proof.
  destruct obj as [| | | | |l|d]; cbn; try (intros [= <-]; now right).
  destruct (Py.lookup d k); intros [= <-]. now left.
Qed.

Lemma getitem_zero_class (obj : value) (e : exn) :
  Sub.getitem_zero obj = Raise e ->
  exn_cls e = KeyError \/ exn_cls e = TypeError \/ exn_cls e = IndexError.
Proof.
  destruct obj as [| | | |[|c s]|[|v l]|d]; cbn; intros [= <-]; auto.
Qed.

(** The subscripts of [payload["choices"][0]["message"]["content"]] raise
    [KeyError], [TypeError] or [IndexError]. *)
Lemma completion_content_class (payload : value) (e : exn) :
  completion_content payload = Raise e ->
  exn_cls e = KeyError \/ exn_cls e = TypeError \/ exn_cls e = IndexError.
Proof.
  unfold completion_content.
  destruct (Sub.getitem_key payload (u "choices")) as [a|e1] eqn:E1; cbn [bind];
    [|intros [= <-]; destruct (getitem_key_class _ _ E1); auto].
  destruct (Sub.getitem_zero a) as [b|e2] eqn:E2; cbn [bind];
    [|intros [= <-]; exact (getitem_zero_class _ E2)].
  destruct (Sub.getitem_key b (u "message")) as [c|e3] eqn:E3; cbn [bind];
    [|intros [= <-]; destruct (getitem_key_class _ _ E3); auto].
  intros H. destruct (getitem_key_class _ _ H); auto.
Qed.

Lemma handlers_other (resp : response) (payload : option value) (e : exn) :
  exn_cls e <> JSONDecodeError -> exn_cls e <> HTTPError ->
  handlers resp payload e
  = ([st_error (u "Unexpected error calling Azure OpenAI: " ++ exn_msg e)], Ok VNone).
Proof.
  intros H1 H2. unfold handlers. destruct (exn_cls e); try reflexivity; congruence.
Qed.

Lemma no_content_text : no_content = VStr (u "(no content)").
Proof. unfold no_content. reflexivity. Qed.

(** A body that is JSON without the content: the last [except] clause. *)
Lemma classify_payload_error
  (grocery_text : str) (resp : response) (payload : value) (e : exn) :
  requests_post grocery_text = Responds resp ->
  raise_for_status resp = Ok tt ->
  json resp = Decoded payload ->
  completion_content payload = Raise e ->
  classify grocery_text
  = ([st_error (u "Unexpected error calling Azure OpenAI: " ++ exn_msg e)], Ok VNone).
Proof.
  intros H0 H1 H2 H3. unfold classify_items_with_ai, try_block.
  rewrite H0, H1, H2. cbn [decode_result]. rewrite H3. cbn [bind].
  apply handlers_other;
    destruct (completion_content_class _ H3) as [-> | [-> | ->]]; discriminate.
Qed.

(** The decoder gives up on the content, or on the body: the last [except]
    clause again, and the raw content is not shown. *)
Lemma classify_content_exceeds
  (grocery_text : str) (resp : response) (payload : value) (s : str)
  (limit : decoder_limit) (msg : str) :
  requests_post grocery_text = Responds resp ->
  raise_for_status resp = Ok tt ->
  json resp = Decoded payload ->
  completion_content payload = Ok (VStr s) ->
  json_loads s = Exceeds limit msg ->
  classify grocery_text
  = ([st_error (u "Unexpected error calling Azure OpenAI: " ++ msg)], Ok VNone).
Proof.
  intros H0 H1 H2 H3 H4. unfold classify_items_with_ai, try_block.
  rewrite H0, H1, H2. cbn [decode_result]. rewrite H3. cbn [bind loads]. rewrite H4.
  cbn [decode_result]. rewrite handlers_other; [reflexivity | |]; now destruct limit.
Qed.

Lemma classify_body_exceeds
  (grocery_text : str) (resp : response) (limit : decoder_limit) (msg : str) :
  requests_post grocery_text = Responds resp ->
  raise_for_status resp = Ok tt ->
  json resp = Exceeds limit msg ->
  classify grocery_text
  = ([st_error (u "Unexpected error calling Azure OpenAI: " ++ msg)], Ok VNone).
Proof.
  intros H0 H1 H2. unfold classify_items_with_ai, try_block.
  rewrite H0, H1, H2. cbn [decode_result].
  rewrite handlers_other; [reflexivity | |]; now destruct limit.
Qed.

Lemma classify_content_not_text
  (grocery_text : str) (resp : response) (payload content : value) :
  requests_post grocery_text = Responds resp ->
  raise_for_status resp = Ok tt ->
  json resp = Decoded payload ->
  completion_content payload = Ok content ->
  (forall s, content <> VStr s) ->
  classify grocery_text
  = ([st_error (u "Unexpected error calling Azure OpenAI: "
                  ++ u "the JSON object must be str, bytes or bytearray, not "
                  ++ Py.type_name content)],
     Ok VNone).
Proof.
  intros H0 H1 H2 H3 Hc. unfold classify_items_with_ai, try_block.
  rewrite H0, H1, H2. cbn [decode_result]. rewrite H3. cbn [bind].
  destruct content; try (now destruct (Hc s)); cbn [loads];
    (rewrite handlers_other; [reflexivity | discriminate | discriminate]).
Qed.

(** Each handler renders an error first and returns [None]. *)
Lemma handlers_render (resp : response) (payload : option value) (e : exn) :
  (exn_cls e = JSONDecodeError ->
   exists shown, payload = None
                 \/ exists p, payload = Some p /\ completion_content p = Ok shown) ->
  exists msg rest, handlers resp payload e = (st_error msg :: rest, Ok VNone).
Proof.
  intros Hp. unfold handlers. destruct (exn_cls e) eqn:Ec;
    try (eexists _, _; reflexivity).
  destruct (Hp eq_refl) as [shown [-> | (p & -> & ->)]]; eexists _, _; reflexivity.
Qed.

(** Every run of the client returns; it returns [None] or else the decoded
    content, having rendered nothing. *)
Lemma classify_cases (grocery_text : str) :
  exists calls v,
    classify grocery_text = (calls, Ok v)
    /\ (v = VNone
        \/ exists resp payload s,
             requests_post grocery_text = Responds resp /\ json resp = Decoded payload
             /\ completion_content payload = Ok (VStr s)
             /\ json_loads s = Decoded v /\ calls = []).
Proof.
  unfold classify_items_with_ai.
  destruct (requests_post grocery_text) as [msg|resp].
  - eexists _, VNone. split; [reflexivity | now left].
  - destruct (try_block json_loads resp) as [payload [data|e]] eqn:E.
    + destruct (try_block_ok _ E) as (p & s & -> & H1 & H2 & H3 & H4).
      exists [], data. split; [reflexivity|]. right. exists resp, p, s. auto.
    + unfold handlers. destruct (exn_cls e) eqn:Ec;
        try (eexists _, VNone; split; [reflexivity | now left]).
      destruct payload as [p|].
      * destruct (try_block_decode_error _ E Ec) as (s & msg & -> & _).
        eexists _, VNone. split; [reflexivity | now left].
      * eexists _, VNone. split; [reflexivity | now left].
Qed.

(** Every run of the client returns: the decoded content with nothing
    rendered, or [None] after an error was rendered. *)
Lemma classify_outcomes (grocery_text : str) :
  exists calls v,
    classify grocery_text = (calls, Ok v)
    /\ ((calls = []
         /\ exists resp payload s,
              requests_post grocery_text = Responds resp /\ json resp = Decoded payload
              /\ completion_content payload = Ok (VStr s)
              /\ json_loads s = Decoded v)
        \/ (v = VNone /\ exists msg rest, calls = st_error msg :: rest)).
Proof.
  unfold classify_items_with_ai.
  destruct (requests_post grocery_text) as [msg|resp].
  - eexists _, VNone. split; [reflexivity|]. right. split; [reflexivity|].
    eexists _, _. reflexivity.
  - destruct (try_block json_loads resp) as [payload [data|e]] eqn:E.
    + destruct (try_block_ok _ E) as (p & s & -> & H1 & H2 & H3 & H4).
      exists [], data. split; [reflexivity|]. left. split; [reflexivity|].
      exists resp, p, s. auto.
    + destruct (@handlers_render resp payload e) as (msg & rest & ->).
      * intros Ec. destruct payload as [p|].
        -- destruct (try_block_decode_error _ E Ec) as (s & msg & H & _).
           exists (VStr s). right. exists p. auto.
        -- exists VNone. now left.
      * eexists _, VNone. split; [reflexivity|]. right. split; [reflexivity|].
        eexists _, _. reflexivity.
Qed.

(** C6 (amended).  Content that [json.loads] cannot decode makes the client
    render the error and the raw content, and return [None]; content that it
    decodes is returned as decoded, whatever its shape.  A response body that
    is not JSON is rendered with the error and [(no content)]; an HTTP error
    status is rendered with the body; a transport failure, a body without the
    content, content that is no text, and content or a body on which the
    decoder gives up are rendered as an unexpected error with the message of
    the exception (and without the raw content); each gives [None].  No run
    of the client raises, and every run that does not return the decoded
    content has rendered an error. *)
Theorem classify_failures_are_rendered :
  (forall grocery_text resp payload s msg,
      requests_post grocery_text = Responds resp ->
      raise_for_status resp = Ok tt ->
      json resp = Decoded payload ->
      completion_content payload = Ok (VStr s) ->
      json_loads s = Undecodable msg ->
      reports_malformed (VStr s) (classify grocery_text))
  /\ (forall grocery_text resp payload s v,
         requests_post grocery_text = Responds resp ->
         raise_for_status resp = Ok tt ->
         json resp = Decoded payload ->
         completion_content payload = Ok (VStr s) ->
         json_loads s = Decoded v ->
         classify grocery_text = ([], Ok v))
  /\ (forall grocery_text resp msg,
         requests_post grocery_text = Responds resp ->
         raise_for_status resp = Ok tt ->
         json resp = Undecodable msg ->
         reports_malformed (VStr (u "(no content)")) (classify grocery_text))
  /\ (forall grocery_text resp e,
         requests_post grocery_text = Responds resp ->
         raise_for_status resp = Raise e ->
         classify grocery_text
         = ([st_error (u "Azure OpenAI HTTP error");
             match json resp with
             | Decoded body => st_json body
             | _ => st_write (VStr (text resp))
             end], Ok VNone))
  /\ (forall grocery_text msg,
         requests_post grocery_text = Fails msg ->
         classify grocery_text
         = ([st_error (u "Unexpected error calling Azure OpenAI: " ++ msg)], Ok VNone))
  /\ (forall grocery_text resp payload e,
         requests_post grocery_text = Responds resp ->
         raise_for_status resp = Ok tt ->
         json resp = Decoded payload ->
         completion_content payload = Raise e ->
         classify grocery_text
         = ([st_error (u "Unexpected error calling Azure OpenAI: " ++ exn_msg e)],
            Ok VNone))
  /\ (forall grocery_text resp payload content,
         requests_post grocery_text = Responds resp ->
         raise_for_status resp = Ok tt ->
         json resp = Decoded payload ->
         completion_content payload = Ok content ->
         (forall s, content <> VStr s) ->
         classify grocery_text
         = ([st_error (u "Unexpected error calling Azure OpenAI: "
                         ++ u "the JSON object must be str, bytes or bytearray, not "
                         ++ Py.type_name content)],
            Ok VNone))
  /\ (forall grocery_text resp payload s limit msg,
         requests_post grocery_text = Responds resp ->
         raise_for_status resp = Ok tt ->
         json resp = Decoded payload ->
         completion_content payload = Ok (VStr s) ->
         json_loads s = Exceeds limit msg ->
         classify grocery_text
         = ([st_error (u "Unexpected error calling Azure OpenAI: " ++ msg)], Ok VNone))
  /\ (forall grocery_text resp limit msg,
         requests_post grocery_text = Responds resp ->
         raise_for_status resp = Ok tt ->
         json resp = Exceeds limit msg ->
         classify grocery_text
         = ([st_error (u "Unexpected error calling Azure OpenAI: " ++ msg)], Ok VNone))
  /\ (forall grocery_text,
         exists calls v,
           classify grocery_text = (calls, Ok v)
           /\ ((calls = []
                /\ exists resp payload s,
                     requests_post grocery_text = Responds resp
                     /\ json resp = Decoded payload
                     /\ completion_content payload = Ok (VStr s)
                     /\ json_loads s = Decoded v)
               \/ (v = VNone /\ exists msg rest, calls = st_error msg :: rest))).
Proof.
  split; [exact classify_undecodable|].
  split; [exact classify_decoded|].
  split; [intros t resp msg H0 H1 H2; rewrite <- no_content_text;
          exact (classify_undecodable_body H0 H1 H2)|].
  split; [exact classify_http_error|].
  split; [intros t msg H; unfold classify_items_with_ai; now rewrite H|].
  split; [exact classify_payload_error|].
  split; [exact classify_content_not_text|].
  split; [exact classify_content_exceeds|].
  split; [exact classify_body_exceeds|].
  exact classify_outcomes.
Qed.

End ClassifierFacts.

Lemma classify_failures_are_rendered_witness :
  reports_malformed (VStr prose_content)
    (classify_items_with_ai json_loads_sample (completes_with prose_content) milk_list)
  /\ classify_items_with_ai json_loads_sample (completes_with array_content) milk_list
     = ([], Ok (VList [VInt 1; VInt 2]))
  /\ classify_items_with_ai json_loads_sample no_choices milk_list
     = ([st_error (u "Unexpected error calling Azure OpenAI: list index out of range")],
        Ok VNone)
  /\ classify_items_with_ai json_loads_limited (completes_with long_numeral) milk_list
     = ([st_error (u "Unexpected error calling Azure OpenAI: " ++ digit_limit_message)],
        Ok VNone).
Proof.
  split; [|split; [|split]].
  - destruct (classify_failures_are_rendered json_loads_sample
                (completes_with prose_content)) as (Hbad & _).
    eapply Hbad; reflexivity.
  - destruct (classify_failures_are_rendered json_loads_sample
                (completes_with array_content)) as (_ & Hgood & _).
    eapply Hgood; reflexivity.
  - destruct (classify_failures_are_rendered json_loads_sample no_choices)
      as (_ & _ & _ & _ & _ & Hpayload & _).
    rewrite (Hpayload milk_list (ok_response (VDict [(u "choices", VList [])]))
               (VDict [(u "choices", VList [])])
               (Exn IndexError (u "list index out of range"))
               eq_refl eq_refl eq_refl eq_refl).
    vm_compute. reflexivity.
  - destruct (classify_failures_are_rendered json_loads_limited
                (completes_with long_numeral))
      as (_ & _ & _ & _ & _ & _ & _ & Hlimit & _).
    apply (Hlimit milk_list (ok_response (chat_payload (VStr long_numeral)))
             (chat_payload (VStr long_numeral)) long_numeral DigitLimit
             digit_limit_message eq_refl eq_refl eq_refl eq_refl).
    vm_compute. reflexivity.
Defined.

(** C6, as stated, fails: content that is JSON of another shape than a
    classification result (here an array) is not reported as malformed; it is
    returned, and nothing is rendered. *)
Lemma classify_accepts_other_shape :
  json_loads_sample array_content = Decoded (VList [VInt 1; VInt 2])
  /\ is_classification_result (VList [VInt 1; VInt 2]) = false
  /\ classify_items_with_ai json_loads_sample (completes_with array_content) milk_list
     = ([], Ok (VList [VInt 1; VInt 2]))
  /\ ~ reports_malformed (VStr array_content)
         (classify_items_with_ai json_loads_sample (completes_with array_content)
            milk_list).
Proof.
  repeat split; try reflexivity.
  unfold reports_malformed. intros H. discriminate H.
Qed.

(** ** Receipt transcription *)

Lemma lower_char_same (a b : char) :
  Str.lower_char a = Str.lower_char b <-> same_letter a b.
Proof.
  unfold Str.lower_char, same_letter.
  destruct (N.leb_spec 65 a), (N.leb_spec a 90), (N.leb_spec 65 b), (N.leb_spec b 90);
    cbn [andb]; lia.
Qed.

Lemma lower_ignoring_case (s t : str) :
  Str.lower s = Str.lower t <-> ignoring_case s t.
Proof.
  unfold ignoring_case. revert t.
  induction s as [|a s IH]; intros [|b t]; cbn; split; intros H;
    try discriminate; try constructor; try (now inversion H).
  - injection H as Hc _. now apply lower_char_same.
  - injection H as _ Hs. now apply IH.
  - inversion H as [|? ? ? ? Hc Hs]; subst.
    f_equal; [now apply lower_char_same | now apply IH].
Qed.

Lemma lower_succeeded (s : str) :
  Str.lower s = u "succeeded" <-> ignoring_case s (u "succeeded").
Proof. exact (lower_ignoring_case s (u "succeeded")). Qed.

Lemma lower_failed (s : str) :
  Str.lower s = u "failed" <-> ignoring_case s (u "failed").
Proof. exact (lower_ignoring_case s (u "failed")). Qed.

(** One poll that reads a status. *)
Lemma poll_once_status (resp : response) (d : list (str * value)) (s : str) :
  raise_for_status resp = Ok tt ->
  json resp = Decoded (VDict d) ->
  Py.lookup d (u "status") = Some (VStr s) ->
  Ocr.poll_once (Responds resp)
  = if Str.eqb (Str.lower s) (u "succeeded") then
      text <- Ocr.read_text (VDict d) ;; Ok (Ocr.Return text)
    else if Str.eqb (Str.lower s) (u "failed") then Ok (Ocr.Return Ocr.ocr_failed)
    else Ok Ocr.Continue.
Proof.
  intros H1 H2 H3. unfold Ocr.poll_once. rewrite H1, H2.
  cbn [bind decode_result Py.get]. rewrite H3. reflexivity.
Qed.

Lemma poll_once_succeeded (o : outcome) (d : list (str * value)) (st : job_status) :
  polled o d st -> succeeded st ->
  Ocr.poll_once o = (text <- Ocr.read_text (VDict d) ;; Ok (Ocr.Return text)).
Proof.
  intros Hp (s & -> & Hs). inversion Hp as [|resp d' s' H1 H2 H3]; subst.
  rewrite (poll_once_status _ H1 H2 H3).
  apply lower_succeeded in Hs. rewrite Hs. reflexivity.
Qed.

Lemma poll_once_failed (o : outcome) (d : list (str * value)) (st : job_status) :
  polled o d st -> failed st ->
  Ocr.poll_once o = Ok (Ocr.Return Ocr.ocr_failed).
Proof.
  intros Hp (s & -> & Hs). inversion Hp as [|resp d' s' H1 H2 H3]; subst.
  rewrite (poll_once_status _ H1 H2 H3).
  apply lower_failed in Hs. rewrite Hs. reflexivity.
Qed.

Lemma poll_once_absent (o : outcome) (d : list (str * value)) :
  polled o d Absent -> Ocr.poll_once o = Ok Ocr.Continue.
Proof.
  intros Hp. inversion Hp as [resp d' H1 H2 H3|]; subst.
  unfold Ocr.poll_once. rewrite H1, H2. cbn [bind decode_result Py.get].
  rewrite H3. reflexivity.
Qed.

Lemma poll_once_running (o : outcome) :
  still_running o -> Ocr.poll_once o = Ok Ocr.Continue.
Proof.
  intros (d & st & Hp & Hs & Hf). destruct st as [|s].
  - eapply poll_once_absent; eauto.
  - inversion Hp as [|resp d' s' H1 H2 H3]; subst.
    rewrite (poll_once_status _ H1 H2 H3).
    destruct (Str.eqb (Str.lower s) (u "succeeded")) eqn:E1.
    + exfalso. apply Hs. exists s. split; [reflexivity|].
      now apply lower_succeeded, str_eqb_eq.
    + destruct (Str.eqb (Str.lower s) (u "failed")) eqn:E2; [|reflexivity].
      exfalso. apply Hf. exists s. split; [reflexivity|].
      now apply lower_failed, str_eqb_eq.
Qed.

Section PollLoop.

Variable svc : Ocr.service.
Variable url : value.

(** [k] polls that go on, then the rest of the loop. *)
Lemma poll_loop_running (k n first : nat) :
  (forall i, i < k -> still_running (Ocr.poll svc (first + i) url)) ->
  Ocr.poll_loop svc url (k + n) first
  = (poll_trace url k ++ fst (Ocr.poll_loop svc url n (first + k)),
     snd (Ocr.poll_loop svc url n (first + k))).
Proof.
  revert first. induction k as [|k IH]; intros first H.
  - cbn [poll_trace Nat.add app]. rewrite Nat.add_0_r.
    now destruct (Ocr.poll_loop svc url n first).
  - cbn [Nat.add Ocr.poll_loop poll_trace].
    rewrite (poll_once_running (o := Ocr.poll svc first url)).
    + rewrite (IH (S first)).
      * cbn [fst snd app]. now rewrite Nat.add_succ_r.
      * intros i Hi. rewrite Nat.add_succ_l, <- Nat.add_succ_r. apply H. lia.
    + rewrite <- (Nat.add_0_r first). apply H. lia.
Qed.

Lemma polls_poll_trace (k : nat) (rest : list Ocr.call) :
  polls (poll_trace url k ++ rest) = k + polls rest.
Proof.
  unfold polls. induction k as [|k IH]; cbn; [reflexivity|]. now rewrite IH.
Qed.

End PollLoop.

Lemma extract_after_submit (svc : Ocr.service) (file_bytes : list N) (url : value) :
  job_accepted svc file_bytes url ->
  Ocr.extract_text_from_receipt svc file_bytes
  = (Ocr.post_analyze :: fst (Ocr.poll_loop svc url 60 0),
     try_except (snd (Ocr.poll_loop svc url 60 0)) Ocr.ocr_error).
Proof.
  intros (resp & H1 & H2 & H3 & H4).
  unfold Ocr.extract_text_from_receipt, Ocr.transcribe.
  rewrite H1, H2. cbn [bind]. rewrite H3, H4. cbn [negb].
  now destruct (Ocr.poll_loop svc url 60 0).
Qed.

(** The texts of the sentinels. *)
Lemma ocr_timed_out_text :
  Ocr.ocr_timed_out = u "⚠️ OCR timed out while reading the receipt.".
Proof. unfold Ocr.ocr_timed_out. reflexivity. Qed.

Lemma ocr_failed_text : Ocr.ocr_failed = u "⚠️ OCR failed to process the receipt.".
Proof. unfold Ocr.ocr_failed. reflexivity. Qed.

Lemma no_text_found_text : Ocr.no_text_found = u "⚠️ No text found on this receipt.".
Proof. unfold Ocr.no_text_found. reflexivity. Qed.

(** C1.  When each of the 60 polls reads a status that is neither
    [succeeded] nor [failed], the loop makes exactly 60 polls, each followed
    by a sleep of 1, makes no further poll, and the text returned is the
    time-out message, which starts with the warning marker. *)
Theorem polling_times_out_after_60 (svc : Ocr.service) (file_bytes : list N) (url : value) :
  job_accepted svc file_bytes url ->
  (forall i, i < 60 -> still_running (Ocr.poll svc i url)) ->
  Ocr.poll_loop svc url 60 0
  = (poll_trace url 60, Ok (u "⚠️ OCR timed out while reading the receipt."))
  /\ Ocr.extract_text_from_receipt svc file_bytes
     = (Ocr.post_analyze :: poll_trace url 60,
        u "⚠️ OCR timed out while reading the receipt.")
  /\ Str.startswith (snd (Ocr.extract_text_from_receipt svc file_bytes)) warning_marker
     = true
  /\ polls (Ocr.post_analyze :: poll_trace url 60) = 60
  /\ filter is_sleep (Ocr.post_analyze :: poll_trace url 60) = repeat (Ocr.sleep 1) 60.
Proof.
  intros Hjob Hrun. rewrite <- !ocr_timed_out_text.
  assert (Hloop : Ocr.poll_loop svc url 60 0 = (poll_trace url 60, Ok Ocr.ocr_timed_out)).
  { change 60 with (60 + 0) at 1. rewrite poll_loop_running by exact Hrun.
    cbn [Ocr.poll_loop fst snd]. now rewrite app_nil_r. }
  assert (Hrun' : Ocr.extract_text_from_receipt svc file_bytes
                  = (Ocr.post_analyze :: poll_trace url 60, Ocr.ocr_timed_out)).
  { rewrite (extract_after_submit Hjob), Hloop. reflexivity. }
  split; [exact Hloop|]. split; [exact Hrun'|]. split.
  - rewrite Hrun'. reflexivity.
  - split; reflexivity.
Qed.

(** A terminal poll after [k] polls that went on. *)
Lemma poll_loop_returns (svc : Ocr.service) (url : value) (k : nat) (r : result str) :
  k < 60 ->
  (forall i, i < k -> still_running (Ocr.poll svc i url)) ->
  (exists s, Ocr.poll_once (Ocr.poll svc k url) = Ok (Ocr.Return s) /\ r = Ok s)
  \/ (exists e, Ocr.poll_once (Ocr.poll svc k url) = Raise e /\ r = Raise e) ->
  Ocr.poll_loop svc url 60 0 = (poll_trace url k ++ [Ocr.get_operation url], r).
Proof.
  intros Hk Hrun Hlast.
  replace 60 with (k + S (59 - k)) by lia.
  rewrite poll_loop_running by exact Hrun.
  cbn [Nat.add Ocr.poll_loop].
  destruct Hlast as [(s & -> & ->)|(e & -> & ->)]; reflexivity.
Qed.

Lemma polls_until (url : value) (k : nat) :
  polls (Ocr.post_analyze :: poll_trace url k ++ [Ocr.get_operation url]) = S k.
Proof.
  change (polls (Ocr.post_analyze :: poll_trace url k ++ [Ocr.get_operation url]))
    with (polls (poll_trace url k ++ [Ocr.get_operation url])).
  rewrite polls_poll_trace. cbn. lia.
Qed.

Lemma sleeps_poll_trace (url : value) (k : nat) (tail : list Ocr.call) :
  filter is_sleep (poll_trace url k ++ tail) = repeat (Ocr.sleep 1) k ++ filter is_sleep tail.
Proof. induction k as [|k IH]; cbn; [reflexivity|]. now rewrite IH. Qed.

(** C8.  When a poll reads the status [failed], after polls that all went on,
    the failure message, which starts with the warning marker, is returned
    from that poll: it is the last call, and no sleep follows it. *)
Theorem failed_status_stops_polling
  (svc : Ocr.service) (file_bytes : list N) (url : value) (k : nat)
  (d : list (str * value)) (st : job_status) :
  job_accepted svc file_bytes url ->
  k < 60 ->
  (forall i, i < k -> still_running (Ocr.poll svc i url)) ->
  polled (Ocr.poll svc k url) d st ->
  failed st ->
  Ocr.extract_text_from_receipt svc file_bytes
  = (Ocr.post_analyze :: poll_trace url k ++ [Ocr.get_operation url],
     u "⚠️ OCR failed to process the receipt.")
  /\ Str.startswith (snd (Ocr.extract_text_from_receipt svc file_bytes)) warning_marker
     = true
  /\ polls (Ocr.post_analyze :: poll_trace url k ++ [Ocr.get_operation url]) = S k
  /\ filter is_sleep (Ocr.post_analyze :: poll_trace url k ++ [Ocr.get_operation url])
     = repeat (Ocr.sleep 1) k.
Proof.
  intros Hjob Hk Hrun Hp Hf. rewrite <- !ocr_failed_text.
  assert (Hrun' : Ocr.extract_text_from_receipt svc file_bytes
                  = (Ocr.post_analyze :: poll_trace url k ++ [Ocr.get_operation url],
                     Ocr.ocr_failed)).
  { rewrite (extract_after_submit Hjob).
    rewrite (@poll_loop_returns svc url k (Ok Ocr.ocr_failed) Hk Hrun); [reflexivity|].
    left. exists Ocr.ocr_failed. split; [|reflexivity].
    eapply poll_once_failed; eauto. }
  split; [exact Hrun'|]. split; [rewrite Hrun'; reflexivity|].
  split; [apply polls_until|].
  change (filter is_sleep (Ocr.post_analyze :: ?l)) with (filter is_sleep l).
  rewrite sleeps_poll_trace. cbn [filter is_sleep]. now rewrite app_nil_r.
Qed.

(** *** The lines of a result *)

Lemma line_text_of (line : value) (t : str) :
  line_of line t -> Ocr.line_text line = Ok (Str.strip t).
Proof.
  intros [l t' H|l H]; unfold Ocr.line_text; cbn [Py.get bind]; now rewrite H.
Qed.

Lemma append_non_empty (lines : list str) (txt : str) :
  match txt with [] => lines | _ => lines ++ [txt] end
  = lines ++ filter non_empty [txt].
Proof. destruct txt; cbn; [now rewrite app_nil_r | reflexivity]. Qed.

Lemma page_lines_of (ls : list value) (ts : list str) :
  Forall2 line_of ls ts ->
  forall lines,
    Ocr.page_lines ls lines = Ok (lines ++ filter non_empty (map Str.strip ts)).
Proof.
  induction 1 as [|line t ls ts Hl _ IH]; intros lines; cbn [Ocr.page_lines].
  - cbn. now rewrite app_nil_r.
  - rewrite (line_text_of Hl). cbn [bind]. rewrite append_non_empty, IH.
    rewrite <- app_assoc. cbn [map].
    change (Str.strip t :: map Str.strip ts) with ([Str.strip t] ++ map Str.strip ts).
    now rewrite filter_app.
Qed.

Lemma flatten_cons (ts : list str) (pages : list (list str)) :
  flatten (ts :: pages) = filter non_empty (map Str.strip ts) ++ flatten pages.
Proof. unfold flatten. cbn [List.concat]. now rewrite map_app, filter_app. Qed.

Lemma all_lines_of (ps : list value) (pages : list (list str)) :
  Forall2 page_of ps pages ->
  forall lines, Ocr.all_lines ps lines = Ok (lines ++ flatten pages).
Proof.
  induction 1 as [|page ts ps pages Hp _ IH]; intros lines; cbn [Ocr.all_lines].
  - cbn. now rewrite app_nil_r.
  - rewrite flatten_cons, app_assoc.
    destruct Hp as [p ls ts Hl Hts|p Hl]; cbn [Py.get bind]; rewrite Hl;
      cbn [Py.iter bind].
    + rewrite (page_lines_of Hts). cbn [bind]. apply IH.
    + cbn [Ocr.page_lines bind map filter]. rewrite app_nil_r. apply IH.
Qed.

Lemma read_text_of (d : list (str * value)) (pages : list (list str)) :
  pages_of d pages -> Ocr.read_text (VDict d) = Ok (joined (flatten pages)).
Proof.
  intros [d' a ps pages' Ha Hr Hps|d' a Ha Hr|d' Ha];
    unfold Ocr.read_text; cbn [Py.get bind]; rewrite Ha; cbn [Py.get bind].
  - rewrite Hr. cbn [Py.iter bind]. rewrite (all_lines_of Hps). reflexivity.
  - rewrite Hr. cbn [Py.iter bind Ocr.all_lines].
    unfold joined, flatten. cbn [List.concat map filter]. reflexivity.
  - cbn [Py.lookup Py.iter bind Ocr.all_lines].
    unfold joined, flatten. cbn [List.concat map filter]. reflexivity.
Qed.

Lemma join_newline (lines : list str) : Str.join Str.newline lines = multi_line lines.
Proof.
  induction lines as [|l rest IH]; [reflexivity|].
  cbn [Str.join multi_line]. destruct rest as [|l' rest']; [reflexivity|].
  rewrite IH. reflexivity.
Qed.

(** C2.  When a poll reads the status [succeeded], after polls that all went
    on, that poll is the last call (no sleep follows it), and the text
    returned is made of all the lines of all the pages, in page order then
    line order, each trimmed, the empty ones left out, with a line feed
    between each line and the next; it is the [No text found] message when no
    line is left. *)
Theorem succeeded_status_returns_lines
  (svc : Ocr.service) (file_bytes : list N) (url : value) (k : nat)
  (d : list (str * value)) (st : job_status) (pages : list (list str)) :
  job_accepted svc file_bytes url ->
  k < 60 ->
  (forall i, i < k -> still_running (Ocr.poll svc i url)) ->
  polled (Ocr.poll svc k url) d st ->
  succeeded st ->
  pages_of d pages ->
  Ocr.extract_text_from_receipt svc file_bytes
  = (Ocr.post_analyze :: poll_trace url k ++ [Ocr.get_operation url],
     match flatten pages with
     | [] => u "⚠️ No text found on this receipt."
     | lines => multi_line lines
     end)
  /\ polls (Ocr.post_analyze :: poll_trace url k ++ [Ocr.get_operation url]) = S k
  /\ filter is_sleep (Ocr.post_analyze :: poll_trace url k ++ [Ocr.get_operation url])
     = repeat (Ocr.sleep 1) k.
Proof.
  intros Hjob Hk Hrun Hp Hs Hpages. split; [|split; [apply polls_until|]].
  - rewrite (extract_after_submit Hjob).
    rewrite (@poll_loop_returns svc url k (Ok (joined (flatten pages))) Hk Hrun).
    + cbn [fst snd try_except]. unfold joined.
      destruct (flatten pages) as [|l ls].
      * now rewrite no_text_found_text.
      * now rewrite join_newline.
    + left. exists (joined (flatten pages)). split; [|reflexivity].
      rewrite (poll_once_succeeded Hp Hs), (read_text_of Hpages). reflexivity.
  - change (filter is_sleep (Ocr.post_analyze :: ?l)) with (filter is_sleep l).
    rewrite sleeps_poll_trace. cbn [filter is_sleep]. now rewrite app_nil_r.
Qed.

(** C10.  The status a poll reads is compared in lower case: a status that is
    [succeeded] or [failed] up to the case of its letters ends the loop at that
    poll, and a response without a status makes the loop sleep and poll
    again. *)
Theorem status_is_compared_in_lower_case :
  (forall resp d s,
      raise_for_status resp = Ok tt ->
      json resp = Decoded (VDict d) ->
      Py.lookup d (u "status") = Some (VStr s) ->
      Ocr.poll_once (Responds resp)
      = if Str.eqb (Str.lower s) (u "succeeded") then
          text <- Ocr.read_text (VDict d) ;; Ok (Ocr.Return text)
        else if Str.eqb (Str.lower s) (u "failed") then Ok (Ocr.Return Ocr.ocr_failed)
        else Ok Ocr.Continue)
  /\ (forall o d st,
         polled o d st -> succeeded st ->
         Ocr.poll_once o = (text <- Ocr.read_text (VDict d) ;; Ok (Ocr.Return text))
         /\ Ocr.poll_once o <> Ok Ocr.Continue)
  /\ (forall o d st,
         polled o d st -> failed st ->
         Ocr.poll_once o = Ok (Ocr.Return Ocr.ocr_failed))
  /\ (forall svc url n attempt d,
         polled (Ocr.poll svc attempt url) d Absent ->
         Ocr.poll_once (Ocr.poll svc attempt url) = Ok Ocr.Continue
         /\ Ocr.poll_loop svc url (S n) attempt
            = (Ocr.get_operation url :: Ocr.sleep 1
                 :: fst (Ocr.poll_loop svc url n (S attempt)),
               snd (Ocr.poll_loop svc url n (S attempt)))).
Proof.
  split; [exact poll_once_status|].
  split; [|split; [exact poll_once_failed|]].
  - intros o d st Hp Hs. split; [exact (poll_once_succeeded Hp Hs)|].
    rewrite (poll_once_succeeded Hp Hs).
    destruct (Ocr.read_text (VDict d)); discriminate.
  - intros svc url n attempt d Hp.
    pose proof (poll_once_absent Hp) as H. split; [exact H|].
    cbn [Ocr.poll_loop]. rewrite H.
    now destruct (Ocr.poll_loop svc url n (S attempt)).
Qed.

(** C9 (amended).  When the submission response has no job handle, no poll
    is made and a text with the warning marker is returned: the
    [Operation-Location] text when the body is a JSON object, the [OCR error]
    text of the decoding error when the body is not JSON. *)
Theorem missing_operation_location_is_reported
  (svc : Ocr.service) (file_bytes : list N) (resp : response) :
  Ocr.submit svc file_bytes = Responds resp ->
  raise_for_status resp = Ok tt ->
  no_job_handle resp ->
  exists text,
    Ocr.extract_text_from_receipt svc file_bytes = ([Ocr.post_analyze], text)
    /\ Str.startswith text warning_marker = true
    /\ (forall d, json resp = Decoded (VDict d) -> text = Ocr.no_operation_location)
    /\ (forall msg,
           json resp = Undecodable msg ->
           text = Ocr.ocr_error (Exn JSONDecodeError msg)).
Proof.
  intros Hs Hok [Hh Hb].
  unfold Ocr.extract_text_from_receipt, Ocr.transcribe, Ocr.operation_location.
  rewrite Hs, Hok. cbn [bind]. rewrite Hh.
  destruct (json resp) as [body|msg|l msg] eqn:Ej; cbn [decode_result bind].
  - destruct body as [| | | | | |d];
      try (eexists; split; [reflexivity|]; split; [reflexivity|];
           split; intros; discriminate).
    cbn [Py.get].
    assert (Ht : Py.truthy (match Py.lookup d (u "operationLocation") with
                            | Some v => v
                            | None => VNone
                            end) = false).
    { destruct (Py.lookup d (u "operationLocation")) as [v|] eqn:El;
        [exact (Hb d v eq_refl El) | reflexivity]. }
    rewrite Ht. cbn [negb]. eexists. split; [reflexivity|].
    split; [reflexivity|]. split; [reflexivity | intros; discriminate].
  - eexists. split; [reflexivity|]. split; [reflexivity|].
    split; [intros; discriminate|]. intros msg' [= <-]. reflexivity.
  - eexists. split; [reflexivity|]. split; [reflexivity|].
    split; intros; discriminate.
Qed.

(** *** Runs of the example services *)

Lemma not_ignoring_case (s t : str) :
  Str.lower s <> Str.lower t -> ~ ignoring_case s t.
Proof. intros H Hc. now apply H, lower_ignoring_case. Qed.

Lemma accepted_job (poll : nat -> value -> outcome) (file_bytes : list N) :
  job_accepted {| Ocr.submit := fun _ => Responds accepted; Ocr.poll := poll |}
               file_bytes (VStr job_url).
Proof. exists accepted. repeat split; vm_compute; reflexivity. Qed.

Lemma running_status (status : string) :
  Str.lower (u status) <> u "succeeded" ->
  Str.lower (u status) <> u "failed" ->
  still_running (Responds (ok_response (status_body status))).
Proof.
  intros Hs Hf. exists [(u "status", VStr (u status))], (Status (u status)).
  split.
  - apply polled_status; [reflexivity | reflexivity |].
    cbn [Py.lookup]. now rewrite str_eqb_refl.
  - split; intros (s & [= <-] & H); revert H; now apply not_ignoring_case.
Qed.

Lemma polling_times_out_after_60_witness :
  Ocr.extract_text_from_receipt never_finishes []
  = (Ocr.post_analyze :: poll_trace (VStr job_url) 60,
     u "⚠️ OCR timed out while reading the receipt.")
  /\ polls (Ocr.post_analyze :: poll_trace (VStr job_url) 60) = 60.
Proof.
  destruct (@polling_times_out_after_60 never_finishes [] (VStr job_url))
    as (_ & Hrun & _ & Hpolls & _).
  - apply accepted_job.
  - intros i _. apply (running_status "running"); vm_compute; discriminate.
  - split; assumption.
Defined.

Lemma failed_status_stops_polling_witness :
  Ocr.extract_text_from_receipt fails_at_third []
  = ([Ocr.post_analyze;
      Ocr.get_operation (VStr job_url); Ocr.sleep 1;
      Ocr.get_operation (VStr job_url); Ocr.sleep 1;
      Ocr.get_operation (VStr job_url)],
     u "⚠️ OCR failed to process the receipt.").
Proof.
  destruct (@failed_status_stops_polling fails_at_third [] (VStr job_url) 2
              [(u "status", VStr (u "Failed"))] (Status (u "Failed")))
    as [Hrun _].
  - apply accepted_job.
  - lia.
  - intros i Hi. cbn [fails_at_third Ocr.poll].
    replace (Nat.ltb i 2) with true by (symmetry; apply Nat.ltb_lt; exact Hi).
    apply (running_status "running"); vm_compute; discriminate.
  - apply polled_status; reflexivity.
  - exists (u "Failed"). split; [reflexivity|].
    apply lower_ignoring_case. vm_compute. reflexivity.
  - rewrite Hrun. reflexivity.
Defined.

Lemma succeeded_status_returns_lines_witness :
  Ocr.extract_text_from_receipt succeeds_at_second []
  = ([Ocr.post_analyze;
      Ocr.get_operation (VStr job_url); Ocr.sleep 1;
      Ocr.get_operation (VStr job_url)],
     u "Milk 3" ++ [10%N] ++ u "Chips 4")
  /\ Ocr.extract_text_from_receipt succeeds_with_no_text []
     = ([Ocr.post_analyze; Ocr.get_operation (VStr job_url)],
        u "⚠️ No text found on this receipt.").
Proof.
  split.
  - destruct (@succeeded_status_returns_lines succeeds_at_second [] (VStr job_url) 1
                read_fields (Status (u "succeeded"))
                [[u " Milk 3 "; u "   "]; [u "Chips 4"]])
      as [Hrun _].
    + apply accepted_job.
    + lia.
    + intros i Hi. cbn [succeeds_at_second Ocr.poll].
      replace (Nat.ltb i 1) with true by (symmetry; apply Nat.ltb_lt; exact Hi).
      apply (running_status "notStarted"); vm_compute; discriminate.
    + apply polled_status; reflexivity.
    + exists (u "succeeded"). split; [reflexivity|].
      apply lower_ignoring_case. reflexivity.
    + eapply pages_read; [reflexivity | reflexivity |].
      repeat constructor;
        (eapply page_with_lines; [reflexivity|]);
        repeat constructor; apply line_with_text; reflexivity.
    + rewrite Hrun. vm_compute. reflexivity.
  - destruct (@succeeded_status_returns_lines succeeds_with_no_text [] (VStr job_url) 0
                blank_fields (Status (u "succeeded")) [[u "  "]])
      as [Hrun _].
    + apply accepted_job.
    + lia.
    + intros i Hi. lia.
    + apply polled_status; reflexivity.
    + exists (u "succeeded"). split; [reflexivity|].
      apply lower_ignoring_case. reflexivity.
    + eapply pages_read; [reflexivity | reflexivity |].
      repeat constructor;
        (eapply page_with_lines; [reflexivity|]);
        repeat constructor; apply line_with_text; reflexivity.
    + rewrite Hrun. vm_compute. reflexivity.
Defined.

Lemma status_is_compared_in_lower_case_witness :
  Ocr.poll_once (Responds (ok_response (status_body "FAILED")))
  = Ok (Ocr.Return Ocr.ocr_failed)
  /\ Ocr.poll_once (Responds (ok_response (status_body "Succeeded")))
     <> Ok Ocr.Continue
  /\ Ocr.poll_once (Responds (ok_response (VDict []))) = Ok Ocr.Continue.
Proof.
  destruct status_is_compared_in_lower_case as (_ & Hs & Hf & Ha).
  split; [|split].
  - apply (Hf _ [(u "status", VStr (u "FAILED"))] (Status (u "FAILED"))).
    + apply polled_status; reflexivity.
    + exists (u "FAILED"). split; [reflexivity|].
      apply lower_ignoring_case. vm_compute. reflexivity.
  - apply (Hs _ [(u "status", VStr (u "Succeeded"))] (Status (u "Succeeded"))).
    + apply polled_status; reflexivity.
    + exists (u "Succeeded"). split; [reflexivity|].
      apply lower_ignoring_case. vm_compute. reflexivity.
  - apply (Ha {| Ocr.submit := fun _ => Responds accepted;
                 Ocr.poll := fun _ _ => Responds (ok_response (VDict [])) |}
              VNone 0 0 []).
    apply polled_absent; reflexivity.
Defined.

Lemma no_job_handle_without_header (body : decoded) :
  (forall d v, body = Decoded (VDict d) ->
               Py.lookup d (u "operationLocation") = Some v -> Py.truthy v = false) ->
  no_job_handle (no_handle body).
Proof. intros H. split; [reflexivity | exact H]. Qed.

Lemma missing_operation_location_is_reported_witness :
  Ocr.extract_text_from_receipt answers_empty_object []
  = ([Ocr.post_analyze], Ocr.no_operation_location).
Proof.
  destruct (@missing_operation_location_is_reported answers_empty_object []
              (no_handle (Decoded (VDict []))))
    as (text & Hrun & _ & Hobject & _).
  - reflexivity.
  - reflexivity.
  - apply no_job_handle_without_header. intros d v [= <-]. discriminate.
  - rewrite Hrun. f_equal. now apply (Hobject []).
Defined.

(** C9, as stated, fails: a submission answered with no [Operation-Location]
    header and an empty body, which is not JSON, carries no job handle, and
    the text returned is the [OCR error] of the decoding, not the
    [Operation-Location] text. *)
Lemma empty_body_is_reported_as_ocr_error :
  no_job_handle (no_handle (Undecodable decoding_error))
  /\ Ocr.extract_text_from_receipt answers_empty_body []
     = ([Ocr.post_analyze], u "⚠️ OCR error: " ++ decoding_error)
  /\ snd (Ocr.extract_text_from_receipt answers_empty_body [])
     <> Ocr.no_operation_location.
Proof.
  split; [|split].
  - apply no_job_handle_without_header. intros d v H. discriminate H.
  - reflexivity.
  - vm_compute. discriminate.
Qed.

(** ** The analysis block *)

Section AnalysisFacts.

Variable float_of_str : str -> option float.
Variable format_fixed : nat -> float -> str.
Variable format_value : value -> str.
Variable table_error : value -> option str.

#[local] Abbreviation savings := (savings_section format_fixed).

Lemma truediv_two (x : float) : truediv x 2 = Ok (x / 2)%float.
Proof. reflexivity. Qed.

Lemma truediv_positive (x total : float) :
  (0 <? total)%float = true -> truediv x total = Ok (x / total)%float.
Proof. intros H. unfold truediv. now rewrite (positive_not_zero H). Qed.

Lemma percentage_positive (saving total : float) :
  (0 <? total)%float = true ->
  percentage saving total = Ok (saving / total * 100)%float.
Proof. intros H. unfold percentage. now rewrite (truediv_positive _ H). Qed.

Lemma savings_section_returns (half_prefix : str) (f : figures) :
  exists calls, savings half_prefix f = (calls, Ok tt).
Proof.
  unfold savings_section. destruct (0 <? total_spent f)%float eqn:E.
  - rewrite !(percentage_positive _ E). eexists. reflexivity.
  - eexists. reflexivity.
Qed.

Lemma savings_section_zero (half_prefix : str) (f : figures) :
  (total_spent f =? 0)%float = true -> savings half_prefix f = ([], Ok tt).
Proof.
  intros H. unfold savings_section. now rewrite (zero_not_positive H).
Qed.

Lemma ui_bind_nothing {A} (k : unit -> ui A) : ui_bind ([], Ok tt) k = k tt.
Proof. unfold ui_bind. now destruct (k tt). Qed.

Lemma ui_bind_lift {A B} (a : A) (k : A -> ui B) : ui_bind (lift (Ok a)) k = k a.
Proof. unfold ui_bind, lift. now destruct (k a). Qed.

Lemma get_raises (obj : value) (k : str) (default : value) (e : exn) :
  Py.get obj k default = Raise e -> exn_cls e = AttributeError.
Proof. destruct obj; cbn; intros [= <-]; reflexivity. Qed.

Lemma iter_raises (v : value) (e : exn) :
  Py.iter v = Raise e -> exn_cls e = TypeError.
Proof. destruct v; cbn; intros [= <-]; reflexivity. Qed.

Lemma safe_sum_raises (items : value) (e : exn) :
  _safe_sum float_of_str items = Raise e -> exn_cls e = TypeError.
Proof.
  unfold _safe_sum.
  destruct (Py.iter (Py.or_ items (VList []))) as [its|e'] eqn:E; cbn [bind];
    [discriminate|].
  intros [= <-]. exact (iter_raises _ E).
Qed.

Lemma derive_figures_ok (e n : float) :
  derive_figures e n
  = Ok {| essentials_total := e;
          non_essentials_total := n;
          total_spent := (e + n)%float;
          saving_remove := n;
          saving_half := (n / 2)%float |}.
Proof. reflexivity. Qed.

Lemma compute_figures_raises (essentials non_essentials : value) (e : exn) :
  compute_figures float_of_str essentials non_essentials = Raise e ->
  exn_cls e = TypeError.
Proof.
  unfold compute_figures.
  destruct (_safe_sum float_of_str essentials) as [a|e1] eqn:E1; cbn [bind];
    [|intros [= <-]; exact (safe_sum_raises _ E1)].
  destruct (_safe_sum float_of_str non_essentials) as [b|e2] eqn:E2; cbn [bind];
    [|intros [= <-]; exact (safe_sum_raises _ E2)].
  rewrite derive_figures_ok. discriminate.
Qed.

Lemma summary_section_returns (f : figures) :
  exists calls, summary_section format_fixed f = (calls, Ok tt).
Proof. eexists. reflexivity. Qed.

Lemma suggestions_section_raises (suggestions : value) (e : exn) :
  snd (suggestions_section format_value suggestions) = Raise e ->
  exn_cls e = TypeError.
Proof.
  unfold suggestions_section. destruct (Py.truthy suggestions); [|discriminate].
  destruct (Py.iter suggestions) as [items|e'] eqn:E; cbn; [discriminate|].
  intros [= <-]. exact (iter_raises _ E).
Qed.

(** [st.table] renders the value, or raises the exception of the library. *)
Lemma table_cases (data : value) :
  table table_error data = ([st_table data], Ok tt)
  \/ exists msg, table table_error data = ([], Raise (Exn TableError msg)).
Proof.
  unfold table. destruct (table_error data) as [msg|];
    [right; eexists; reflexivity | now left].
Qed.

(** The two tables at the end of the analysis block. *)
Lemma tables_raise (essentials non_essentials : value) (e : exn) :
  snd (emit (st_subheader (u "✅ Essentials")) ;;;
       table table_error essentials ;;;
       emit (st_subheader (u "🚫 Non-Essentials")) ;;;
       table table_error non_essentials) = Raise e ->
  exn_cls e = TableError.
Proof.
  destruct (table_cases essentials) as [-> | [msg ->]];
    [|cbn; intros [= <-]; reflexivity].
  destruct (table_cases non_essentials) as [-> | [msg ->]];
    [cbn; discriminate | cbn; intros [= <-]; reflexivity].
Qed.

(** What the analysis block can raise. *)
Lemma analysis_raises (half_prefix : str) (data : value) (e : exn) :
  snd (analysis float_of_str format_fixed format_value table_error half_prefix data)
  = Raise e ->
  exn_cls e = AttributeError \/ exn_cls e = TypeError \/ exn_cls e = TableError.
Proof.
  unfold analysis. destruct (Py.truthy data); [|discriminate].
  destruct data as [| | | | | |d]; try (cbn; intros [= <-]; now left).
  cbn [Py.get]. rewrite !ui_bind_lift.
  destruct (compute_figures float_of_str _ _) as [f|e'] eqn:Ef;
    [|cbn; intros [= <-]; right; left; exact (compute_figures_raises _ _ Ef)].
  rewrite ui_bind_lift.
  destruct (summary_section_returns f) as [c1 ->].
  destruct (savings_section_returns half_prefix f) as [c2 ->].
  destruct (suggestions_section format_value _) as [c3 [[]|e']] eqn:Es.
  - set (tables := ui_bind (emit (st_subheader (u "✅ Essentials"))) _).
    pose proof (@tables_raise _ _ e : snd tables = Raise e -> _) as Ht.
    destruct tables as [c4 [[]|e'']]; cbn; [discriminate|].
    intros [= <-]. right. right. now apply Ht.
  - cbn. intros [= <-]. right. left.
    exact (suggestions_section_raises _ (f_equal snd Es)).
Qed.

(** C4.  When the total spent is 0 the savings section makes no call, and
    the analysis is the analysis without that section; the division by the
    total is only made for a positive total, so that neither the section nor
    the analysis raises [ZeroDivisionError]. *)
Theorem no_savings_when_nothing_spent :
  (forall half_prefix f,
      (total_spent f =? 0)%float = true ->
      savings half_prefix f = ([], Ok tt))
  /\ (forall half_prefix data essentials non_essentials f,
         Py.get data (u "essentials") (VList []) = Ok essentials ->
         Py.get data (u "non_essentials") (VList []) = Ok non_essentials ->
         compute_figures float_of_str essentials non_essentials = Ok f ->
         (total_spent f =? 0)%float = true ->
         analysis float_of_str format_fixed format_value table_error half_prefix data
         = analysis_without_savings float_of_str format_fixed format_value table_error data)
  /\ (forall half_prefix f, exists calls, savings half_prefix f = (calls, Ok tt))
  /\ (forall half_prefix data e,
         snd (analysis float_of_str format_fixed format_value table_error half_prefix data)
         = Raise e ->
         exn_cls e <> ZeroDivisionError).
Proof.
  split; [exact savings_section_zero|].
  split; [|split; [exact savings_section_returns|]].
  - intros half_prefix data essentials non_essentials f He Hn Hf Hz.
    unfold analysis, analysis_without_savings.
    destruct (Py.truthy data); [|reflexivity].
    rewrite He, Hn. destruct data as [| | | | | |d]; try discriminate.
    cbn [Py.get]. rewrite !ui_bind_lift, Hf, !ui_bind_lift.
    rewrite (savings_section_zero half_prefix f Hz).
    destruct (summary_section_returns f) as [c1 ->].
    unfold ui_bind at 1. now rewrite ui_bind_nothing.
  - intros half_prefix data e H.
    destruct (analysis_raises _ _ H) as [-> | [-> | ->]]; discriminate.
Qed.

(** C5.  From any two totals the figures are derived, with the total spent
    their sum, the saving of removing the non-essentials their total, and the
    saving of halving them that total divided by 2; the analysis derives them
    from the two sums of [_safe_sum]. *)
Theorem savings_scenarios :
  (forall e n,
      exists f,
        derive_figures e n = Ok f
        /\ essentials_total f = e
        /\ non_essentials_total f = n
        /\ total_spent f = (e + n)%float
        /\ saving_remove f = n
        /\ saving_half f = (n / 2)%float)
  /\ (forall essentials non_essentials : list value,
         exists e n,
           _safe_sum float_of_str (VList essentials) = Ok e
           /\ _safe_sum float_of_str (VList non_essentials) = Ok n
           /\ compute_figures float_of_str (VList essentials) (VList non_essentials)
              = derive_figures e n).
Proof.
  split.
  - intros e n. eexists. split; [apply derive_figures_ok|]. repeat split.
  - intros essentials non_essentials.
    exists (fold_left (safe_sum_step float_of_str) essentials 0%float),
           (fold_left (safe_sum_step float_of_str) non_essentials 0%float).
    unfold compute_figures. rewrite !safe_sum_list. repeat split.
Qed.

End AnalysisFacts.

Lemma no_savings_when_nothing_spent_witness :
  analysis float_of_digits format_fixed_exact format_scalar table_error_sample [] nothing_bought
  = analysis_without_savings float_of_digits format_fixed_exact format_scalar
      table_error_sample nothing_bought
  /\ fst (analysis float_of_digits format_fixed_exact format_scalar table_error_sample []
            nothing_bought)
     = [st_subheader (u "📊 Summary");
        st_write (VStr (u "**Total Spent:** Rs.0.00"));
        st_write (VStr (u "**Essentials:** Rs.0.00"));
        st_write (VStr (u "**Non-Essentials:** Rs.0.00"));
        st_subheader (u "📝 Suggestions");
        st_write (VStr (u "- Add items"));
        st_subheader (u "✅ Essentials");
        st_table (VList []);
        st_subheader (u "🚫 Non-Essentials");
        st_table (VList [])].
Proof.
  destruct (no_savings_when_nothing_spent float_of_digits format_fixed_exact format_scalar
              table_error_sample)
    as (_ & Hsame & _).
  split.
  - apply (Hsame [] nothing_bought (VList []) (VList [])
             {| essentials_total := 0; non_essentials_total := 0; total_spent := 0;
                saving_remove := 0; saving_half := 0 |}); reflexivity.
  - vm_compute. reflexivity.
Defined.

(** The scenario of the specification: Milk at 3 is essential, Chips at 4 is
    not. *)
Example milk_and_chips_figures :
  compute_figures float_of_digits
    (VList [line_item "Milk" (VInt 3)]) (VList [line_item "Chips" (VInt 4)])
  = Ok {| essentials_total := 3; non_essentials_total := 4; total_spent := 7;
          saving_remove := 4; saving_half := 2 |}.
Proof. reflexivity. Qed.

Example milk_and_chips_analysis :
  analysis float_of_digits format_fixed_exact format_scalar table_error_sample [] milk_and_chips
  = ([st_subheader (u "📊 Summary");
      st_write (VStr (u "**Total Spent:** Rs.7.00"));
      st_write (VStr (u "**Essentials:** Rs.3.00"));
      st_write (VStr (u "**Non-Essentials:** Rs.4.00"));
      st_subheader (u "💰 Potential Savings");
      st_write (VStr (u "Remove all non-essentials: Save **Rs.4.00** (57.1%)"));
      st_write (VStr (u "Reduce non-essentials by 50%: Save **Rs.2.00** (28.6%)"));
      st_subheader (u "📝 Suggestions");
      st_write (VStr (u "- Buy less"));
      st_subheader (u "✅ Essentials");
      st_table (VList [line_item "Milk" (VInt 3)]);
      st_subheader (u "🚫 Non-Essentials");
      st_table (VList [line_item "Chips" (VInt 4)])],
     Ok tt).
Proof. vm_compute. reflexivity. Qed.

(** The total is the binary64 one: each addition is rounded. *)
Example total_is_rounded :
  _safe_sum float_of_digits
    (VList [line_item "Tea" (VFloat 0x1.999999999999ap-4);
            line_item "Salt" (VFloat 0x1.999999999999ap-3)])
  = Ok 0x1.3333333333334p-2%float
  /\ (0x1.3333333333334p-2 =? 0x1.3333333333333p-2)%float = false.
Proof. split; reflexivity. Qed.

(** A result with only [essentials] goes through the analysis, the missing
    keys read as empty lists. *)
Example partial_result_is_analysed :
  analyze_text float_of_digits format_fixed_exact format_scalar table_error_sample json_loads_sample
    (completes_with partial_content) milk_list
  = ([st_subheader (u "📊 Summary");
      st_write (VStr (u "**Total Spent:** Rs.3.00"));
      st_write (VStr (u "**Essentials:** Rs.3.00"));
      st_write (VStr (u "**Non-Essentials:** Rs.0.00"));
      st_subheader (u "💰 Potential Savings");
      st_write (VStr (u "Remove all non-essentials: Save **Rs.0.00** (0.0%)"));
      st_write (VStr (u "Reduce non-essentials by 50%: Save **Rs.0.00** (0.0%)"));
      st_subheader (u "✅ Essentials");
      st_table (VList [line_item "Milk" (VInt 3)]);
      st_subheader (u "🚫 Non-Essentials");
      st_table (VList [])],
     Ok tt).
Proof. vm_compute. reflexivity. Qed.

(** A result that is an array is handed to the analysis as it is, where
    [data.get] raises. *)
Example array_result_breaks_the_analysis :
  analyze_text float_of_digits format_fixed_exact format_scalar table_error_sample json_loads_sample
    (completes_with array_content) milk_list
  = ([], Raise (Py.no_attribute (VList [VInt 1; VInt 2]) (u "get"))).
Proof. vm_compute. reflexivity. Qed.

(** Content that is not JSON is rendered, and nothing is analysed. *)
Example prose_is_rendered :
  analyze_text float_of_digits format_fixed_exact format_scalar table_error_sample json_loads_sample
    (completes_with prose_content) milk_list
  = ([st_error (u "AI did not return valid JSON. Showing raw content:");
      st_write (VStr prose_content)],
     Ok tt).
Proof. vm_compute. reflexivity. Qed.

(** * Further properties *)

(** ** White space *)

Lemma lstrip_all_space (s : str) :
  Str.lstrip s = [] <-> forallb Str.is_space s = true.
Proof.
  induction s as [|c s IH]; cbn [Str.lstrip forallb]; [tauto|].
  destruct (Str.is_space c); cbn [andb]; [exact IH|]. split; discriminate.
Qed.

Lemma lstrip_split (s : str) :
  exists spaces, s = spaces ++ Str.lstrip s /\ forallb Str.is_space spaces = true.
Proof.
  induction s as [|c s (spaces & Hs & Hall)]; cbn [Str.lstrip].
  - exists []. now split.
  - destruct (Str.is_space c) eqn:E.
    + exists (c :: spaces). cbn [app forallb]. rewrite E, Hall. split; [now f_equal|reflexivity].
    + exists []. now split.
Qed.

Lemma lstrip_head (s : str) (c : char) (rest : str) :
  Str.lstrip s = c :: rest -> Str.is_space c = false.
Proof.
  induction s as [|a s IH]; cbn [Str.lstrip]; [discriminate|].
  destruct (Str.is_space a) eqn:E; [exact IH|]. now intros [= <- _].
Qed.

Lemma lstrip_fixed (s : str) :
  Str.lstrip s = s <-> match s with [] => True | c :: _ => Str.is_space c = false end.
Proof.
  destruct s as [|c s]; cbn [Str.lstrip]; [tauto|].
  destruct (Str.is_space c) eqn:E; split; intros H; try reflexivity; try discriminate.
  exfalso. destruct (lstrip_split s) as (spaces & Hs & _).
  apply (f_equal (@List.length _)) in Hs. apply (f_equal (@List.length _)) in H.
  rewrite length_app in Hs. cbn [List.length] in H. lia.
Qed.

Lemma lstrip_idempotent (s : str) : Str.lstrip (Str.lstrip s) = Str.lstrip s.
Proof.
  apply lstrip_fixed. destruct (Str.lstrip s) as [|c rest] eqn:E; [exact I|].
  exact (lstrip_head _ E).
Qed.

Lemma strip_all_space (s : str) :
  Str.strip s = [] <-> forallb Str.is_space s = true.
Proof.
  unfold Str.strip, Str.rstrip. split.
  - intros H. apply (f_equal (@rev _)) in H. rewrite rev_involutive in H.
    cbn [rev] in H. apply lstrip_all_space in H. rewrite forallb_forall in H.
    apply lstrip_all_space. destruct (Str.lstrip s) as [|c rest] eqn:E; [reflexivity|].
    pose proof (lstrip_head _ E) as Hc.
    rewrite (H c) in Hc; [discriminate|]. apply in_rev. rewrite rev_involutive. now left.
  - intros H. apply lstrip_all_space in H. now rewrite H.
Qed.

Lemma strip_trimmed (s : str) : trimmed (Str.strip s).
Proof.
  unfold trimmed, Str.strip, Str.rstrip. rewrite rev_involutive.
  split; [|apply lstrip_idempotent].
  set (t := Str.lstrip s).
  destruct (lstrip_split (rev t)) as (spaces & Hs & _).
  set (w := Str.lstrip (rev t)) in *.
  apply lstrip_fixed. destruct (rev w) as [|c rest] eqn:Ew; [exact I|].
  assert (Ht : t = (c :: rest) ++ rev spaces).
  { rewrite <- Ew, <- rev_app_distr, <- Hs. now rewrite rev_involutive. }
  pose proof (lstrip_idempotent s) as Hi. fold t in Hi. rewrite Ht in Hi.
  apply lstrip_fixed in Hi. exact Hi.
Qed.

Lemma strip_idempotent (s : str) : Str.strip (Str.strip s) = Str.strip s.
Proof.
  destruct (strip_trimmed s) as [H1 H2].
  unfold Str.strip at 1. unfold Str.rstrip. rewrite H1, H2. apply rev_involutive.
Qed.

(** ** The runs of the transcription client *)

Lemma line_text_stripped (line : value) (txt : str) :
  Ocr.line_text line = Ok txt -> trimmed txt.
Proof.
  unfold Ocr.line_text. destruct (Py.get line (u "text") (VStr [])) as [t|]; cbn [bind];
    [|discriminate].
  destruct t; cbn [Sub.strip]; try discriminate. intros [= <-]. apply strip_trimmed.
Qed.

Lemma page_lines_clean (ls : list value) :
  forall lines lines',
    Ocr.page_lines ls lines = Ok lines' ->
    Forall clean_line lines -> Forall clean_line lines'.
Proof.
  induction ls as [|line ls IH]; intros lines lines'; cbn [Ocr.page_lines].
  - now intros [= <-].
  - destruct (Ocr.line_text line) as [txt|] eqn:E; cbn [bind]; [|discriminate].
    intros H Hall. eapply IH; [exact H|]. destruct txt as [|c txt]; [exact Hall|].
    apply Forall_app. split; [exact Hall|]. constructor; [|constructor].
    split; [discriminate | eapply line_text_stripped; exact E].
Qed.

Lemma all_lines_clean (pages : list value) :
  forall lines lines',
    Ocr.all_lines pages lines = Ok lines' ->
    Forall clean_line lines -> Forall clean_line lines'.
Proof.
  induction pages as [|page pages IH]; intros lines lines'; cbn [Ocr.all_lines].
  - now intros [= <-].
  - destruct (l <- Py.get page (u "lines") (VList []) ;; Py.iter l) as [ls|];
      cbn [bind]; [|discriminate].
    destruct (Ocr.page_lines ls lines) as [lines1|] eqn:E; cbn [bind]; [|discriminate].
    intros H Hall. eapply IH; [exact H|]. eapply page_lines_clean; eassumption.
Qed.

(** What the [succeeded] branch returns: the sentinel, or lines joined. *)
Lemma read_text_returns (result_ : value) (s : str) :
  Ocr.read_text result_ = Ok s ->
  s = Ocr.no_text_found
  \/ exists lines, lines <> [] /\ Forall clean_line lines
                   /\ s = Str.join Str.newline lines.
Proof.
  unfold Ocr.read_text.
  destruct (Py.get result_ (u "analyzeResult") (VDict [])) as [analyze|]; cbn [bind];
    [|discriminate].
  destruct (r <- Py.get analyze (u "readResults") (VList []) ;; Py.iter r) as [pages|];
    cbn [bind]; [|discriminate].
  destruct (Ocr.all_lines pages []) as [lines|] eqn:E; cbn [bind]; [|discriminate].
  intros [= <-]. destruct lines as [|l lines]; [now left|]. right.
  exists (l :: lines). split; [discriminate|]. split; [|reflexivity].
  eapply all_lines_clean; [exact E | constructor].
Qed.

Lemma join_non_empty (sep : str) (lines : list str) :
  lines <> [] -> Forall clean_line lines -> Str.join sep lines <> [].
Proof.
  intros Hne Hall. destruct lines as [|l rest]; [congruence|].
  inversion Hall as [|? ? [Hl _] _]; subst. cbn [Str.join].
  destruct rest; [exact Hl|]. destruct l; [congruence | discriminate].
Qed.

(** A poll that returns read a terminal status. *)
Lemma poll_once_returns (o : outcome) (s : str) :
  Ocr.poll_once o = Ok (Ocr.Return s) ->
  exists d st,
    polled o d st
    /\ ((failed st /\ s = Ocr.ocr_failed)
        \/ (succeeded st /\ Ocr.read_text (VDict d) = Ok s)).
Proof.
  destruct o as [msg|resp]; cbn [Ocr.poll_once]; [discriminate|].
  destruct (raise_for_status resp) as [[]|] eqn:H1; cbn [bind]; [|discriminate].
  destruct (json resp) as [body| |] eqn:H2; cbn [decode_result bind];
    [|discriminate..].
  destruct body as [| | | | | |d]; cbn [Py.get bind]; try discriminate.
  destruct (Py.lookup d (u "status")) as [v|] eqn:H3.
  - destruct v as [| | | |status| |]; cbn [Sub.lower bind]; try discriminate.
    destruct (Str.eqb (Str.lower status) (u "succeeded")) eqn:E1.
    + destruct (Ocr.read_text (VDict d)) as [text|] eqn:Er; cbn [bind]; [|discriminate].
      intros [= <-]. exists d, (Status status). split; [now apply polled_status|].
      right. split; [|exact Er]. exists status. split; [reflexivity|].
      now apply lower_succeeded, str_eqb_eq.
    + destruct (Str.eqb (Str.lower status) (u "failed")) eqn:E2; [|discriminate].
      intros [= <-]. exists d, (Status status). split; [now apply polled_status|].
      left. split; [|reflexivity]. exists status. split; [reflexivity|].
      now apply lower_failed, str_eqb_eq.
  - cbn [Sub.lower bind Str.lower map]. discriminate.
Qed.

(** The loop makes some polls that go on, and then times out, or makes one
    more poll that returns or raises. *)
Lemma poll_loop_shape (svc : Ocr.service) (url : value) (n : nat) :
  forall first,
  exists k,
    k <= n
    /\ (forall i, i < k -> Ocr.poll_once (Ocr.poll svc (first + i) url) = Ok Ocr.Continue)
    /\ ((k = n /\ Ocr.poll_loop svc url n first = (poll_trace url k, Ok Ocr.ocr_timed_out))
        \/ (k < n
            /\ exists r,
                 Ocr.poll_loop svc url n first
                 = (poll_trace url k ++ [Ocr.get_operation url], r)
                 /\ ((exists s, Ocr.poll_once (Ocr.poll svc (first + k) url)
                                = Ok (Ocr.Return s) /\ r = Ok s)
                     \/ (exists e, Ocr.poll_once (Ocr.poll svc (first + k) url)
                                   = Raise e /\ r = Raise e)))).
Proof.
  induction n as [|n IH]; intros first.
  - exists 0. split; [lia|]. split; [intros i Hi; lia|]. left. now split.
  - cbn [Ocr.poll_loop].
    destruct (Ocr.poll_once (Ocr.poll svc first url)) as [[|s]|e] eqn:E.
    + destruct (IH (S first)) as (k & Hk & Hrun & Hend). exists (S k).
      split; [lia|]. split.
      * intros [|i] Hi; [now rewrite Nat.add_0_r|].
        rewrite Nat.add_succ_r, <- Nat.add_succ_l. apply Hrun. lia.
      * rewrite Nat.add_succ_r, <- Nat.add_succ_l.
        destruct Hend as [[-> ->]|(Hlt & r & -> & Hr)].
        -- left. now split.
        -- right. split; [lia|]. exists r. split; [reflexivity | exact Hr].
    + exists 0. split; [lia|]. split; [intros i Hi; lia|]. right. split; [lia|].
      rewrite Nat.add_0_r. exists (Ok s). split; [reflexivity|]. left. eauto.
    + exists 0. split; [lia|]. split; [intros i Hi; lia|]. right. split; [lia|].
      rewrite Nat.add_0_r. exists (Raise e). split; [reflexivity|]. right. eauto.
Qed.

(** The two ways of a run: no job handle and the submission alone, or a job
    handle and the loop. *)
Lemma transcribe_shape (svc : Ocr.service) (file_bytes : list N) :
  (exists r, Ocr.transcribe svc file_bytes = ([Ocr.post_analyze], r)
             /\ (r = Ok Ocr.no_operation_location \/ exists e, r = Raise e))
  \/ (exists url,
         job_accepted svc file_bytes url
         /\ Ocr.transcribe svc file_bytes
            = (Ocr.post_analyze :: fst (Ocr.poll_loop svc url 60 0),
               snd (Ocr.poll_loop svc url 60 0))).
Proof.
  unfold Ocr.transcribe, job_accepted.
  destruct (Ocr.submit svc file_bytes) as [msg|resp] eqn:Hs.
  - left. eexists. split; [reflexivity|]. right. eauto.
  - destruct (raise_for_status resp) as [[]|e] eqn:H1; cbn [bind].
    + destruct (Ocr.operation_location resp) as [url|e] eqn:H2.
      * destruct (Py.truthy url) eqn:Ht; cbn [negb].
        -- right. exists url. split; [exists resp; auto|].
           now destruct (Ocr.poll_loop svc url 60 0).
        -- left. eexists. split; [reflexivity|]. now left.
      * left. eexists. split; [reflexivity|]. right. eauto.
    + left. eexists. split; [reflexivity|]. right. eauto.
Qed.

Lemma extract_transcribe (svc : Ocr.service) (file_bytes : list N) :
  Ocr.extract_text_from_receipt svc file_bytes
  = (fst (Ocr.transcribe svc file_bytes),
     try_except (snd (Ocr.transcribe svc file_bytes)) Ocr.ocr_error).
Proof.
  unfold Ocr.extract_text_from_receipt. now destruct (Ocr.transcribe svc file_bytes).
Qed.

Lemma ocr_error_marked (e : exn) : Str.startswith (Ocr.ocr_error e) warning_marker = true.
Proof. reflexivity. Qed.

(** X1.  Whatever the service answers, a run of the transcription client is
    the submission, then at most 60 polls: each poll but possibly the last is
    followed by a sleep of 1, and nothing else is called. *)
Theorem transcription_makes_at_most_60_polls (svc : Ocr.service) (file_bytes : list N) :
  exists url k tail,
    fst (Ocr.extract_text_from_receipt svc file_bytes)
    = Ocr.post_analyze :: poll_trace url k ++ tail
    /\ ((tail = [] /\ k <= 60) \/ (tail = [Ocr.get_operation url] /\ k < 60))
    /\ polls (fst (Ocr.extract_text_from_receipt svc file_bytes)) <= 60
    /\ filter is_sleep (fst (Ocr.extract_text_from_receipt svc file_bytes))
       = repeat (Ocr.sleep 1) k.
Proof.
  rewrite extract_transcribe. cbn [fst].
  destruct (transcribe_shape svc file_bytes) as [(r & -> & _)|(url & _ & ->)].
  - exists VNone, 0, []. cbn [fst]. split; [reflexivity|].
    split; [left; split; [reflexivity | lia]|]. split; [cbn; lia | reflexivity].
  - cbn [fst].
    destruct (poll_loop_shape svc url 60 0) as (k & Hk & _ & [[-> ->]|(Hlt & r & -> & _)]).
    + exists url, 60, []. cbn [fst]. rewrite app_nil_r. split; [reflexivity|].
      split; [left; split; [reflexivity | lia]|]. split; reflexivity.
    + exists url, k, [Ocr.get_operation url]. cbn [fst]. split; [reflexivity|].
      split; [right; now split|]. split.
      * rewrite polls_until. lia.
      * change (filter is_sleep (Ocr.post_analyze :: ?l)) with (filter is_sleep l).
        cbn [filter is_sleep]. rewrite sleeps_poll_trace. cbn. now rewrite app_nil_r.
Qed.

(** What a run returns: a text with the warning marker, or the lines of a
    poll that read [succeeded]. *)
Lemma extract_cases (svc : Ocr.service) (file_bytes : list N) :
  Str.startswith (snd (Ocr.extract_text_from_receipt svc file_bytes)) warning_marker = true
  \/ exists url k d st lines,
       job_accepted svc file_bytes url
       /\ k < 60
       /\ (forall i, i < k -> Ocr.poll_once (Ocr.poll svc i url) = Ok Ocr.Continue)
       /\ polled (Ocr.poll svc k url) d st /\ succeeded st
       /\ lines <> [] /\ Forall clean_line lines
       /\ Ocr.extract_text_from_receipt svc file_bytes
          = (Ocr.post_analyze :: poll_trace url k ++ [Ocr.get_operation url],
             Str.join Str.newline lines).
Proof.
  rewrite extract_transcribe.
  destruct (transcribe_shape svc file_bytes) as [(r & -> & Hr)|(url & Hjob & ->)].
  - left. destruct Hr as [->|[e ->]]; reflexivity.
  - cbn [fst snd].
    destruct (poll_loop_shape svc url 60 0)
      as (k & Hk & Hrun & [[-> ->]|(Hlt & r & -> & Hr)]); [now left|].
    cbn [fst snd]. destruct Hr as [(s & Hs & ->)|(e & _ & ->)]; [|now left].
    cbn [Nat.add] in Hs.
    destruct (poll_once_returns _ Hs) as (d & st & Hp & [[_ ->]|[Hsucc Hread]]);
      [now left|].
    destruct (read_text_returns _ Hread) as [->|(lines & Hne & Hall & ->)]; [now left|].
    right. exists url, k, d, st, lines. repeat split; auto.
Qed.

(** X2.  The text a run returns is never empty, so that the receipt tab
    always shows it and never its [(No text extracted)]. *)
Theorem transcription_text_is_never_empty (svc : Ocr.service) (file_bytes : list N) :
  snd (Ocr.extract_text_from_receipt svc file_bytes) <> [].
Proof.
  destruct (extract_cases svc file_bytes)
    as [H|(url & k & d & st & lines & _ & _ & _ & _ & _ & Hne & Hall & ->)].
  - intros E. rewrite E in H. discriminate H.
  - cbn [snd]. now apply join_non_empty.
Qed.

(** X3.  A returned text that does not start with the warning marker is
    genuine: the job was accepted, a poll (after polls that went on) read
    [succeeded], and the text is the lines of its result joined by newlines,
    each line non-empty and without white space at its ends. *)
Theorem unmarked_text_is_extracted_text (svc : Ocr.service) (file_bytes : list N) :
  Str.startswith (snd (Ocr.extract_text_from_receipt svc file_bytes)) warning_marker = false ->
  exists url k d st lines,
    job_accepted svc file_bytes url
    /\ k < 60
    /\ polled (Ocr.poll svc k url) d st /\ succeeded st
    /\ lines <> [] /\ Forall clean_line lines
    /\ Ocr.extract_text_from_receipt svc file_bytes
       = (Ocr.post_analyze :: poll_trace url k ++ [Ocr.get_operation url],
          Str.join Str.newline lines).
Proof.
  intros H.
  destruct (extract_cases svc file_bytes)
    as [H'|(url & k & d & st & lines & H1 & H2 & _ & H3 & H4 & H5 & H6 & H7)].
  - congruence.
  - exists url, k, d, st, lines. auto 10.
Qed.

Lemma unmarked_text_is_extracted_text_witness :
  exists lines,
    lines <> [] /\ Forall clean_line lines
    /\ snd (Ocr.extract_text_from_receipt succeeds_at_second [])
       = Str.join Str.newline lines.
Proof.
  destruct (@unmarked_text_is_extracted_text succeeds_at_second [])
    as (url & k & d & st & lines & _ & _ & _ & _ & Hne & Hall & Hrun).
  - vm_compute. reflexivity.
  - exists lines. split; [exact Hne|]. split; [exact Hall|]. now rewrite Hrun.
Defined.

Lemma http_error_raises (resp : response) :
  (400 <= status_code resp < 600)%Z ->
  raise_for_status resp = Raise (Exn HTTPError (error_text resp)).
Proof.
  intros [H1 H2]. unfold raise_for_status.
  apply Z.leb_le in H1. apply Z.ltb_lt in H2. now rewrite H1, H2.
Qed.

Lemma poll_fails_raises (o : outcome) (e : exn) :
  poll_fails o e -> Ocr.poll_once o = Raise e.
Proof.
  intros [msg|resp H|resp msg H1 H2|resp l msg H1 H2|resp body H1 H2 H3
         |resp d v H1 H2 H3 H4];
    cbn [Ocr.poll_once].
  - reflexivity.
  - now rewrite (http_error_raises _ H).
  - now rewrite H1, H2.
  - now rewrite H1, H2.
  - rewrite H1, H2. cbn [bind decode_result].
    destruct body; try reflexivity. now destruct (H3 d).
  - rewrite H1, H2. cbn [bind decode_result Py.get]. rewrite H3.
    destruct v; try reflexivity. now destruct (H4 s).
Qed.

(** X4.  A submission that fails, by a transport failure or by an HTTP error
    status, is the only call of the run: no poll is made, and the text
    returned is the [OCR error] with the message of the failure. *)
Theorem failed_submission_is_the_only_call (svc : Ocr.service) (file_bytes : list N) :
  (forall msg,
      Ocr.submit svc file_bytes = Fails msg ->
      Ocr.extract_text_from_receipt svc file_bytes
      = ([Ocr.post_analyze], u "⚠️ OCR error: " ++ msg))
  /\ (forall resp,
         Ocr.submit svc file_bytes = Responds resp ->
         (400 <= status_code resp < 600)%Z ->
         Ocr.extract_text_from_receipt svc file_bytes
         = ([Ocr.post_analyze], u "⚠️ OCR error: " ++ error_text resp)).
Proof.
  split.
  - intros msg H. unfold Ocr.extract_text_from_receipt, Ocr.transcribe. now rewrite H.
  - intros resp H Hs. unfold Ocr.extract_text_from_receipt, Ocr.transcribe.
    now rewrite H, (http_error_raises _ Hs).
Qed.

Lemma failed_submission_is_the_only_call_witness :
  Ocr.extract_text_from_receipt service_is_down []
  = ([Ocr.post_analyze], u "⚠️ OCR error: Connection refused")
  /\ Ocr.extract_text_from_receipt refuses_key []
     = ([Ocr.post_analyze], u "⚠️ OCR error: 401 Client Error: Unauthorized").
Proof.
  split.
  - rewrite (proj1 (failed_submission_is_the_only_call service_is_down [])
               (u "Connection refused") eq_refl).
    vm_compute. reflexivity.
  - rewrite (proj2 (failed_submission_is_the_only_call refuses_key []) unauthorized eq_refl).
    + vm_compute. reflexivity.
    + cbn. lia.
Defined.

(** X5.  A poll that raises, after polls that went on, is the last call of
    the run, and the text returned is the [OCR error] with the message of its
    exception: no sleep and no further poll follow. *)
Theorem failed_poll_ends_the_run
  (svc : Ocr.service) (file_bytes : list N) (url : value) (k : nat) (e : exn) :
  job_accepted svc file_bytes url ->
  k < 60 ->
  (forall i, i < k -> still_running (Ocr.poll svc i url)) ->
  poll_fails (Ocr.poll svc k url) e ->
  Ocr.extract_text_from_receipt svc file_bytes
  = (Ocr.post_analyze :: poll_trace url k ++ [Ocr.get_operation url],
     u "⚠️ OCR error: " ++ exn_msg e).
Proof.
  intros Hjob Hk Hrun Hfail. rewrite (extract_after_submit Hjob).
  rewrite (@poll_loop_returns svc url k (Raise e) Hk Hrun); [reflexivity|].
  right. exists e. split; [now apply poll_fails_raises | reflexivity].
Qed.

Lemma failed_poll_ends_the_run_witness :
  Ocr.extract_text_from_receipt null_status_at_second []
  = ([Ocr.post_analyze;
      Ocr.get_operation (VStr job_url); Ocr.sleep 1;
      Ocr.get_operation (VStr job_url)],
     u "⚠️ OCR error: 'NoneType' object has no attribute 'lower'").
Proof.
  rewrite (@failed_poll_ends_the_run null_status_at_second [] (VStr job_url) 1
             (Py.no_attribute VNone (u "lower"))).
  - vm_compute. reflexivity.
  - apply accepted_job.
  - lia.
  - intros i Hi. cbn [null_status_at_second Ocr.poll].
    replace (Nat.ltb i 1) with true by (symmetry; apply Nat.ltb_lt; exact Hi).
    apply (running_status "running"); vm_compute; discriminate.
  - apply (@fails_no_string _ [(u "status", VNone)] VNone); try reflexivity.
    intros s. discriminate.
Defined.

(** X6.  A non-empty [Operation-Location] header, whatever the case of the
    letters of its name, gives the job URL: the body is not read, be it no
    JSON or another URL.  Without the header (or with an empty one) the URL
    is the [operationLocation] of the body. *)
Theorem header_gives_the_job_url :
  (forall name url others status body txt err,
      ignoring_case name (u "Operation-Location") ->
      url <> [] ->
      Ocr.operation_location
        {| status_code := status; headers := (name, url) :: others; text := txt;
           json := body; error_text := err |}
      = Ok (VStr url))
  /\ (forall resp d url,
         Py.truthy (header_get (headers resp) (u "Operation-Location")) = false ->
         json resp = Decoded (VDict d) ->
         Py.lookup d (u "operationLocation") = Some url ->
         Ocr.operation_location resp = Ok url).
Proof.
  split.
  - intros name url others status body txt err Hname Hurl.
    unfold Ocr.operation_location. cbn [headers header_get].
    apply lower_ignoring_case in Hname. rewrite Hname, str_eqb_refl.
    cbn [Py.truthy]. now destruct url.
  - intros resp d url Hh Hj Hl. unfold Ocr.operation_location.
    rewrite Hh, Hj. cbn [decode_result bind Py.get]. now rewrite Hl.
Qed.

Lemma header_gives_the_job_url_witness :
  Ocr.operation_location
    {| status_code := 202; headers := [(u "operation-location", job_url)]; text := [];
       json := Undecodable decoding_error; error_text := [] |}
  = Ok (VStr job_url)
  /\ Ocr.operation_location
       (no_handle (Decoded (VDict [(u "operationLocation", VStr job_url)])))
     = Ok (VStr job_url).
Proof.
  destruct header_gives_the_job_url as [Hheader Hbody]. split.
  - apply Hheader; [|discriminate].
    apply lower_ignoring_case. vm_compute. reflexivity.
  - apply (Hbody _ [(u "operationLocation", VStr job_url)]); reflexivity.
Defined.

(** The loop reads only the polls of the attempts it makes. *)
Lemma poll_loop_agree (svc svc' : Ocr.service) (url : value) (n : nat) :
  forall first,
    (forall i, i < n -> Ocr.poll svc (first + i) url = Ocr.poll svc' (first + i) url) ->
    Ocr.poll_loop svc url n first = Ocr.poll_loop svc' url n first.
Proof.
  induction n as [|n IH]; intros first H; cbn [Ocr.poll_loop]; [reflexivity|].
  assert (H0 : Ocr.poll svc first url = Ocr.poll svc' first url)
    by (rewrite <- (Nat.add_0_r first); apply H; lia).
  rewrite H0.
  rewrite (IH (S first)); [reflexivity|].
  intros i Hi. rewrite Nat.add_succ_l, <- Nat.add_succ_r. apply H. lia.
Qed.

(** X7.  A run depends on the service through the submission and the first
    60 polls only: what the service would answer to a 61st poll or a later
    one changes neither the calls nor the text. *)
Theorem later_polls_are_never_read (svc svc' : Ocr.service) (file_bytes : list N) :
  agree svc svc' file_bytes ->
  Ocr.extract_text_from_receipt svc file_bytes
  = Ocr.extract_text_from_receipt svc' file_bytes.
Proof.
  intros [Hs Hp]. unfold Ocr.extract_text_from_receipt, Ocr.transcribe. rewrite Hs.
  destruct (Ocr.submit svc' file_bytes) as [msg|resp]; [reflexivity|].
  destruct (_ <- raise_for_status resp ;; Ocr.operation_location resp) as [url|];
    [|reflexivity].
  destruct (negb (Py.truthy url)); [reflexivity|].
  rewrite (@poll_loop_agree svc svc' url 60 0); [reflexivity|].
  intros i Hi. apply Hp. exact Hi.
Qed.

Lemma later_polls_are_never_read_witness :
  Ocr.extract_text_from_receipt finishes_too_late []
  = Ocr.extract_text_from_receipt never_finishes [].
Proof.
  apply later_polls_are_never_read. split; [reflexivity|].
  intros attempt url H. cbn [finishes_too_late never_finishes Ocr.poll].
  replace (Nat.ltb attempt 60) with true by (symmetry; apply Nat.ltb_lt; exact H).
  reflexivity.
Defined.

(** ** The aggregator on other inputs *)

Section FurtherAggregatorFacts.

Variable float_of_str : str -> option float.

Lemma step_without_get (total : float) (it : value) :
  (forall d, it <> VDict d) -> safe_sum_step float_of_str total it = total.
Proof.
  intros H. unfold safe_sum_step, price_term.
  destruct it; try reflexivity. now destruct (H d).
Qed.

Lemma fold_without_get (items : list value) (total : float) :
  Forall (fun it => forall d, it <> VDict d) items ->
  fold_left (safe_sum_step float_of_str) items total = total.
Proof.
  induction 1 as [|it items H _ IH]; cbn [fold_left]; [reflexivity|].
  now rewrite (step_without_get total H).
Qed.

(** X8.  [_safe_sum] returns exactly on the arguments a loop accepts after
    [or []]: a list, a dict, a string, or a false value; on a non-zero number
    or [True] it raises [TypeError].  A dict and a string sum to 0, their
    keys and characters being no line items. *)
Theorem safe_sum_raises_on_numbers :
  (forall items,
      iterates items = true -> exists total, _safe_sum float_of_str items = Ok total)
  /\ (forall items,
         iterates items = false ->
         exists e, _safe_sum float_of_str items = Raise e /\ exn_cls e = TypeError)
  /\ (forall d, _safe_sum float_of_str (VDict d) = Ok 0%float)
  /\ (forall s, _safe_sum float_of_str (VStr s) = Ok 0%float).
Proof.
  split; [|split; [|split]].
  - intros items H. unfold _safe_sum, Py.or_.
    destruct items as [|b|n|f|s|l|d]; cbn [iterates Py.truthy] in *;
      try (destruct (Py.truthy _); eexists; reflexivity);
      try (apply negb_true_iff in H; rewrite H; eexists; reflexivity).
    + eexists. reflexivity.
    + destruct s; eexists; reflexivity.
    + destruct l; eexists; reflexivity.
    + destruct d; eexists; reflexivity.
  - intros items H. unfold _safe_sum, Py.or_.
    destruct items as [|b|n|f|s|l|d]; cbn [iterates Py.truthy] in *; try discriminate;
      apply negb_false_iff in H; rewrite H; eexists; split; reflexivity.
  - intros d. unfold _safe_sum, Py.or_. destruct d as [|kv d]; [reflexivity|].
    cbn [Py.truthy Py.iter bind]. f_equal. apply fold_without_get.
    apply Forall_forall. intros it Hin. apply in_map_iff in Hin.
    destruct Hin as (x & <- & _). discriminate.
  - intros s. unfold _safe_sum, Py.or_. destruct s as [|c s]; [reflexivity|].
    cbn [Py.truthy Py.iter bind]. f_equal. apply fold_without_get.
    apply Forall_forall. intros it Hin. apply in_map_iff in Hin.
    destruct Hin as (x & <- & _). discriminate.
Qed.

Lemma same_price_step (it it' : value) (total : float) :
  same_price it it' ->
  safe_sum_step float_of_str total it = safe_sum_step float_of_str total it'.
Proof.
  intros (d & d' & -> & -> & H). unfold safe_sum_step, price_term.
  cbn [Py.get bind]. now rewrite H.
Qed.

(** X9.  Only the price of a line item enters the sum: items that agree on
    their [price] entries give the same sum, whatever their names and
    quantities (a quantity is not multiplied in). *)
Theorem only_prices_are_summed (items items' : list value) :
  Forall2 same_price items items' ->
  _safe_sum float_of_str (VList items) = _safe_sum float_of_str (VList items').
Proof.
  intros H. rewrite !safe_sum_list. f_equal. generalize 0%float.
  induction H as [|it it' items items' Hp _ IH]; intros total; cbn [fold_left];
    [reflexivity|].
  rewrite (same_price_step total Hp). apply IH.
Qed.

End FurtherAggregatorFacts.

Lemma safe_sum_raises_on_numbers_witness :
  (exists e, _safe_sum float_of_digits (VInt 5) = Raise e /\ exn_cls e = TypeError)
  /\ (exists total, _safe_sum float_of_digits (VInt 0) = Ok total).
Proof.
  destruct (safe_sum_raises_on_numbers float_of_digits) as (Hok & Hraise & _).
  split; [apply Hraise | apply Hok]; reflexivity.
Defined.

Lemma only_prices_are_summed_witness :
  _safe_sum float_of_digits (VList [chips 1; line_item "Milk" (VInt 3)])
  = _safe_sum float_of_digits (VList [chips 2; line_item "Bread" (VInt 3)]).
Proof.
  apply only_prices_are_summed.
  repeat constructor; eexists _, _; (split; [reflexivity|]); split; reflexivity.
Defined.

(** ** The classification client on other payloads *)

Section FurtherClassifierFacts.

Variable json_loads : str -> decoded.
Variable requests_post : str -> outcome.

#[local] Abbreviation classify' := (classify_items_with_ai json_loads requests_post).

(** X10.  A response body that is JSON but has no
    [choices[0].message.content] makes the client render the message of the
    subscript that raised, under [Unexpected error calling Azure OpenAI],
    and return [None]; so does content that is no string, with the
    [TypeError] of [json.loads]. *)
Theorem malformed_payload_is_reported
  (grocery_text : str) (resp : response) (payload : value) :
  requests_post grocery_text = Responds resp ->
  raise_for_status resp = Ok tt ->
  json resp = Decoded payload ->
  (forall e,
      completion_content payload = Raise e ->
      classify' grocery_text
      = ([st_error (u "Unexpected error calling Azure OpenAI: " ++ exn_msg e)], Ok VNone))
  /\ (forall content,
         completion_content payload = Ok content ->
         (forall s, content <> VStr s) ->
         classify' grocery_text
         = ([st_error (u "Unexpected error calling Azure OpenAI: "
                         ++ u "the JSON object must be str, bytes or bytearray, not "
                         ++ Py.type_name content)],
            Ok VNone)).
Proof.
  intros H0 H1 H2. split.
  - intros e H3. unfold classify_items_with_ai, try_block.
    rewrite H0, H1, H2. cbn [decode_result]. rewrite H3. cbn [bind].
    apply handlers_other;
      destruct (completion_content_class _ H3) as [-> | [-> | ->]]; discriminate.
  - intros content H3 Hc. unfold classify_items_with_ai, try_block.
    rewrite H0, H1, H2. cbn [decode_result]. rewrite H3. cbn [bind].
    destruct content; try (now destruct (Hc s)); cbn [loads];
      (rewrite handlers_other; [reflexivity | discriminate | discriminate]).
Qed.

End FurtherClassifierFacts.

Lemma malformed_payload_is_reported_witness :
  classify_items_with_ai json_loads_sample no_choices milk_list
  = ([st_error (u "Unexpected error calling Azure OpenAI: list index out of range")],
     Ok VNone)
  /\ classify_items_with_ai json_loads_sample null_content milk_list
     = ([st_error (u "Unexpected error calling Azure OpenAI: "
                     ++ u "the JSON object must be str, bytes or bytearray, not NoneType")],
        Ok VNone).
Proof.
  split.
  - destruct (@malformed_payload_is_reported json_loads_sample no_choices milk_list
                (ok_response (VDict [(u "choices", VList [])]))
                (VDict [(u "choices", VList [])]) eq_refl eq_refl eq_refl) as [H _].
    rewrite (H (Exn IndexError (u "list index out of range")) eq_refl).
    vm_compute. reflexivity.
  - destruct (@malformed_payload_is_reported json_loads_sample null_content milk_list
                (ok_response (chat_payload VNone)) (chat_payload VNone)
                eq_refl eq_refl eq_refl) as [_ H].
    rewrite (H VNone eq_refl); [|discriminate].
    vm_compute. reflexivity.
Defined.

(** ** The manual-entry tab and the analysis on other results *)

Section FurtherAnalysisFacts.

Variable float_of_str : str -> option float.
Variable format_fixed : nat -> float -> str.
Variable format_value : value -> str.
Variable table_error : value -> option str.
Variable json_loads : str -> decoded.
Variable requests_post : str -> outcome.

#[local] Abbreviation analyse := (analysis float_of_str format_fixed format_value table_error).
#[local] Abbreviation text_tab :=
  (analyze_text float_of_str format_fixed format_value table_error json_loads requests_post).

Lemma analyze_text_blank (grocery_input : str) :
  forallb Str.is_space grocery_input = true ->
  text_tab grocery_input = ([st_warning (u "Please enter your grocery list.")], Ok tt).
Proof.
  intros H. unfold analyze_text. apply strip_all_space in H. now rewrite H.
Qed.

Lemma analyze_text_sent (grocery_input : str) :
  forallb Str.is_space grocery_input = false ->
  text_tab grocery_input
  = ui_bind (classify_items_with_ai json_loads requests_post grocery_input) (analyse []).
Proof.
  intros H. unfold analyze_text.
  destruct (Str.strip grocery_input) eqn:E; [|reflexivity].
  apply strip_all_space in E. congruence.
Qed.

(** X11.  Input that is empty or all white space is answered with the
    warning alone, whatever the services would do; any other input is sent to
    the client as typed (not trimmed), and the client's result is
    analysed. *)
Theorem blank_input_is_not_sent (grocery_input : str) :
  (forallb Str.is_space grocery_input = true ->
   text_tab grocery_input = ([st_warning (u "Please enter your grocery list.")], Ok tt))
  /\ (forallb Str.is_space grocery_input = false ->
      text_tab grocery_input
      = ui_bind (classify_items_with_ai json_loads requests_post grocery_input)
                (analyse [])).
Proof.
  split; [apply analyze_text_blank | apply analyze_text_sent].
Qed.

Lemma analysis_false (half_prefix : str) (data : value) :
  Py.truthy data = false -> analyse half_prefix data = ([], Ok tt).
Proof. intros H. unfold analysis. now rewrite H. Qed.

(** X12.  When the client returns [None] (every failure it reports) or
    another false value (an empty object or array, [0], [false], an empty
    string), the tab renders what the client rendered and nothing more. *)
Theorem false_result_is_not_analysed
  (grocery_input : str) (calls : list st_call) (data : value) :
  forallb Str.is_space grocery_input = false ->
  classify_items_with_ai json_loads requests_post grocery_input = (calls, Ok data) ->
  Py.truthy data = false ->
  text_tab grocery_input = (calls, Ok tt).
Proof.
  intros Hb Hc Ht. rewrite (analyze_text_sent _ Hb), Hc.
  unfold ui_bind. rewrite (analysis_false _ _ Ht). now rewrite app_nil_r.
Qed.

Lemma safe_sum_iterates (items : value) :
  iterates items = true -> exists total, _safe_sum float_of_str items = Ok total.
Proof.
  intros H. unfold _safe_sum, Py.or_.
  destruct items as [|b|n|f|s|l|d]; cbn [iterates Py.truthy] in *;
    try (apply negb_true_iff in H; rewrite H; eexists; reflexivity).
  - eexists. reflexivity.
  - destruct s; eexists; reflexivity.
  - destruct l; eexists; reflexivity.
  - destruct d; eexists; reflexivity.
Qed.

Lemma iter_not_iterates (v : value) :
  iterates v = false ->
  Py.truthy v = true
  /\ Py.iter v = Raise (Exn TypeError (u "'" ++ Py.type_name v ++ u "' object is not iterable")).
Proof.
  destruct v; cbn [iterates]; try discriminate;
    intros H; apply negb_false_iff in H; split; (exact H || reflexivity).
Qed.

Lemma safe_sum_not_iterates (items : value) :
  iterates items = false ->
  _safe_sum float_of_str items
  = Raise (Exn TypeError (u "'" ++ Py.type_name items ++ u "' object is not iterable")).
Proof.
  intros H. destruct (iter_not_iterates _ H) as [Ht Hi].
  unfold _safe_sum, Py.or_. rewrite Ht, Hi. reflexivity.
Qed.

Lemma suggestions_iterates (suggestions : value) :
  iterates suggestions = true ->
  exists calls, suggestions_section format_value suggestions = (calls, Ok tt).
Proof.
  intros H. unfold suggestions_section.
  destruct (Py.truthy suggestions) eqn:Et; [|eexists; reflexivity].
  destruct suggestions; cbn [iterates] in H; try (rewrite Et in H; discriminate);
    eexists; reflexivity.
Qed.

Lemma suggestions_not_iterates (suggestions : value) :
  iterates suggestions = false ->
  exists e, suggestions_section format_value suggestions
            = ([st_subheader (u "📝 Suggestions")], Raise e).
Proof.
  intros H. destruct (iter_not_iterates _ H) as [Ht Hi].
  unfold suggestions_section. rewrite Ht, Hi. eexists. reflexivity.
Qed.

#[local] Abbreviation tables essentials non_essentials :=
  (emit (st_subheader (u "✅ Essentials")) ;;;
   table table_error essentials ;;;
   emit (st_subheader (u "🚫 Non-Essentials")) ;;;
   table table_error non_essentials).

Lemma analysis_dict (half_prefix : str) (d : list (str * value)) :
  d <> [] ->
  analyse half_prefix (VDict d)
  = (f <~ lift (compute_figures float_of_str (field d "essentials")
                                (field d "non_essentials")) ;;
     summary_section format_fixed f ;;;
     savings_section format_fixed half_prefix f ;;;
     suggestions_section format_value (field d "suggestions") ;;;
     tables (field d "essentials") (field d "non_essentials")).
Proof.
  intros H. unfold analysis. destruct d as [|kv d]; [congruence|].
  cbn [Py.truthy Py.get]. now rewrite !ui_bind_lift.
Qed.

Lemma summary_section_starts (f : figures) :
  exists calls,
    summary_section format_fixed f = (st_subheader (u "📊 Summary") :: calls, Ok tt).
Proof. eexists. reflexivity. Qed.

Lemma ui_bind_ok {A} (calls : list st_call) (k : unit -> ui A) :
  ui_bind (calls, Ok tt) k = (calls ++ fst (k tt), snd (k tt)).
Proof. unfold ui_bind. now destruct (k tt). Qed.

Lemma tables_return (essentials non_essentials : value) :
  snd (tables essentials non_essentials) = Ok tt
  <-> table_error essentials = None /\ table_error non_essentials = None.
Proof.
  unfold table.
  destruct (table_error essentials) as [m1|]; [split; [discriminate | now intros [? _]]|].
  destruct (table_error non_essentials) as [m2|];
    [split; [discriminate | now intros [_ ?]] | now split].
Qed.

Lemma first_table_raises (essentials non_essentials : value) (msg : str) :
  table_error essentials = Some msg ->
  tables essentials non_essentials
  = ([st_subheader (u "✅ Essentials")], Raise (Exn TableError msg)).
Proof. intros H. unfold table. now rewrite H. Qed.

(** X13.  A true result that is no object (an array, a number, a string)
    makes the analysis raise [AttributeError] at the first [data.get], with
    nothing rendered.  On a non-empty object the analysis returns exactly
    when each of the three entries is a sequence or false and [st.table]
    takes the two item entries.  When one of the two item entries does not
    iterate, nothing is rendered; when only the suggestions do not, the
    section title is the last thing rendered; and when [st.table] refuses
    the essentials (a string, for one, which does iterate), the summary has
    been rendered and the title of the table is the last thing rendered. *)
Theorem analysis_raises_on_other_shapes (half_prefix : str) :
  (forall data,
      Py.truthy data = true -> (forall d, data <> VDict d) ->
      analyse half_prefix data = ([], Raise (Py.no_attribute data (u "get"))))
  /\ (forall d,
         d <> [] ->
         (snd (analyse half_prefix (VDict d)) = Ok tt
          <-> (iterates (field d "essentials") && iterates (field d "non_essentials")
               && iterates (field d "suggestions") = true
               /\ table_error (field d "essentials") = None
               /\ table_error (field d "non_essentials") = None)))
  /\ (forall d,
         d <> [] ->
         iterates (field d "essentials") && iterates (field d "non_essentials") = false ->
         fst (analyse half_prefix (VDict d)) = [])
  /\ (forall d,
         d <> [] ->
         iterates (field d "essentials") && iterates (field d "non_essentials") = true ->
         iterates (field d "suggestions") = false ->
         exists calls,
           fst (analyse half_prefix (VDict d))
           = calls ++ [st_subheader (u "📝 Suggestions")])
  /\ (forall d msg,
         d <> [] ->
         iterates (field d "essentials") && iterates (field d "non_essentials")
         && iterates (field d "suggestions") = true ->
         table_error (field d "essentials") = Some msg ->
         exists calls,
           analyse half_prefix (VDict d)
           = (st_subheader (u "📊 Summary") :: calls ++ [st_subheader (u "✅ Essentials")],
              Raise (Exn TableError msg))).
Proof.
  split; [|split; [|split; [|split]]].
  - intros data Ht Hd. unfold analysis. rewrite Ht.
    destruct data; try reflexivity. now destruct (Hd d).
  - intros d Hd. rewrite (analysis_dict _ Hd). unfold compute_figures.
    destruct (iterates (field d "essentials")) eqn:E1; cbn [andb].
    + destruct (safe_sum_iterates _ E1) as [a ->]. cbn [bind].
      destruct (iterates (field d "non_essentials")) eqn:E2; cbn [andb].
      * destruct (safe_sum_iterates _ E2) as [b ->]. cbn [bind].
        rewrite derive_figures_ok, ui_bind_lift.
        destruct (summary_section_returns format_fixed
                    {| essentials_total := a; non_essentials_total := b;
                       total_spent := a + b; saving_remove := b;
                       saving_half := b / 2 |}) as [c1 ->].
        destruct (savings_section_returns format_fixed half_prefix
                    {| essentials_total := a; non_essentials_total := b;
                       total_spent := a + b; saving_remove := b;
                       saving_half := b / 2 |}) as [c2 ->].
        destruct (iterates (field d "suggestions")) eqn:E3.
        -- destruct (suggestions_iterates _ E3) as [c3 ->].
           rewrite !ui_bind_ok. cbn [snd]. rewrite tables_return.
           split; [intros [? ?]; auto | now intros (_ & ? & ?)].
        -- destruct (suggestions_not_iterates _ E3) as [e ->].
           split; [cbn; discriminate | intros [? _]; discriminate].
      * rewrite (safe_sum_not_iterates _ E2).
        split; [cbn; discriminate | intros [? _]; discriminate].
    + rewrite (safe_sum_not_iterates _ E1).
      split; [cbn; discriminate | intros [? _]; discriminate].
  - intros d Hd H. rewrite (analysis_dict _ Hd). unfold compute_figures.
    destruct (iterates (field d "essentials")) eqn:E1; cbn [andb] in H.
    + destruct (safe_sum_iterates _ E1) as [a ->].
      rewrite (safe_sum_not_iterates _ H). reflexivity.
    + rewrite (safe_sum_not_iterates _ E1). reflexivity.
  - intros d Hd H E3. apply andb_true_iff in H. destruct H as [E1 E2].
    rewrite (analysis_dict _ Hd). unfold compute_figures.
    destruct (safe_sum_iterates _ E1) as [a ->].
    destruct (safe_sum_iterates _ E2) as [b ->]. cbn [bind].
    rewrite derive_figures_ok, ui_bind_lift.
    destruct (summary_section_returns format_fixed
                {| essentials_total := a; non_essentials_total := b;
                   total_spent := a + b; saving_remove := b;
                   saving_half := b / 2 |}) as [c1 ->].
    destruct (savings_section_returns format_fixed half_prefix
                {| essentials_total := a; non_essentials_total := b;
                   total_spent := a + b; saving_remove := b;
                   saving_half := b / 2 |}) as [c2 ->].
    destruct (suggestions_not_iterates _ E3) as [e ->].
    exists (c1 ++ c2). cbn. now rewrite app_assoc.
  - intros d msg Hd H Ht. apply andb_true_iff in H. destruct H as [H E3].
    apply andb_true_iff in H. destruct H as [E1 E2].
    rewrite (analysis_dict _ Hd). unfold compute_figures.
    destruct (safe_sum_iterates _ E1) as [a ->].
    destruct (safe_sum_iterates _ E2) as [b ->]. cbn [bind].
    rewrite derive_figures_ok, ui_bind_lift.
    destruct (summary_section_starts
                {| essentials_total := a; non_essentials_total := b;
                   total_spent := a + b; saving_remove := b;
                   saving_half := b / 2 |}) as [c1 ->].
    destruct (savings_section_returns format_fixed half_prefix
                {| essentials_total := a; non_essentials_total := b;
                   total_spent := a + b; saving_remove := b;
                   saving_half := b / 2 |}) as [c2 ->].
    destruct (suggestions_iterates _ E3) as [c3 ->].
    rewrite !ui_bind_ok, (first_table_raises (field d "non_essentials") Ht). cbn [fst snd].
    exists (c1 ++ c2 ++ c3). cbn [app]. now rewrite <- !app_assoc.
Qed.

(** A key that is missing reads as the empty list. *)
Lemma lookup_default (d : list (str * value)) (key k : str) :
  Py.lookup d key = None ->
  match Py.lookup ((key, VList []) :: d) k with Some v => v | None => VList [] end
  = match Py.lookup d k with Some v => v | None => VList [] end.
Proof.
  intros H. cbn [Py.lookup]. destruct (Str.eqb key k) eqn:E; [|reflexivity].
  apply str_eqb_eq in E. subst k. now rewrite H.
Qed.

(** C7 (amended).  The client returns [None], or else the value [json.loads]
    gives for the completion content.  That value is returned as it is,
    whatever it is: no key is checked, and the manual-entry tab hands it to
    the analysis.  The analysis reads a key that is missing from the result
    as the empty list: it does on the result what it does on the result with
    the key bound to the empty list. *)
Theorem classify_returns_decoded_content :
  (forall grocery_text,
      exists calls v,
        classify_items_with_ai json_loads requests_post grocery_text = (calls, Ok v)
        /\ (v = VNone
            \/ exists resp payload s,
                 requests_post grocery_text = Responds resp
                 /\ json resp = Decoded payload
                 /\ completion_content payload = Ok (VStr s)
                 /\ json_loads s = Decoded v /\ calls = []))
  /\ (forall grocery_text resp payload s v,
         requests_post grocery_text = Responds resp ->
         raise_for_status resp = Ok tt ->
         json resp = Decoded payload ->
         completion_content payload = Ok (VStr s) ->
         json_loads s = Decoded v ->
         classify_items_with_ai json_loads requests_post grocery_text = ([], Ok v)
         /\ (forallb Str.is_space grocery_text = false ->
             text_tab grocery_text = analyse [] v))
  /\ (forall half_prefix d key,
         d <> [] ->
         Py.lookup d key = None ->
         analyse half_prefix (VDict d)
         = analyse half_prefix (VDict ((key, VList []) :: d))).
Proof.
  split; [exact (classify_cases json_loads requests_post)|]. split.
  - intros t resp payload s v H0 H1 H2 H3 H4.
    pose proof (@classify_decoded json_loads requests_post t resp payload s v
                  H0 H1 H2 H3 H4) as Hc.
    split; [exact Hc|]. intros Hb. rewrite (analyze_text_sent _ Hb), Hc.
    unfold ui_bind. now destruct (analyse [] v).
  - intros half_prefix d key Hd H. unfold analysis.
    destruct d as [|kv d]; [congruence|]. cbn [Py.truthy Py.get].
    now rewrite !(@lookup_default _ _ _ H).
Qed.

End FurtherAnalysisFacts.

Lemma classify_returns_decoded_content_witness :
  classify_items_with_ai json_loads_sample (completes_with partial_content) milk_list
  = ([], Ok (VDict [(u "essentials", VList [line_item "Milk" (VInt 3)])]))
  /\ analysis float_of_digits format_fixed_exact format_scalar table_error_sample []
       (VDict [(u "essentials", VList [line_item "Milk" (VInt 3)])])
     = analysis float_of_digits format_fixed_exact format_scalar table_error_sample []
         (VDict [(u "non_essentials", VList []);
                 (u "essentials", VList [line_item "Milk" (VInt 3)])]).
Proof.
  destruct (classify_returns_decoded_content float_of_digits format_fixed_exact
              format_scalar table_error_sample json_loads_sample
              (completes_with partial_content)) as (_ & Hdecoded & Hmissing).
  split.
  - eapply Hdecoded; reflexivity.
  - apply Hmissing; [discriminate | reflexivity].
Defined.

(** C7, as stated, fails: a completion whose object has only [essentials] is
    returned as the result, with neither [non_essentials] nor [suggestions]. *)
Lemma classify_returns_partial_result :
  let data := VDict [(u "essentials", VList [line_item "Milk" (VInt 3)])] in
  classify_items_with_ai json_loads_sample (completes_with partial_content) milk_list
  = ([], Ok data)
  /\ data <> VNone
  /\ is_classification_result data = false
  /\ Py.lookup [(u "essentials", VList [line_item "Milk" (VInt 3)])] (u "non_essentials")
     = None
  /\ Py.lookup [(u "essentials", VList [line_item "Milk" (VInt 3)])] (u "suggestions")
     = None.
Proof.
  cbv zeta. repeat split; try reflexivity. discriminate.
Qed.

Lemma blank_input_is_not_sent_witness :
  analyze_text float_of_digits format_fixed_exact format_scalar table_error_sample json_loads_sample
    (completes_with partial_content) [32%N; 10%N; 9%N]
  = ([st_warning (u "Please enter your grocery list.")], Ok tt).
Proof.
  apply (blank_input_is_not_sent float_of_digits format_fixed_exact format_scalar table_error_sample
           json_loads_sample (completes_with partial_content) [32%N; 10%N; 9%N]).
  reflexivity.
Defined.

Lemma false_result_is_not_analysed_witness :
  analyze_text float_of_digits format_fixed_exact format_scalar table_error_sample
    json_loads_empty_object (completes_with (u "{}")) milk_list
  = ([], Ok tt).
Proof.
  apply (@false_result_is_not_analysed float_of_digits format_fixed_exact format_scalar
           table_error_sample
           json_loads_empty_object (completes_with (u "{}")) milk_list [] (VDict []));
    vm_compute; reflexivity.
Defined.

Lemma analysis_raises_on_other_shapes_witness :
  analysis float_of_digits format_fixed_exact format_scalar table_error_sample []
    (VList [VInt 1; VInt 2])
  = ([], Raise (Py.no_attribute (VList [VInt 1; VInt 2]) (u "get")))
  /\ snd (analysis float_of_digits format_fixed_exact format_scalar table_error_sample []
            (VDict [(u "essentials", VInt 7)]))
     <> Ok tt
  /\ fst (analysis float_of_digits format_fixed_exact format_scalar table_error_sample []
            (VDict [(u "essentials", VInt 7)]))
     = []
  /\ (exists calls,
         analysis float_of_digits format_fixed_exact format_scalar table_error_sample []
           (VDict [(u "essentials", VStr (u "abc"))])
         = (st_subheader (u "📊 Summary") :: calls ++ [st_subheader (u "✅ Essentials")],
            Raise (Exn TableError (u "DataFrame constructor not properly called!")))).
Proof.
  destruct (analysis_raises_on_other_shapes float_of_digits format_fixed_exact
              format_scalar table_error_sample [])
    as (Hget & Hiff & Hnothing & _ & Htable).
  split; [|split; [|split]].
  - apply Hget; [reflexivity | discriminate].
  - intros H. apply Hiff in H; [|discriminate]. destruct H as [H _].
    vm_compute in H. discriminate.
  - apply Hnothing; [discriminate|]. vm_compute. reflexivity.
  - apply Htable; [discriminate | vm_compute; reflexivity | reflexivity].
Defined.

(** ** The text normalization client *)

Section PreprocessingFacts.

Variable preprocess_post : str -> outcome.

#[local] Abbreviation preprocess := (preprocess_ocr_text preprocess_post).

Lemma preprocess_error_marked (e : exn) :
  exists s, preprocess_error e = VStr s /\ Str.startswith s warning_marker = true.
Proof. eexists. split; reflexivity. Qed.

Lemma preprocess_fails (raw_text msg : str) :
  preprocess_post raw_text = Fails msg ->
  preprocess raw_text = VStr (u "⚠️ Error preprocessing OCR text: " ++ msg).
Proof.
  intros H. unfold preprocess_ocr_text, preprocess_block. now rewrite H.
Qed.

(** X14.  The client returns the content of the first completion as it is
    (not decoded, not trimmed, a string or not); a transport failure, an
    HTTP error status, a body that is not JSON and a body without the
    content each give a string that starts with the warning marker and
    carries the message.  Every result is one or the other. *)
Theorem preprocessing_returns_content_or_marked_error (raw_text : str) :
  (forall resp payload content,
      preprocess_post raw_text = Responds resp ->
      raise_for_status resp = Ok tt ->
      json resp = Decoded payload ->
      completion_content payload = Ok content ->
      preprocess raw_text = content)
  /\ (forall msg,
         preprocess_post raw_text = Fails msg ->
         preprocess raw_text = VStr (u "⚠️ Error preprocessing OCR text: " ++ msg))
  /\ (forall resp,
         preprocess_post raw_text = Responds resp ->
         (400 <= status_code resp < 600)%Z ->
         preprocess raw_text
         = VStr (u "⚠️ Error preprocessing OCR text: " ++ error_text resp))
  /\ (forall resp msg,
         preprocess_post raw_text = Responds resp ->
         raise_for_status resp = Ok tt ->
         json resp = Undecodable msg ->
         preprocess raw_text = VStr (u "⚠️ Error preprocessing OCR text: " ++ msg))
  /\ (forall resp payload e,
         preprocess_post raw_text = Responds resp ->
         raise_for_status resp = Ok tt ->
         json resp = Decoded payload ->
         completion_content payload = Raise e ->
         preprocess raw_text = VStr (u "⚠️ Error preprocessing OCR text: " ++ exn_msg e))
  /\ ((exists resp payload,
          preprocess_post raw_text = Responds resp
          /\ json resp = Decoded payload
          /\ completion_content payload = Ok (preprocess raw_text))
      \/ exists s, preprocess raw_text = VStr s /\ Str.startswith s warning_marker = true).
Proof.
  unfold preprocess_ocr_text, preprocess_block.
  split; [|split; [|split; [|split; [|split]]]].
  - intros resp payload content -> -> -> H. cbn [bind decode_result]. now rewrite H.
  - now intros msg ->.
  - intros resp -> H. now rewrite (http_error_raises _ H).
  - now intros resp msg -> -> ->.
  - intros resp payload e -> -> -> H. cbn [bind decode_result]. now rewrite H.
  - destruct (preprocess_post raw_text) as [msg|resp];
      [right; apply preprocess_error_marked|].
    destruct (raise_for_status resp); cbn [bind];
      [|right; apply preprocess_error_marked].
    destruct (json resp) as [payload|msg|l msg] eqn:Ej; cbn [bind decode_result];
      [|right; apply preprocess_error_marked..].
    destruct (completion_content payload) as [content|e] eqn:Ec;
      [|right; apply preprocess_error_marked].
    left. exists resp, payload. auto.
Qed.

End PreprocessingFacts.

Lemma preprocessing_returns_content_or_marked_error_witness :
  preprocess_ocr_text (completes_with (u " Milk - 1 - 3 ")) milk_list
  = VStr (u " Milk - 1 - 3 ")
  /\ preprocess_ocr_text null_content milk_list = VNone
  /\ preprocess_ocr_text is_down milk_list
     = VStr (u "⚠️ Error preprocessing OCR text: Connection refused")
  /\ preprocess_ocr_text no_choices milk_list
     = VStr (u "⚠️ Error preprocessing OCR text: list index out of range").
Proof.
  split; [|split; [|split]].
  - apply (preprocessing_returns_content_or_marked_error
             (completes_with (u " Milk - 1 - 3 ")) milk_list) with
      (resp := ok_response (chat_payload (VStr (u " Milk - 1 - 3 "))))
      (payload := chat_payload (VStr (u " Milk - 1 - 3 "))); reflexivity.
  - apply (preprocessing_returns_content_or_marked_error null_content milk_list) with
      (resp := ok_response (chat_payload VNone)) (payload := chat_payload VNone);
      reflexivity.
  - destruct (preprocessing_returns_content_or_marked_error is_down milk_list)
      as (_ & H & _).
    rewrite (H (u "Connection refused") eq_refl). vm_compute. reflexivity.
  - destruct (preprocessing_returns_content_or_marked_error no_choices milk_list)
      as (_ & _ & _ & _ & H & _).
    rewrite (H (ok_response (VDict [(u "choices", VList [])]))
               (VDict [(u "choices", VList [])])
               (Exn IndexError (u "list index out of range")) eq_refl eq_refl eq_refl eq_refl).
    vm_compute. reflexivity.
Defined.

(** ** The receipt tab *)

Lemma extract_text_non_empty (svc : Ocr.service) (file_bytes : list N) :
  non_empty (snd (Ocr.extract_text_from_receipt svc file_bytes)) = true.
Proof.
  destruct (extract_cases svc file_bytes)
    as [H|(url & k & d & st & lines & _ & _ & _ & _ & _ & Hne & Hall & ->)].
  - now destruct (snd (Ocr.extract_text_from_receipt svc file_bytes)).
  - cbn [snd]. pose proof (join_non_empty Str.newline Hne Hall) as H.
    now destruct (Str.join Str.newline lines).
Qed.

Lemma same_but_prefix_refl (format_fixed : nat -> float -> str) (calls : list st_call) :
  Forall2 (same_but_prefix format_fixed) calls calls.
Proof. induction calls; constructor; [now left | assumption]. Qed.

Section ReceiptTabFacts.

Variable svc : Ocr.service.
Variable preprocess_post : str -> outcome.
Variable json_loads : str -> decoded.
Variable requests_post : str -> outcome.
Variable float_of_str : str -> option float.
Variable format_fixed : nat -> float -> str.
Variable format_value : value -> str.
Variable table_error : value -> option str.

#[local] Abbreviation tab :=
  (receipt_tab svc preprocess_post json_loads requests_post float_of_str format_fixed
               format_value table_error).
#[local] Abbreviation ocr_text_of file_bytes :=
  (snd (Ocr.extract_text_from_receipt svc file_bytes)).

Lemma receipt_tab_gate (file_bytes : list N) (pressed : bool) :
  tab (Some file_bytes) pressed
  = if Str.startswith (ocr_text_of file_bytes) warning_marker
    then (extracted_text (ocr_text_of file_bytes), Ok tt)
    else
      let cleaned_text := preprocess_ocr_text preprocess_post (ocr_text_of file_bytes) in
      if pressed then
        let (calls, r) :=
          analyze_receipt json_loads requests_post float_of_str format_fixed format_value
                          table_error
                          cleaned_text in
        (extracted_text (ocr_text_of file_bytes) ++ preprocessed_text cleaned_text
           ++ map call calls, r)
      else (extracted_text (ocr_text_of file_bytes) ++ preprocessed_text cleaned_text,
            Ok tt).
Proof.
  unfold receipt_tab, extracted_text, preprocessed_text.
  pose proof (extract_text_non_empty svc file_bytes) as Hne. rewrite Hne.
  destruct (ocr_text_of file_bytes) as [|c s]; [discriminate|].
  cbn [andb]. now destruct (Str.startswith (c :: s) warning_marker).
Qed.

(** X15.  With a file uploaded the tab always shows the text the
    transcription returned, never [(No text extracted)]; when that text
    starts with the warning marker (every failure of the transcription) it
    does nothing else, whether the button is pressed or not and whatever the
    other services would answer.  Without a file it renders nothing. *)
Theorem marked_text_stops_the_receipt_tab (pressed : bool) :
  tab None pressed = ([], Ok tt)
  /\ (forall file_bytes,
         exists rest,
           fst (tab (Some file_bytes) pressed)
           = extracted_text (ocr_text_of file_bytes) ++ rest)
  /\ (forall file_bytes,
         Str.startswith (ocr_text_of file_bytes) warning_marker = true ->
         tab (Some file_bytes) pressed = (extracted_text (ocr_text_of file_bytes), Ok tt)).
Proof.
  split; [reflexivity|]. split.
  - intros file_bytes. rewrite receipt_tab_gate.
    destruct (Str.startswith _ warning_marker).
    + exists []. cbn [fst]. now rewrite app_nil_r.
    + cbn zeta. destruct pressed.
      * destruct (analyze_receipt _ _ _ _ _ _) as [calls r]. eexists. reflexivity.
      * eexists. reflexivity.
  - intros file_bytes H. now rewrite receipt_tab_gate, H.
Qed.

(** X16.  The preprocessed text is not checked for the marker: when the
    transcription succeeded and the normalization request fails, the error
    string is shown, and with the button pressed it is what the
    classification client is given as the grocery list, its result analysed
    with the [D:] prefix.  Without the button pressed the tab ends after the
    preprocessed text, whatever the classification service would answer. *)
Theorem preprocessing_error_is_classified (file_bytes : list N) (msg : str) :
  Str.startswith (ocr_text_of file_bytes) warning_marker = false ->
  preprocess_post (ocr_text_of file_bytes) = Fails msg ->
  let sentinel := u "⚠️ Error preprocessing OCR text: " ++ msg in
  tab (Some file_bytes) false
  = (extracted_text (ocr_text_of file_bytes) ++ preprocessed_text (VStr sentinel), Ok tt)
  /\ tab (Some file_bytes) true
     = (let (calls, r) :=
          ui_bind (classify_items_with_ai json_loads requests_post sentinel)
                  (analysis float_of_str format_fixed format_value table_error (u "D:")) in
        (extracted_text (ocr_text_of file_bytes) ++ preprocessed_text (VStr sentinel)
           ++ map call calls, r)).
Proof.
  intros Hm Hp sentinel. rewrite !receipt_tab_gate, Hm. cbn zeta.
  rewrite (preprocess_fails _ _ Hp). split; reflexivity.
Qed.

(** X17.  On the same result the analysis of the receipt tab returns or
    raises as the one of the manual-entry tab, and renders the same calls but
    for the line of the halved non-essentials, which has [Rs.D:] for
    [Rs.]. *)
Theorem tabs_differ_in_one_line (data : value) :
  snd (analysis float_of_str format_fixed format_value table_error [] data)
  = snd (analysis float_of_str format_fixed format_value table_error (u "D:") data)
  /\ Forall2 (same_but_prefix format_fixed)
       (fst (analysis float_of_str format_fixed format_value table_error [] data))
       (fst (analysis float_of_str format_fixed format_value table_error (u "D:") data)).
Proof.
  unfold analysis. destruct (Py.truthy data); [|split; [reflexivity | constructor]].
  destruct data as [| | | | | |d]; try (split; [reflexivity | constructor]).
  cbn [Py.get]. rewrite !ui_bind_lift.
  destruct (compute_figures float_of_str _ _) as [f|e];
    [|split; [reflexivity | constructor]].
  rewrite !ui_bind_lift.
  destruct (summary_section_returns format_fixed f) as [c1 ->].
  set (rest := ui_bind (suggestions_section format_value _) _).
  unfold savings_section. destruct (0 <? total_spent f)%float eqn:E.
  - rewrite !(percentage_positive _ E), !ui_bind_lift.
    unfold ui_bind, emit. destruct rest as [c [[]|e]]; cbn [fst snd app].
    + split; [reflexivity|]. apply Forall2_app; [apply same_but_prefix_refl|].
      constructor; [now left|]. constructor; [now left|].
      constructor; [right; eauto|]. apply same_but_prefix_refl.
    + split; [reflexivity|]. apply Forall2_app; [apply same_but_prefix_refl|].
      constructor; [now left|]. constructor; [now left|].
      constructor; [right; eauto|]. apply same_but_prefix_refl.
  - split; [reflexivity | apply same_but_prefix_refl].
Qed.

End ReceiptTabFacts.

Lemma marked_text_stops_the_receipt_tab_witness :
  receipt_tab answers_empty_body (completes_with (u "Milk - 1 - 3")) json_loads_sample
    (completes_with partial_content) float_of_digits format_fixed_exact format_scalar
    table_error_sample
    (Some []) true
  = (extracted_text (u "⚠️ OCR error: Expecting value: line 1 column 1 (char 0)"), Ok tt).
Proof.
  destruct (marked_text_stops_the_receipt_tab answers_empty_body
              (completes_with (u "Milk - 1 - 3")) json_loads_sample
              (completes_with partial_content) float_of_digits format_fixed_exact
              format_scalar table_error_sample true) as (_ & _ & H).
  rewrite (H []); vm_compute; reflexivity.
Defined.

Lemma preprocessing_error_is_classified_witness :
  receipt_tab succeeds_at_second is_down json_loads_sample (completes_with prose_content)
    float_of_digits format_fixed_exact format_scalar table_error_sample (Some []) true
  = (extracted_text (snd (Ocr.extract_text_from_receipt succeeds_at_second []))
       ++ preprocessed_text
            (VStr (u "⚠️ Error preprocessing OCR text: Connection refused"))
       ++ [call (st_error (u "AI did not return valid JSON. Showing raw content:"));
           call (st_write (VStr prose_content))],
     Ok tt).
Proof.
  destruct (@preprocessing_error_is_classified succeeds_at_second is_down json_loads_sample
              (completes_with prose_content) float_of_digits format_fixed_exact
              format_scalar table_error_sample [] (u "Connection refused")) as [_ H].
  - vm_compute. reflexivity.
  - reflexivity.
  - rewrite H. vm_compute. reflexivity.
Defined.
